(** * MidcapNifty options backtests: EMA momentum buying and cross selling

    A shallow embedding of the two strategy classes
    [MidcapOptionsStrategy] (src/backtest_buying_momentum.py) and
    [OptionSellingStrategy] (src/backtest_crossselling.py).

    Modelling conventions.
    - Python floats are exact rationals ([Q]).  The prices are numpy
      doubles, for which [round(x, 2)] is [rint(x * 100) / 100]; the model
      evaluates that formula exactly, so it gives the nearest hundredth,
      and no statement below rests on which way a half is rounded.
    - A [datetime.date] is a record of year, month and day, ordered through
      its proleptic Gregorian ordinal as in the datetime module; a wall-clock
      time is a number of seconds since midnight; a pandas [Timestamp] is the
      number of seconds [ordinal * 86400 + time].
    - The options folder is a function from scrip code to the rows of the CSV
      file, [None] when the file is missing or cannot be parsed.  It is an
      argument of every bar step, so a file may change between two bars.
    - A DataFrame is the list of its rows in index order.  Label lookup is
      [Index.asof] followed by [.loc], repeated labels included: with a
      repeated label in the index [Index.asof] raises for every query that
      is not itself a label, and both lookups turn the exception into "no
      price".  [.loc] on a repeated label yields a frame of rows instead of
      a row.  The strategies cannot use a frame (the bar raises at its
      first truth test on it) and the model has no value for one: [loc]
      answers [None] there, so a replay of the model follows the program up
      to the first bar that meets a frame.
    - The strategy object is a record of its attributes and each method is a
      function from the record to the updated record. *)

From Stdlib Require Import QArith ZArith List String Bool Lia Lqa Qround.
From Stdlib Require Import Sorting.Permutation.
Import ListNotations.

Local Open Scope Z_scope.

(* ------------------------------------------------------------------------- *)
(** ** Dates and times (the datetime module) *)

Record date := mk_date { year : Z; month : Z; day : Z }.

Definition date_eqb (a b : date) : bool :=
  (year a =? year b) && (month a =? month b) && (day a =? day b).

Definition opt_date_eqb (a : option date) (b : date) : bool :=
  match a with
  | None => false
  | Some d => date_eqb d b
  end.

Definition is_leap (y : Z) : bool :=
  (y mod 4 =? 0) && (negb (y mod 100 =? 0) || (y mod 400 =? 0)).

Definition days_in_month (y m : Z) : Z :=
  if (m =? 2) && is_leap y then 29
  else nth (Z.to_nat m) [-1; 31; 28; 31; 30; 31; 30; 31; 31; 30; 31; 30; 31] (-1).

Definition days_before_year (y : Z) : Z :=
  let p := y - 1 in p * 365 + p / 4 - p / 100 + p / 400.

Definition days_before_month (y m : Z) : Z :=
  nth (Z.to_nat m) [-1; 0; 31; 59; 90; 120; 151; 181; 212; 243; 273; 304; 334] (-1)
  + (if (2 <? m) && is_leap y then 1 else 0).

(** [date.toordinal()] *)
Definition toordinal (d : date) : Z :=
  days_before_year (year d) + days_before_month (year d) (month d) + day d.

(** [datetime.date(y, m, d)]: [None] stands for the ValueError raised on
    fields out of range. *)
Definition date_ctor (y m d : Z) : option date :=
  if (1 <=? y) && (y <=? 9999) && (1 <=? m) && (m <=? 12)
     && (1 <=? d) && (d <=? days_in_month y m)
  then Some (mk_date y m d) else None.

(** [datetime.time(h, m)] as seconds since midnight. *)
Definition time_of (h m : Z) : Z := h * 3600 + m * 60.

Record datetime := mk_datetime { dt_date : date; dt_time : Z }.

(** [pd.Timestamp(dt)] on the scale of the option files' index. *)
Definition timestamp_of (dt : datetime) : Z :=
  toordinal (dt_date dt) * 86400 + dt_time dt.

(* ------------------------------------------------------------------------- *)
(** ** Float comparisons and rounding on rationals *)

Definition Qlt_bool (x y : Q) : bool := negb (Qle_bool y x).

(** Truth value of a float: zero is false. *)
Definition truthy (x : Q) : bool := negb (Qeq_bool x 0).

(** [rint(x)]: the nearest integer, a half going to the even neighbour. *)
Definition round_half_even (x : Q) : Z :=
  let f := Qfloor x in
  match Qcompare (x - inject_Z f) (1 # 2) with
  | Lt => f
  | Gt => f + 1
  | Eq => if Z.even f then f else f + 1
  end.

(** [round(x, 2)] on a numpy double, [rint(x * 100) / 100], evaluated
    exactly.  The program multiplies and divides in doubles, so within an
    ulp of a half of a hundredth it may give the other neighbour. *)
Definition round2 (x : Q) : Q := (inject_Z (round_half_even (x * 100)) / 100)%Q.

(* ------------------------------------------------------------------------- *)
(** ** Option series: rows, index order, as-of lookup *)

Inductive side := CE | PE.

Definition side_name (t : side) : string :=
  match t with CE => "CE" | PE => "PE" end.

(** One row of an option CSV, keyed by its timestamp. *)
Record sample := mk_sample { s_ts : Z; s_high : Q; s_low : Q; s_close : Q }.

Definition folder := string -> option (list sample).

(** [index.is_monotonic_increasing] (repeats allowed) *)
Fixpoint is_monotonic_increasing (l : list Z) : bool :=
  match l with
  | [] => true
  | a :: r =>
      match r with
      | [] => true
      | b :: _ => (a <=? b) && is_monotonic_increasing r
      end
  end.

Section ByTimestamp.
Context {row : Type} (key : row -> Z).

Fixpoint insert_row (x : row) (l : list row) : list row :=
  match l with
  | [] => [x]
  | y :: r => if key x <=? key y then x :: l else y :: insert_row x r
  end.

(** [df.sort_index()]: rows in increasing timestamp order, ties kept in
    file order, as numpy's sort leaves them on a short index.  No statement
    below depends on the order of ties. *)
Definition sort_index (l : list row) : list row :=
  fold_right insert_row [] l.

(** The [if not df.index.is_monotonic_increasing: df.sort_index(...)]
    step of both loaders. *)
Definition sorted_on_load (l : list row) : list row :=
  if is_monotonic_increasing (map key l) then l else sort_index l.

(** [df.loc[label]]: the row of a label that occurs once.  [None] stands
    for the KeyError of a label that does not occur, which both lookups
    swallow, and for the frame that pandas returns for a label that occurs
    several times. *)
Definition loc (l : list row) (label : Z) : option row :=
  match filter (fun r => key r =? label) l with
  | [r] => Some r
  | _ => None
  end.
End ByTimestamp.

(** [index.is_unique] *)
Fixpoint is_unique (idx : list Z) : bool :=
  match idx with
  | [] => true
  | t :: rest => negb (existsb (Z.eqb t) rest) && is_unique rest
  end.

(** How many times a label occurs in the index. *)
Definition occurrences (label : Z) (idx : list Z) : nat :=
  List.length (filter (Z.eqb label) idx).

(** [index.get_indexer([ts], method="pad")] on a sorted index without
    repeats: the last label not after [ts], [None] (position -1) when every
    label is after it. *)
Fixpoint pad (idx : list Z) (ts : Z) : option Z :=
  match idx with
  | [] => None
  | t :: rest =>
      if t <=? ts then
        match pad rest ts with
        | Some u => Some u
        | None => Some t
        end
      else None
  end.

(** [index.asof(ts)] on an index in increasing order.  pandas tries
    [get_loc(ts)] first.  A label that occurs once is returned as it is.
    For a label that occurs several times [get_loc] gives a slice and
    [asof] returns [self[loc.indices(len(self))[-1]]], which is the label
    at the step of the slice, position 1.  When [ts] is not a label, [asof]
    falls back on [get_indexer([ts], method="pad")], which raises
    InvalidIndexError on an index with a repeated label.  [None] stands for
    NaT and for that exception: both lookups answer "no price" to either. *)
Definition index_asof (idx : list Z) (ts : Z) : option Z :=
  match occurrences ts idx with
  | O => if is_unique idx then pad idx ts else None
  | S O => Some ts
  | S (S _) => nth_error idx 1
  end.

(* ------------------------------------------------------------------------- *)
(** ** The buying variant: src/backtest_buying_momentum.py *)

Module Buying.

Local Open Scope Q_scope.

Definition LOT_SIZE : Q := 120.
Definition MAX_TRADES_DAY : Z := 2.
Definition TSL_TRIGGER : Q := 3000.
Definition TSL_STEP : Q := 500.
Definition TSL_INCREMENT : Q := 500.

(** [params]: qty defaults to LOT_SIZE and the runner does not override it. *)
Definition qty : Q := LOT_SIZE.

Inductive sl_mode_t := NONE | COST | TRAILING.
Inductive event := ENTRY | HOLD | TSL_UPDATE | EXIT.
Inductive reason := EXPIRY_FORCE | TSL_HIT | EMA_REVERSAL.

Definition reason_name (r : reason) : string :=
  match r with
  | EXPIRY_FORCE => "EXPIRY_FORCE"
  | TSL_HIT => "TSL_HIT"
  | EMA_REVERSAL => "EMA_REVERSAL"
  end.

Definition is_none (m : sl_mode_t) : bool :=
  match m with NONE => true | _ => false end.

(** What [next] reads of the spot feed at the current bar: the feed's
    clock, the raw time column, the expiry lines, the two scrip codes and
    the indicator lines at offsets 0 and -1. *)
Record bar := mk_bar {
  bar_dt : datetime;
  raw_time : datetime;
  expiry_day : Z;
  expiry_month : Z;
  expiry_year : Z;
  icici_scrip_code_ce : string;
  icici_scrip_code_pe : string;
  ema5 : Q;
  ema5_prev : Q;
  ema20_high : Q;
  ema20_high_prev : Q;
  ema20_low : Q;
  ema20_low_prev : Q
}.

Record ledger_row := mk_ledger_row {
  l_Date : date;
  l_Time : Z;
  l_Event : event;
  l_Ticker : string;
  l_Price : Q;
  l_PnL_INR : Q;
  l_SL_Price : Q;
  l_SL_Mode : sl_mode_t;
  l_Info : string
}.

Record summary_row := mk_summary_row {
  TradeID : Z;
  ScripName : string;
  BuyDateTime : option datetime;
  SellDateTime : datetime;
  BuyPrice : Q;
  SellPrice : Q;
  PnL : Q;
  ExitReason : reason
}.

(** A ledger file written by [close_trade]: the parts of its name and its
    rows. *)
Record trade_file := mk_trade_file {
  f_trade : Z;
  f_scrip : string;
  f_entry_date : option date;
  f_rows : list ledger_row
}.

Record state := mk_state {
  current_date : option date;
  trades_today : Z;
  total_trades_count : Z;
  position_active : bool;
  pos_type : option side;
  entry_price : Q;
  entry_time : option datetime;
  active_scrip : string;
  sl_mode : sl_mode_t;
  current_sl_price : Q;
  max_pnl_reached : Q;
  active_option_df : option (list sample);
  summary_log : list summary_row;
  current_trade_ledger : list ledger_row;
  trade_files : list trade_file
}.

(** [__init__] *)
Definition init : state :=
  mk_state None 0 0 false None 0 None "" NONE 0 0 None [] [] [].

Definition set_cache (s : state) (df : option (list sample)) (scrip : string) : state :=
  mk_state (current_date s) (trades_today s) (total_trades_count s)
    (position_active s) (pos_type s) (entry_price s) (entry_time s)
    scrip (sl_mode s) (current_sl_price s) (max_pnl_reached s)
    df (summary_log s) (current_trade_ledger s) (trade_files s).

Definition set_tsl (s : state) (m : sl_mode_t) (sl mx : Q) : state :=
  mk_state (current_date s) (trades_today s) (total_trades_count s)
    (position_active s) (pos_type s) (entry_price s) (entry_time s)
    (active_scrip s) m sl mx
    (active_option_df s) (summary_log s) (current_trade_ledger s)
    (trade_files s).

(** The second [try] block of [get_option_price]: as-of label, then the
    close of that row. *)
Definition asof_close (df : list sample) (ts : Z) : option Q :=
  match index_asof (map s_ts df) ts with
  | Some idx => option_map s_close (loc s_ts df idx)
  | None => None
  end.

(** [get_option_price(scrip_code, check_datetime)]: the price, and the
    strategy with its cache as the call leaves it. *)
Definition get_option_price (fs : folder) (s : state) (scrip_code : string)
    (ts : Z) : option Q * state :=
  let reload :=
    match active_option_df s with
    | None => true
    | Some _ => negb (String.eqb (active_scrip s) scrip_code)
    end in
  if reload then
    match fs scrip_code with
    | None => (None, s)
    | Some raw =>
        let df := sorted_on_load s_ts raw in
        (asof_close df ts, set_cache s (Some df) scrip_code)
    end
  else
    match active_option_df s with
    | Some df => (asof_close df ts, s)
    | None => (None, s)
    end.

(** [log_trade_step(dt, event, price, pnl_val, sl_price, info)] *)
Definition log_trade_step (s : state) (dt : datetime) (ev : event)
    (price pnl_val sl_price : Q) (info : string) : state :=
  let row :=
    mk_ledger_row (dt_date dt) (dt_time dt) ev (active_scrip s)
      (round2 price) (round2 pnl_val)
      (if Qlt_bool 0 sl_price then round2 sl_price else 0)
      (sl_mode s) info in
  mk_state (current_date s) (trades_today s) (total_trades_count s)
    (position_active s) (pos_type s) (entry_price s) (entry_time s)
    (active_scrip s) (sl_mode s) (current_sl_price s) (max_pnl_reached s)
    (active_option_df s) (summary_log s)
    (current_trade_ledger s ++ [row]) (trade_files s).

(** [close_trade(reason, dt, price)] at bar [b].  The file name takes
    [self.entry_time.date()], which raises AttributeError when the entry
    time is None; the model writes the missing date as [None].  Only
    [entry_setup] opens a position and it sets the entry time, so no replay
    from [init] closes a trade without one. *)
Definition close_trade (b : bar) (s : state) (r : reason) (dt : datetime)
    (price : Q) : state :=
  let pnl := (price - entry_price s) * qty in
  let s1 := log_trade_step s dt EXIT price pnl (current_sl_price s) (reason_name r) in
  let row :=
    mk_summary_row (total_trades_count s1) (active_scrip s1) (entry_time s1)
      (raw_time b) (round2 (entry_price s1)) (round2 price) (round2 pnl) r in
  let file :=
    mk_trade_file (total_trades_count s1) (active_scrip s1)
      (option_map dt_date (entry_time s1)) (current_trade_ledger s1) in
  mk_state (current_date s1) (trades_today s1) (total_trades_count s1)
    false None (entry_price s1) (entry_time s1)
    "" (sl_mode s1) (current_sl_price s1) (max_pnl_reached s1)
    (active_option_df s1) (summary_log s1 ++ [row])
    (current_trade_ledger s1) (trade_files s1 ++ [file]).

(** The body of [if price:] in [entry_setup]. *)
Definition open_position (b : bar) (s : state) (type_ : side)
    (scrip : string) (dt : datetime) (price : Q) : state :=
  let s1 :=
    mk_state (current_date s) (trades_today s + 1) (total_trades_count s + 1)
      true (Some type_) price (Some (raw_time b))
      scrip NONE 0 0
      (active_option_df s) (summary_log s) [] (trade_files s) in
  log_trade_step s1 dt ENTRY price 0 0 ("Signal " ++ side_name type_).

(** [entry_setup(type_, dt)] at bar [b] *)
Definition entry_setup (fs : folder) (b : bar) (s : state) (type_ : side)
    (dt : datetime) : state :=
  let scrip :=
    match type_ with
    | CE => icici_scrip_code_ce b
    | PE => icici_scrip_code_pe b
    end in
  let '(price, s1) := get_option_price fs s scrip (timestamp_of (bar_dt b)) in
  match price with
  | Some p => if truthy p then open_position b s1 type_ scrip dt p else s1
  | None => s1
  end.

(** The "New Day Reset" block of [next]. *)
Definition new_day_reset (s : state) (today : date) : state :=
  if opt_date_eqb (current_date s) today then s
  else
    mk_state (Some today) 0 (total_trades_count s)
      (position_active s) (pos_type s) (entry_price s) (entry_time s)
      (active_scrip s) (sl_mode s) (current_sl_price s) (max_pnl_reached s)
      None (summary_log s) (current_trade_ledger s) (trade_files s).

Definition is_expiry_today (b : bar) : bool :=
  let d := dt_date (bar_dt b) in
  ((day d =? expiry_day b) && (month d =? expiry_month b)
   && (year d =? expiry_year b))%Z.

(** "TSL Check", first [if]: move the stop to cost. *)
Definition tsl_trigger (s : state) (dt : datetime) (curr_opt_price pnl_val : Q)
    : state :=
  if is_none (sl_mode s) && Qle_bool TSL_TRIGGER pnl_val then
    let s1 := set_tsl s COST (entry_price s) pnl_val in
    log_trade_step s1 dt TSL_UPDATE curr_opt_price pnl_val
      (current_sl_price s1) "Moved to Cost"
  else s.

(** The stop price computed from the high-water profit. *)
Definition stepped_sl (entry mx : Q) : Q :=
  let excess := mx - TSL_TRIGGER in
  let steps := Qfloor (excess / TSL_STEP) in
  entry + (inject_Z steps * TSL_INCREMENT) / qty.

(** "TSL Check", second [if]: high-water mark and stepped stop. *)
Definition tsl_step (s : state) (dt : datetime) (curr_opt_price pnl_val : Q)
    : state :=
  if is_none (sl_mode s) then s
  else
    let s1 :=
      if Qlt_bool (max_pnl_reached s) pnl_val
      then set_tsl s (sl_mode s) (current_sl_price s) pnl_val
      else s in
    let excess := max_pnl_reached s1 - TSL_TRIGGER in
    if Qle_bool TSL_STEP excess then
      let new_sl := stepped_sl (entry_price s1) (max_pnl_reached s1) in
      if Qlt_bool (current_sl_price s1) new_sl then
        let s2 := set_tsl s1 TRAILING new_sl (max_pnl_reached s1) in
        log_trade_step s2 dt TSL_UPDATE curr_opt_price pnl_val
          (current_sl_price s2) "Stepped Up"
      else s1
    else s1.

(** The "Exits" of a held bar, after the stop has been updated. *)
Definition exits (b : bar) (s : state) (dt : datetime) (curr_opt_price : Q)
    : state :=
  if negb (is_none (sl_mode s)) && Qle_bool curr_opt_price (current_sl_price s)
  then close_trade b s TSL_HIT dt (current_sl_price s)
  else
    match pos_type s with
    | Some CE =>
        if Qlt_bool (ema5 b) (ema20_low b)
        then close_trade b s EMA_REVERSAL dt curr_opt_price else s
    | Some PE =>
        if Qlt_bool (ema20_high b) (ema5 b)
        then close_trade b s EMA_REVERSAL dt curr_opt_price else s
    | None => s
    end.

(** "ACTIVE POSITION LOGIC" *)
Definition manage_position (fs : folder) (b : bar) (s : state) : state :=
  let dt_full := bar_dt b in
  let ts := timestamp_of dt_full in
  if is_expiry_today b && (time_of 15 15 <=? dt_time dt_full)%Z then
    let '(p, s1) := get_option_price fs s (active_scrip s) ts in
    let curr_opt_price :=
      match p with
      | Some c => c
      | None => entry_price s1
      end in
    close_trade b s1 EXPIRY_FORCE dt_full curr_opt_price
  else
    let '(p, s1) := get_option_price fs s (active_scrip s) ts in
    match p with
    | None => s1
    | Some curr_opt_price =>
        let pnl_val := (curr_opt_price - entry_price s1) * qty in
        let s2 :=
          log_trade_step s1 dt_full HOLD curr_opt_price pnl_val
            (current_sl_price s1) "Monitoring" in
        let s3 := tsl_trigger s2 dt_full curr_opt_price pnl_val in
        let s4 := tsl_step s3 dt_full curr_opt_price pnl_val in
        exits b s4 dt_full curr_opt_price
    end.

(** "ENTRY LOGIC" *)
Definition entry_logic (fs : folder) (b : bar) (s : state) : state :=
  let dt_full := bar_dt b in
  let current_time := dt_time dt_full in
  if negb ((time_of 9 20 <=? current_time)%Z && (current_time <=? time_of 11 0)%Z)
  then s
  else if (MAX_TRADES_DAY <=? trades_today s)%Z then s
  else
    let signal_ce :=
      Qle_bool (ema5_prev b) (ema20_high_prev b)
      && Qlt_bool (ema20_high b) (ema5 b) in
    let signal_pe :=
      Qle_bool (ema20_low_prev b) (ema5_prev b)
      && Qlt_bool (ema5 b) (ema20_low b) in
    if signal_ce then entry_setup fs b s CE dt_full
    else if signal_pe then entry_setup fs b s PE dt_full
    else s.

(** [next] *)
Definition next (fs : folder) (s : state) (b : bar) : state :=
  let s0 := new_day_reset s (dt_date (bar_dt b)) in
  if position_active s0 then manage_position fs b s0
  else entry_logic fs b s0.

(** The replay: one folder snapshot and one bar per step. *)
Definition run (s : state) (steps : list (folder * bar)) : state :=
  fold_left (fun st fb => next (fst fb) st (snd fb)) steps s.

(** backtrader's [bt.indicators.EMA(data, period)]: no value for the first
    [period - 1] bars, the arithmetic mean of the first [period] values as
    seed at bar [period - 1], then exponential smoothing with
    alpha = 2 / (1 + period). *)
Fixpoint smooth (alpha prev : Q) (xs : list Q) : list (option Q) :=
  match xs with
  | [] => []
  | x :: r =>
      let y := prev * (1 - alpha) + x * alpha in
      Some y :: smooth alpha y r
  end.

Definition Qsum (xs : list Q) : Q := fold_left Qplus xs 0.

Definition EMA (period : nat) (xs : list Q) : list (option Q) :=
  match period with
  | O => []
  | S k =>
      if (List.length xs <? period)%nat then map (fun _ => None) xs
      else
        let seed := Qsum (firstn period xs) / inject_Z (Z.of_nat period) in
        repeat None k ++ Some seed
          :: smooth (2 / (1 + inject_Z (Z.of_nat period))) seed (skipn period xs)
  end.

End Buying.

(* ------------------------------------------------------------------------- *)
(** ** The selling variant: src/backtest_crossselling.py *)

Module Selling.

Local Open Scope Q_scope.

Definition LOT_SIZE : Q := 120.
Definition EMA_FAST : Q := 19.
Definition EMA_SLOW : Q := 50.
Definition TARGET_LTP : Q := 30.
Definition ROLLOVER_DAYS : Z := 4.
Definition ENTRY_START_HOUR : Z := 14.
Definition ENTRY_START_MIN : Z := 0.
Definition ENTRY_END_HOUR : Z := 15.
Definition ENTRY_END_MIN : Z := 30.

Definition qty : Q := LOT_SIZE.

Inductive event := SELL_ENTRY | HOLD | BUY_EXIT.
Inductive reason := ROLLOVER_EXIT | EMA_REVERSAL_SL | TARGET_LTP_30.

Definition reason_name (r : reason) : string :=
  match r with
  | ROLLOVER_EXIT => "ROLLOVER_EXIT"
  | EMA_REVERSAL_SL => "EMA_REVERSAL_SL"
  | TARGET_LTP_30 => "TARGET_LTP_30"
  end.

(** What [next] reads of the spot feed at the current bar: the raw time
    column with its zone stripped, the expiry lines and the scrip codes. *)
Record bar := mk_bar {
  local_time : datetime;
  expiry_day : Z;
  expiry_month : Z;
  expiry_year : Z;
  icici_scrip_code_ce : string;
  icici_scrip_code_pe : string
}.

(** A row of a loaded option frame: the CSV row and the indicator columns. *)
Record indicator_row := mk_indicator_row {
  i_sample : sample;
  EMA19_Close : Q;
  EMA50_High : Q;
  EMA50_Low : Q
}.

Definition i_ts (r : indicator_row) : Z := s_ts (i_sample r).
Definition i_close (r : indicator_row) : Q := s_close (i_sample r).

Record ledger_row := mk_ledger_row {
  l_Date : date;
  l_Time : Z;
  l_Event : event;
  l_Ticker : string;
  l_Price : Q;
  l_PnL_INR : Q;
  l_Info : string
}.

Record summary_row := mk_summary_row {
  TradeID : Z;
  ScripName : string;
  Type_ : option side;
  SellDateTime : option datetime;
  BuyDateTime : datetime;
  SellPrice : Q;
  BuyPrice : Q;
  PnL : Q;
  ExitReason : reason
}.

Record trade_file := mk_trade_file {
  f_trade : Z;
  f_scrip : string;
  f_entry_date : option date;
  f_rows : list ledger_row
}.

Record state := mk_state {
  total_trades_count : Z;
  position_active : bool;
  pos_type : option side;
  entry_price : Q;
  active_scrip : string;
  entry_time : option datetime;
  active_option_df : option (list indicator_row);
  summary_log : list summary_row;
  current_trade_ledger : list ledger_row;
  trade_files : list trade_file
}.

(** [__init__] *)
Definition init : state := mk_state 0 false None 0 "" None None [] [] [].

(** [series.ewm(span=span, adjust=False).mean()]: the first value is the
    first price, then y = (1 - alpha) * y_prev + alpha * x with
    alpha = 2 / (span + 1). *)
Fixpoint ewm_from (alpha prev : Q) (xs : list Q) : list Q :=
  match xs with
  | [] => []
  | x :: r =>
      let y := (1 - alpha) * prev + alpha * x in
      y :: ewm_from alpha y r
  end.

Definition ewm_mean (span : Q) (xs : list Q) : list Q :=
  match xs with
  | [] => []
  | x :: r => x :: ewm_from (2 / (span + 1)) x r
  end.

Fixpoint add_columns (df : list sample) (c19 h50 l50 : list Q)
    : list indicator_row :=
  match df, c19, h50, l50 with
  | r :: df', c :: c19', h :: h50', l :: l50' =>
      mk_indicator_row r c h l :: add_columns df' c19' h50' l50'
  | _, _, _, _ => []
  end.

(** "CALCULATE INDICATORS" *)
Definition with_indicators (df : list sample) : list indicator_row :=
  add_columns df
    (ewm_mean EMA_FAST (map s_close df))
    (ewm_mean EMA_SLOW (map s_high df))
    (ewm_mean EMA_SLOW (map s_low df)).

(** Step 2 of [get_option_indicators]: as-of label, staleness check, row. *)
Definition asof_row (df : list indicator_row) (ts : Z) : option indicator_row :=
  match index_asof (map i_ts df) ts with
  | None => None
  | Some idx => if (900 <? ts - idx)%Z then None else loc i_ts df idx
  end.

Definition set_df (s : state) (df : option (list indicator_row)) : state :=
  mk_state (total_trades_count s) (position_active s) (pos_type s)
    (entry_price s) (active_scrip s) (entry_time s) df
    (summary_log s) (current_trade_ledger s) (trade_files s).

(** [get_option_indicators(scrip_code, local_dt)]: the row, and the
    strategy with its cache as the call leaves it. *)
Definition get_option_indicators (fs : folder) (s : state)
    (scrip_code : string) (local_dt : datetime)
    : option indicator_row * state :=
  let ts := timestamp_of local_dt in
  let is_active := position_active s && String.eqb scrip_code (active_scrip s) in
  match (if is_active then active_option_df s else None) with
  | Some df => (asof_row df ts, s)
  | None =>
      match fs scrip_code with
      | None => (None, s)
      | Some raw =>
          let df := with_indicators (sorted_on_load s_ts raw) in
          let s1 := if is_active then set_df s (Some df) else s in
          (asof_row df ts, s1)
      end
  end.

(** [log_trade_step(dt, event, price, pnl_val, info)] *)
Definition log_trade_step (s : state) (dt : datetime) (ev : event)
    (price pnl_val : Q) (info : string) : state :=
  let row :=
    mk_ledger_row (dt_date dt) (dt_time dt) ev (active_scrip s)
      (round2 price) (round2 pnl_val) info in
  mk_state (total_trades_count s) (position_active s) (pos_type s)
    (entry_price s) (active_scrip s) (entry_time s) (active_option_df s)
    (summary_log s) (current_trade_ledger s ++ [row]) (trade_files s).

(** [open_trade(type_, scrip, price, dt)] *)
Definition open_trade (s : state) (type_ : side) (scrip : string)
    (price : Q) (dt : datetime) : state :=
  let s1 :=
    mk_state (total_trades_count s + 1) true (Some type_) price scrip
      (Some dt) None (summary_log s) [] (trade_files s) in
  log_trade_step s1 dt SELL_ENTRY price 0
    ("Signal " ++ side_name type_ ++ " | Short").

(** [close_trade(reason, dt, price)].  The file name takes
    [self.entry_time.date()], which raises AttributeError when the entry
    time is None; the model writes the missing date as [None].  Only
    [open_trade] opens a position and it sets the entry time, so no replay
    from [init] closes a trade without one. *)
Definition close_trade (s : state) (r : reason) (dt : datetime) (price : Q)
    : state :=
  let pnl := (entry_price s - price) * qty in
  let s1 := log_trade_step s dt BUY_EXIT price pnl (reason_name r) in
  let row :=
    mk_summary_row (total_trades_count s1) (active_scrip s1) (pos_type s1)
      (entry_time s1) dt (round2 (entry_price s1)) (round2 price)
      (round2 pnl) r in
  let file :=
    mk_trade_file (total_trades_count s1) (active_scrip s1)
      (option_map dt_date (entry_time s1)) (current_trade_ledger s1) in
  mk_state (total_trades_count s1) false None (entry_price s1) ""
    (entry_time s1) None (summary_log s1 ++ [row])
    (current_trade_ledger s1) (trade_files s1 ++ [file]).

(** [days_to_expiry <= ROLLOVER_DAYS] *)
Definition is_rollover_period (expiry_date current_date : date) : bool :=
  (toordinal expiry_date - toordinal current_date <=? ROLLOVER_DAYS)%Z.

(** "3. MANAGE ACTIVE POSITION" *)
Definition manage_position (fs : folder) (b : bar) (s : state)
    (rollover : bool) : state :=
  let dt_local := local_time b in
  let '(row, s1) := get_option_indicators fs s (active_scrip s) dt_local in
  match row with
  | None => s1
  | Some row =>
      let curr_price := i_close row in
      let pnl_val := (entry_price s1 - curr_price) * qty in
      let s2 := log_trade_step s1 dt_local HOLD curr_price pnl_val "Monitoring" in
      if rollover then close_trade s2 ROLLOVER_EXIT dt_local curr_price
      else if Qlt_bool (EMA50_High row) (EMA19_Close row)
      then close_trade s2 EMA_REVERSAL_SL dt_local curr_price
      else if Qlt_bool curr_price TARGET_LTP
      then close_trade s2 TARGET_LTP_30 dt_local curr_price
      else s2
  end.

Definition entry_signal (row : option indicator_row) : option indicator_row :=
  match row with
  | Some r => if Qlt_bool (EMA19_Close r) (EMA50_Low r) then Some r else None
  | None => None
  end.

(** "4. ENTRY LOGIC" *)
Definition entry_logic (fs : folder) (b : bar) (s : state)
    (rollover : bool) : state :=
  let dt_local := local_time b in
  let current_time := dt_time dt_local in
  if rollover then s
  else
    let start_check :=
      (time_of ENTRY_START_HOUR ENTRY_START_MIN <=? current_time)%Z in
    let end_check :=
      (current_time <=? time_of ENTRY_END_HOUR ENTRY_END_MIN)%Z in
    if negb (start_check && end_check) then s
    else
      let scrip_pe := icici_scrip_code_pe b in
      let '(row_pe, s1) := get_option_indicators fs s scrip_pe dt_local in
      match entry_signal row_pe with
      | Some r => open_trade s1 PE scrip_pe (i_close r) dt_local
      | None =>
          let scrip_ce := icici_scrip_code_ce b in
          let '(row_ce, s2) := get_option_indicators fs s1 scrip_ce dt_local in
          match entry_signal row_ce with
          | Some r => open_trade s2 CE scrip_ce (i_close r) dt_local
          | None => s2
          end
      end.

(** [next]; [None] is the ValueError of [datetime.date] on expiry fields
    that are not a date, which ends the replay. *)
Definition next (fs : folder) (s : state) (b : bar) : option state :=
  let current_date := dt_date (local_time b) in
  match date_ctor (expiry_year b) (expiry_month b) (expiry_day b) with
  | None => None
  | Some expiry_date =>
      let rollover := is_rollover_period expiry_date current_date in
      Some (if position_active s then manage_position fs b s rollover
            else entry_logic fs b s rollover)
  end.

(** The replay: one folder snapshot and one bar per step. *)
Fixpoint run (s : state) (steps : list (folder * bar)) : option state :=
  match steps with
  | [] => Some s
  | (fs, b) :: rest =>
      match next fs s b with
      | Some s1 => run s1 rest
      | None => None
      end
  end.

End Selling.

(* ------------------------------------------------------------------------- *)
(** ** What "the latest sample at or before the query" means *)

Section Latest.
Context {row : Type} (key : row -> Z).


End Latest.

(* ------------------------------------------------------------------------- *)
(** ** Sample data used by the worked examples *)

Module Demo.

Local Open Scope Q_scope.

Definition day1 : date := mk_date 2024 1 1.
Definition day2 : date := mk_date 2024 1 2.

Definition at_ (d : date) (h m : Z) : datetime := mk_datetime d (time_of h m).

Definition candle (d : date) (h m : Z) (c : Q) : sample :=
  mk_sample (timestamp_of (at_ d h m)) (c + 1) (c - 1) c.

(** Samples at 09:15, 09:20 and 09:30. *)
Definition morning : list sample :=
  [candle day1 9 15 100; candle day1 9 20 101; candle day1 9 30 102].

Definition one_file (name : string) (rows : list sample) : folder :=
  fun scrip => if String.eqb scrip name then Some rows else None.

Definition no_files : folder := fun _ => None.

(** A call option that rallies after 09:20 and falls back at 09:45. *)
Definition rally : list sample :=
  [candle day1 9 15 100; candle day1 9 20 100; candle day1 9 25 110;
   candle day1 9 30 126; candle day1 9 35 130; candle day1 9 40 128;
   candle day1 9 45 104; candle day2 9 15 90].

Definition buy_folder : folder := one_file "MID_CE" rally.

(** A spot bar of the buying variant, expiry 4 January 2024, with the EMA
    band at 9 .. 11 on this bar and the one before. *)
Definition spot (dt : datetime) (e5 e5_prev : Q) : Buying.bar :=
  Buying.mk_bar dt dt 4 1 2024 "MID_CE" "MID_PE" e5 e5_prev 11 11 9 9.

(** EMA5 crosses above the band at 09:20: a call signal. *)
Definition buy_entry_bar : Buying.bar := spot (at_ day1 9 20) 12 10.

(** Later bars with EMA5 inside the band: no signal, no reversal. *)
Definition quiet (d : date) (h m : Z) : Buying.bar := spot (at_ d h m) 10 10.

(** The buying strategy holding the call bought at 100. *)
Definition buy_open : Buying.state :=
  Buying.next buy_folder Buying.init buy_entry_bar.

(** The replay of [rally] from the entry at 09:20 up to the given minute. *)
Definition buy_steps (minutes : list Z) : list (folder * Buying.bar) :=
  (buy_folder, buy_entry_bar)
    :: map (fun m => (buy_folder, quiet day1 9 m)) minutes.

(** Held at 09:25, stop still unarmed; at 09:30, stop at cost. *)
Definition buy_unarmed : Buying.state := Buying.run Buying.init (buy_steps [25%Z]).
Definition buy_at_cost : Buying.state := Buying.run Buying.init (buy_steps [25%Z; 30%Z]).

(** 15:15 on the expiry day of the [spot] bars. *)
Definition expiry_bar : Buying.bar := quiet (mk_date 2024 1 4) 15 15.

(** A call file whose 09:20 close is exactly zero. *)
Definition zero_folder : folder := one_file "MID_CE" [candle day1 9 20 0].

(** A put option that collapses at 14:05, so that EMA19(close) drops below
    EMA50(low). *)
Definition slump : list sample :=
  [candle day1 14 0 100; candle day1 14 5 50; candle day1 14 10 48;
   candle day2 9 15 47].

Definition sell_folder : folder := one_file "MID_PE" slump.

(** A spot bar of the selling variant with the given expiry day of January
    2024. *)
Definition sell_bar (dt : datetime) (expiry : Z) : Selling.bar :=
  Selling.mk_bar dt expiry 1 2024 "MID_CE" "MID_PE".

(** The selling strategy short the put sold at 50, three weeks before
    expiry. *)
Definition sell_open : option Selling.state :=
  Selling.next sell_folder Selling.init (sell_bar (at_ day1 14 5) 25).

(** The short put after the held bar of 14:10, its file loaded and cached. *)
Definition sell_held_state : Selling.state :=
  match Selling.run Selling.init
          [(sell_folder, sell_bar (at_ day1 14 5) 25);
           (sell_folder, sell_bar (at_ day1 14 10) 25)] with
  | Some s => s
  | None => Selling.init
  end.

(** The put sold at 14:05 and bought back at 14:10 on a bar whose expiry
    is four days away. *)
Definition sell_round_trip : list (folder * Selling.bar) :=
  [(sell_folder, sell_bar (at_ day1 14 5) 25);
   (sell_folder, sell_bar (at_ day1 14 10) 5)].

Definition sell_closed_state : Selling.state :=
  match Selling.run Selling.init sell_round_trip with
  | Some s => s
  | None => Selling.init
  end.

Definition sell_open_state : Selling.state :=
  match sell_open with
  | Some s => s
  | None => Selling.init
  end.

End Demo.

(* ------------------------------------------------------------------------- *)
(** ** Views of the strategy state used in the statements *)

(** The open trade of the buying variant, its stop, the run-wide books and
    the day counter, as tuples of the attributes they consist of. *)
Definition buying_trade (s : Buying.state) :=
  (Buying.position_active s, Buying.pos_type s, Buying.entry_price s,
   Buying.entry_time s).

Definition buying_stop (s : Buying.state) :=
  (Buying.sl_mode s, Buying.current_sl_price s, Buying.max_pnl_reached s).

Definition buying_books (s : Buying.state) :=
  (Buying.total_trades_count s, Buying.summary_log s, Buying.trade_files s).

Definition buying_day (s : Buying.state) :=
  (Buying.current_date s, Buying.trades_today s).

(** [s1] holds the same trade as [s], with the same books and day counter;
    stop, ledger and cache may differ. *)
Definition buying_same_trade (s s1 : Buying.state) : Prop :=
  buying_trade s1 = buying_trade s
  /\ Buying.active_scrip s1 = Buying.active_scrip s
  /\ buying_books s1 = buying_books s
  /\ buying_day s1 = buying_day s.

(** Positions opened so far minus positions closed so far. *)
Definition buying_open_positions (s : Buying.state) : Z :=
  Buying.total_trades_count s - Z.of_nat (List.length (Buying.summary_log s)).

Definition selling_open_positions (s : Selling.state) : Z :=
  Selling.total_trades_count s - Z.of_nat (List.length (Selling.summary_log s)).

Definition flag (b : bool) : Z := if b then 1 else 0.

(** The same views of the selling variant. *)
Definition selling_trade (s : Selling.state) :=
  (Selling.position_active s, Selling.pos_type s, Selling.entry_price s,
   Selling.entry_time s, Selling.active_scrip s).

Definition selling_books (s : Selling.state) :=
  (Selling.total_trades_count s, Selling.summary_log s, Selling.trade_files s).

Definition selling_same_trade (s s1 : Selling.state) : Prop :=
  selling_trade s1 = selling_trade s /\ selling_books s1 = selling_books s.

(** A stop that has not been armed yet sits at zero, as [entry_setup]
    leaves it. *)
Definition stop_unarmed_at_zero (s : Buying.state) : Prop :=
  Buying.sl_mode s = Buying.NONE -> Buying.current_sl_price s = 0%Q.

(** The high-water profit after a bar with profit [pnl]. *)
Definition high_water (s : Buying.state) (pnl : Q) : Q :=
  if Qlt_bool (Buying.max_pnl_reached s) pnl then pnl
  else Buying.max_pnl_reached s.

(** A summary row of a long trade: the recorded prices and profit are the
    roundings of an entry price, an exit price and (exit - entry) * 120. *)
Definition long_row (row : Buying.summary_row) : Prop :=
  exists entry exit : Q,
    Buying.PnL row = round2 ((exit - entry) * 120)
    /\ Buying.BuyPrice row = round2 entry
    /\ Buying.SellPrice row = round2 exit.

(** A summary row of a short trade: profit is (entry - exit) * 120. *)
Definition short_row (row : Selling.summary_row) : Prop :=
  exists entry exit : Q,
    Selling.PnL row = round2 ((entry - exit) * 120)
    /\ Selling.SellPrice row = round2 entry
    /\ Selling.BuyPrice row = round2 exit.

(* ------------------------------------------------------------------------- *)
(** ** One bar step as a relation *)

(** The conditions [next] tests on the bar alone. *)
Definition buying_forced (b : Buying.bar) : bool :=
  Buying.is_expiry_today b && (time_of 15 15 <=? dt_time (Buying.bar_dt b)).

Definition buying_in_window (b : Buying.bar) : bool :=
  (time_of 9 20 <=? dt_time (Buying.bar_dt b))
  && (dt_time (Buying.bar_dt b) <=? time_of 11 0).

(** The signal of the bar: the call crossover is tested first. *)
Definition buying_signal (b : Buying.bar) : option side :=
  if Qle_bool (Buying.ema5_prev b) (Buying.ema20_high_prev b)
     && Qlt_bool (Buying.ema20_high b) (Buying.ema5 b)
  then Some CE
  else if Qle_bool (Buying.ema20_low_prev b) (Buying.ema5_prev b)
          && Qlt_bool (Buying.ema5 b) (Buying.ema20_low b)
  then Some PE
  else None.

Definition buying_scrip (b : Buying.bar) (t : side) : string :=
  match t with
  | CE => Buying.icici_scrip_code_ce b
  | PE => Buying.icici_scrip_code_pe b
  end.

(** The strategy after the HOLD record and the stop update of a held bar
    quoted at [c]. *)
Definition buying_held (s : Buying.state) (dt : datetime) (c : Q) : Buying.state :=
  let pnl := ((c - Buying.entry_price s) * Buying.qty)%Q in
  Buying.tsl_step
    (Buying.tsl_trigger
       (Buying.log_trade_step s dt Buying.HOLD c pnl (Buying.current_sl_price s)
          "Monitoring")
       dt c pnl)
    dt c pnl.

Definition buying_stop_hit (s : Buying.state) (c : Q) : bool :=
  negb (Buying.is_none (Buying.sl_mode s)) && Qle_bool c (Buying.current_sl_price s).

(** What bar [b] can make of the strategy [s0] that the day reset leaves:
    one case per path through [next]. *)
Inductive buying_outcome (fs : folder) (b : Buying.bar) (s0 : Buying.state)
  : Buying.state -> Prop :=
| outcome_forced (p : option Q) (sl : Buying.state) :
    Buying.position_active s0 = true -> buying_forced b = true ->
    Buying.get_option_price fs s0 (Buying.active_scrip s0)
      (timestamp_of (Buying.bar_dt b)) = (p, sl) ->
    buying_outcome fs b s0
      (Buying.close_trade b sl Buying.EXPIRY_FORCE (Buying.bar_dt b)
         (match p with
          | Some c => c
          | None => Buying.entry_price sl
          end))
| outcome_skipped (sl : Buying.state) :
    Buying.position_active s0 = true -> buying_forced b = false ->
    Buying.get_option_price fs s0 (Buying.active_scrip s0)
      (timestamp_of (Buying.bar_dt b)) = (None, sl) ->
    buying_outcome fs b s0 sl
| outcome_held (c : Q) (sl : Buying.state) :
    Buying.position_active s0 = true -> buying_forced b = false ->
    Buying.get_option_price fs s0 (Buying.active_scrip s0)
      (timestamp_of (Buying.bar_dt b)) = (Some c, sl) ->
    buying_stop_hit (buying_held sl (Buying.bar_dt b) c) c = false ->
    buying_outcome fs b s0 (buying_held sl (Buying.bar_dt b) c)
| outcome_stop_hit (c : Q) (sl : Buying.state) :
    Buying.position_active s0 = true -> buying_forced b = false ->
    Buying.get_option_price fs s0 (Buying.active_scrip s0)
      (timestamp_of (Buying.bar_dt b)) = (Some c, sl) ->
    buying_stop_hit (buying_held sl (Buying.bar_dt b) c) c = true ->
    buying_outcome fs b s0
      (Buying.close_trade b (buying_held sl (Buying.bar_dt b) c) Buying.TSL_HIT
         (Buying.bar_dt b)
         (Buying.current_sl_price (buying_held sl (Buying.bar_dt b) c)))
| outcome_reversal (c : Q) (sl : Buying.state) :
    Buying.position_active s0 = true -> buying_forced b = false ->
    Buying.get_option_price fs s0 (Buying.active_scrip s0)
      (timestamp_of (Buying.bar_dt b)) = (Some c, sl) ->
    buying_stop_hit (buying_held sl (Buying.bar_dt b) c) c = false ->
    buying_outcome fs b s0
      (Buying.close_trade b (buying_held sl (Buying.bar_dt b) c)
         Buying.EMA_REVERSAL (Buying.bar_dt b) c)
| outcome_idle :
    Buying.position_active s0 = false ->
    buying_in_window b = false
    \/ Buying.MAX_TRADES_DAY <= Buying.trades_today s0
    \/ buying_signal b = None ->
    buying_outcome fs b s0 s0
| outcome_no_price (t : side) (p : option Q) (sl : Buying.state) :
    Buying.position_active s0 = false -> buying_in_window b = true ->
    Buying.trades_today s0 < Buying.MAX_TRADES_DAY ->
    buying_signal b = Some t ->
    Buying.get_option_price fs s0 (buying_scrip b t)
      (timestamp_of (Buying.bar_dt b)) = (p, sl) ->
    match p with
    | Some c => truthy c = false
    | None => True
    end ->
    buying_outcome fs b s0 sl
| outcome_opened (t : side) (c : Q) (sl : Buying.state) :
    Buying.position_active s0 = false -> buying_in_window b = true ->
    Buying.trades_today s0 < Buying.MAX_TRADES_DAY ->
    buying_signal b = Some t ->
    Buying.get_option_price fs s0 (buying_scrip b t)
      (timestamp_of (Buying.bar_dt b)) = (Some c, sl) ->
    truthy c = true ->
    buying_outcome fs b s0
      (Buying.open_position b sl t (buying_scrip b t) (Buying.bar_dt b) c).

(** The same for the selling variant. *)
Definition selling_in_window (b : Selling.bar) : bool :=
  (time_of Selling.ENTRY_START_HOUR Selling.ENTRY_START_MIN
   <=? dt_time (Selling.local_time b))
  && (dt_time (Selling.local_time b)
      <=? time_of Selling.ENTRY_END_HOUR Selling.ENTRY_END_MIN).

(** The strategy after the HOLD record of a held bar that resolved [row]. *)
Definition selling_held (s : Selling.state) (dt : datetime)
    (row : Selling.indicator_row) : Selling.state :=
  Selling.log_trade_step s dt Selling.HOLD (Selling.i_close row)
    ((Selling.entry_price s - Selling.i_close row) * Selling.qty)%Q "Monitoring".

Definition selling_reversal (row : Selling.indicator_row) : bool :=
  Qlt_bool (Selling.EMA50_High row) (Selling.EMA19_Close row).

Definition selling_target (row : Selling.indicator_row) : bool :=
  Qlt_bool (Selling.i_close row) Selling.TARGET_LTP.

(** The row that makes a leg an entry, if the leg has one at this bar. *)
Definition selling_leg (fs : folder) (s : Selling.state) (scrip : string)
    (dt : datetime) : option Selling.indicator_row :=
  Selling.entry_signal (fst (Selling.get_option_indicators fs s scrip dt)).

(** What bar [b] can make of the strategy [s], given whether the bar lies in
    the rollover period: one case per path through [next]. *)
Inductive selling_outcome (fs : folder) (b : Selling.bar) (rollover : bool)
    (s : Selling.state) : Selling.state -> Prop :=
| sold_skipped (sl : Selling.state) :
    Selling.position_active s = true ->
    Selling.get_option_indicators fs s (Selling.active_scrip s)
      (Selling.local_time b) = (None, sl) ->
    selling_outcome fs b rollover s sl
| sold_rollover (row : Selling.indicator_row) (sl : Selling.state) :
    Selling.position_active s = true ->
    Selling.get_option_indicators fs s (Selling.active_scrip s)
      (Selling.local_time b) = (Some row, sl) ->
    rollover = true ->
    selling_outcome fs b rollover s
      (Selling.close_trade (selling_held sl (Selling.local_time b) row)
         Selling.ROLLOVER_EXIT (Selling.local_time b) (Selling.i_close row))
| sold_reversal (row : Selling.indicator_row) (sl : Selling.state) :
    Selling.position_active s = true ->
    Selling.get_option_indicators fs s (Selling.active_scrip s)
      (Selling.local_time b) = (Some row, sl) ->
    rollover = false -> selling_reversal row = true ->
    selling_outcome fs b rollover s
      (Selling.close_trade (selling_held sl (Selling.local_time b) row)
         Selling.EMA_REVERSAL_SL (Selling.local_time b) (Selling.i_close row))
| sold_target (row : Selling.indicator_row) (sl : Selling.state) :
    Selling.position_active s = true ->
    Selling.get_option_indicators fs s (Selling.active_scrip s)
      (Selling.local_time b) = (Some row, sl) ->
    rollover = false -> selling_reversal row = false ->
    selling_target row = true ->
    selling_outcome fs b rollover s
      (Selling.close_trade (selling_held sl (Selling.local_time b) row)
         Selling.TARGET_LTP_30 (Selling.local_time b) (Selling.i_close row))
| sold_held (row : Selling.indicator_row) (sl : Selling.state) :
    Selling.position_active s = true ->
    Selling.get_option_indicators fs s (Selling.active_scrip s)
      (Selling.local_time b) = (Some row, sl) ->
    rollover = false -> selling_reversal row = false ->
    selling_target row = false ->
    selling_outcome fs b rollover s (selling_held sl (Selling.local_time b) row)
| sold_idle :
    Selling.position_active s = false ->
    rollover = true \/ selling_in_window b = false
    \/ (selling_leg fs s (Selling.icici_scrip_code_pe b) (Selling.local_time b) = None
        /\ selling_leg fs s (Selling.icici_scrip_code_ce b) (Selling.local_time b)
           = None) ->
    selling_outcome fs b rollover s s
| sold_open_put (r : Selling.indicator_row) :
    Selling.position_active s = false ->
    rollover = false -> selling_in_window b = true ->
    selling_leg fs s (Selling.icici_scrip_code_pe b) (Selling.local_time b) = Some r ->
    selling_outcome fs b rollover s
      (Selling.open_trade s PE (Selling.icici_scrip_code_pe b) (Selling.i_close r)
         (Selling.local_time b))
| sold_open_call (r : Selling.indicator_row) :
    Selling.position_active s = false ->
    rollover = false -> selling_in_window b = true ->
    selling_leg fs s (Selling.icici_scrip_code_pe b) (Selling.local_time b) = None ->
    selling_leg fs s (Selling.icici_scrip_code_ce b) (Selling.local_time b) = Some r ->
    selling_outcome fs b rollover s
      (Selling.open_trade s CE (Selling.icici_scrip_code_ce b) (Selling.i_close r)
         (Selling.local_time b)).

(* ------------------------------------------------------------------------- *)
(** ** Shapes of the books *)

(** The trade numbers 1, 2, ..., n. *)
Definition trade_ids (n : nat) : list Z := map Z.of_nat (seq 1 n).

Definition buying_mid_event (r : Buying.ledger_row) : Prop :=
  Buying.l_Event r = Buying.HOLD \/ Buying.l_Event r = Buying.TSL_UPDATE.

(** The ledger of an open long trade in [scrip]: its ENTRY row, stamped
    inside the entry window, then HOLD and TSL_UPDATE rows. *)
Definition buying_open_ledger (scrip : string) (rows : list Buying.ledger_row) : Prop :=
  exists entry mid,
    rows = entry :: mid
    /\ Buying.l_Event entry = Buying.ENTRY
    /\ time_of 9 20 <= Buying.l_Time entry <= time_of 11 0
    /\ Forall buying_mid_event mid
    /\ Forall (fun r => Buying.l_Ticker r = scrip) rows.

(** The ledger of a closed long trade: the same, closed by one EXIT row. *)
Definition buying_closed_ledger (scrip : string) (rows : list Buying.ledger_row) : Prop :=
  exists entry mid exit,
    rows = entry :: mid ++ [exit]
    /\ Buying.l_Event entry = Buying.ENTRY
    /\ time_of 9 20 <= Buying.l_Time entry <= time_of 11 0
    /\ Forall buying_mid_event mid
    /\ Buying.l_Event exit = Buying.EXIT
    /\ Forall (fun r => Buying.l_Ticker r = scrip) rows.

(** The stop as a function of the high-water profit: zero while unarmed;
    once armed, the stepped price of a high-water mark at or above the
    trigger. *)
Definition stop_follows_high_water (s : Buying.state) : Prop :=
  (Buying.sl_mode s = Buying.NONE -> Buying.current_sl_price s = 0%Q)
  /\ (Buying.sl_mode s <> Buying.NONE ->
      (Buying.TSL_TRIGGER <= Buying.max_pnl_reached s)%Q
      /\ (Buying.current_sl_price s
          == Buying.stepped_sl (Buying.entry_price s) (Buying.max_pnl_reached s))%Q).

(** The books number the trades 1, 2, ... in order, in the summary and in
    the ledger files alike, and the trade counter is that number plus the
    open position. *)
Definition buying_numbered (s : Buying.state) : Prop :=
  buying_open_positions s = flag (Buying.position_active s)
  /\ map Buying.TradeID (Buying.summary_log s)
     = trade_ids (List.length (Buying.summary_log s))
  /\ map Buying.f_trade (Buying.trade_files s)
     = map Buying.TradeID (Buying.summary_log s).

Definition selling_numbered (s : Selling.state) : Prop :=
  selling_open_positions s = flag (Selling.position_active s)
  /\ map Selling.TradeID (Selling.summary_log s)
     = trade_ids (List.length (Selling.summary_log s))
  /\ map Selling.f_trade (Selling.trade_files s)
     = map Selling.TradeID (Selling.summary_log s).

(** The ledger of an open short trade in [scrip]: its SELL_ENTRY row,
    stamped inside the entry window, then HOLD rows. *)
Definition selling_open_ledger (scrip : string) (rows : list Selling.ledger_row) : Prop :=
  exists entry holds,
    rows = entry :: holds
    /\ Selling.l_Event entry = Selling.SELL_ENTRY
    /\ time_of 14 0 <= Selling.l_Time entry <= time_of 15 30
    /\ Forall (fun r => Selling.l_Event r = Selling.HOLD) holds
    /\ Forall (fun r => Selling.l_Ticker r = scrip) rows.

(** The ledger of a closed short trade: at least one HOLD row, the last of
    them on the bar of the BUY_EXIT row that follows it, at the same price
    and profit. *)
Definition selling_closed_ledger (scrip : string) (rows : list Selling.ledger_row) : Prop :=
  exists entry holds last exit,
    rows = entry :: holds ++ [last; exit]
    /\ Selling.l_Event entry = Selling.SELL_ENTRY
    /\ time_of 14 0 <= Selling.l_Time entry <= time_of 15 30
    /\ Forall (fun r => Selling.l_Event r = Selling.HOLD) holds
    /\ Selling.l_Event last = Selling.HOLD
    /\ Selling.l_Event exit = Selling.BUY_EXIT
    /\ (Selling.l_Date exit, Selling.l_Time exit, Selling.l_Price exit,
        Selling.l_PnL_INR exit)
       = (Selling.l_Date last, Selling.l_Time last, Selling.l_Price last,
          Selling.l_PnL_INR last)
    /\ Forall (fun r => Selling.l_Ticker r = scrip) rows.

(** The ledger in memory and the files on disk are well formed. *)
Definition buying_ledgers_formed (s : Buying.state) : Prop :=
  (Buying.position_active s = true ->
   buying_open_ledger (Buying.active_scrip s) (Buying.current_trade_ledger s))
  /\ Forall (fun f => buying_closed_ledger (Buying.f_scrip f) (Buying.f_rows f))
       (Buying.trade_files s).

Definition selling_ledgers_formed (s : Selling.state) : Prop :=
  (Selling.position_active s = true ->
   selling_open_ledger (Selling.active_scrip s) (Selling.current_trade_ledger s))
  /\ Forall (fun f => selling_closed_ledger (Selling.f_scrip f) (Selling.f_rows f))
       (Selling.trade_files s).

(** The weaker bracket that holds between the move to cost and the stepped
    update of one bar: the stop lies between the entry price and the stepped
    price of the high-water mark. *)
Definition stop_within_high_water (s : Buying.state) : Prop :=
  (Buying.sl_mode s = Buying.NONE -> Buying.current_sl_price s = 0%Q)
  /\ (Buying.sl_mode s <> Buying.NONE ->
      (Buying.TSL_TRIGGER <= Buying.max_pnl_reached s)%Q
      /\ (Buying.entry_price s <= Buying.current_sl_price s)%Q
      /\ (Buying.current_sl_price s
          <= Buying.stepped_sl (Buying.entry_price s) (Buying.max_pnl_reached s))%Q).

(** A summary row closed by the stop records a whole, non-negative number of
    500s. *)
Definition stop_hit_profit (row : Buying.summary_row) : Prop :=
  Buying.ExitReason row = Buying.TSL_HIT ->
  exists k : Z, 0 <= k /\ (Buying.PnL row == inject_Z (500 * k))%Q.

(** The expiry lines of a bar form a calendar date. *)
Definition valid_expiry (b : Selling.bar) : Prop :=
  1 <= Selling.expiry_year b <= 9999
  /\ 1 <= Selling.expiry_month b <= 12
  /\ 1 <= Selling.expiry_day b
     <= days_in_month (Selling.expiry_year b) (Selling.expiry_month b).

(** The attributes [close_trade] reads of the trade are set. *)
Definition buying_entry_recorded (s : Buying.state) : Prop :=
  (Buying.position_active s = true ->
   Buying.entry_time s <> None /\ Buying.pos_type s <> None)
  /\ Forall (fun f => Buying.f_entry_date f <> None) (Buying.trade_files s)
  /\ Forall (fun r => Buying.BuyDateTime r <> None) (Buying.summary_log s).

Definition selling_entry_recorded (s : Selling.state) : Prop :=
  (Selling.position_active s = true ->
   Selling.entry_time s <> None /\ Selling.pos_type s <> None)
  /\ Forall (fun f => Selling.f_entry_date f <> None) (Selling.trade_files s)
  /\ Forall (fun r => Selling.SellDateTime r <> None /\ Selling.Type_ r <> None)
       (Selling.summary_log s).

(** A recorded value lies within half a hundredth of the value it rounds. *)
Definition within_half_cent (recorded exact : Q) : Prop :=
  (exact - (1 # 200) <= recorded <= exact + (1 # 200))%Q.

(** The profit column of a summary row against the profit recomputed from
    the two price columns of the same row: they differ by at most 1.205,
    half a hundredth for the rounding of the profit and 120 times a
    hundredth for the two roundings of the prices. *)
Definition columns_agree (pnl bought sold : Q) : Prop :=
  (- (241 # 200) <= pnl - (sold - bought) * 120 <= 241 # 200)%Q.

(** The first summary row of the [Demo.rally] replay up to 09:45, where the
    trailing stop closes the call bought at 09:20. *)
Definition stopped_row : Buying.summary_row :=
  hd (Buying.mk_summary_row 0 "" None (Demo.at_ Demo.day1 9 45) 0 0 0 Buying.TSL_HIT)
    (Buying.summary_log
       (Buying.run Buying.init (Demo.buy_steps [25; 30; 35; 40; 45]))).

(** A file in which the 09:15 sample comes twice, before the sample of
    09:20. *)
Definition repeated_stamp : list sample :=
  [Demo.candle Demo.day1 9 15 9; Demo.candle Demo.day1 9 15 (19 # 2);
   Demo.candle Demo.day1 9 20 10].












(* ------------------------------------------------------------------------- *)
(** * Properties *)

(** ** Index order and the as-of lookup *)

Lemma monotonic_head_le (a : Z) (l : list Z) :
  is_monotonic_increasing (a :: l) = true -> forall v, In v l -> a <= v.
Proof.
  revert a; induction l as [|b l IH]; intros a H v Hv; [easy|].
  simpl in H. apply andb_true_iff in H as [Hab Hl].
  apply Z.leb_le in Hab.
  destruct Hv as [->|Hv]; [assumption|].
  specialize (IH b Hl v Hv). lia.
Qed.

Lemma monotonic_tail (a : Z) (l : list Z) :
  is_monotonic_increasing (a :: l) = true -> is_monotonic_increasing l = true.
Proof.
  destruct l as [|b l]; [reflexivity|].
  simpl. intros H. apply andb_true_iff in H. apply H.
Qed.

Lemma monotonic_cons (a : Z) (l : list Z) :
  (forall v, In v l -> a <= v) -> is_monotonic_increasing l = true ->
  is_monotonic_increasing (a :: l) = true.
Proof.
  destruct l as [|b l]; [reflexivity|].
  intros Ha Hl. change (((a <=? b) && is_monotonic_increasing (b :: l)) = true).
  rewrite Hl, andb_true_r. apply Z.leb_le, Ha. now left.
Qed.

Section SortFacts.
Context {row : Type} (key : row -> Z).

Lemma insert_row_In (x y : row) (l : list row) :
  In y (insert_row key x l) <-> y = x \/ In y l.
Proof.
  induction l as [|z l IH]; simpl.
  - intuition congruence.
  - destruct (key x <=? key z); simpl; rewrite ?IH; intuition congruence.
Qed.


Lemma insert_row_monotonic (x : row) (l : list row) :
  is_monotonic_increasing (map key l) = true ->
  is_monotonic_increasing (map key (insert_row key x l)) = true.
Proof.
  induction l as [|z l IH]; intros Hl; [reflexivity|].
  simpl. destruct (key x <=? key z) eqn:E.
  - apply Z.leb_le in E. cbn [map].
    apply monotonic_cons; [|exact Hl].
    intros v [<-|Hv]; [lia|].
    pose proof (monotonic_head_le _ _ Hl v Hv). lia.
  - apply Z.leb_gt in E. cbn [map].
    apply monotonic_cons.
    + intros v Hv. apply in_map_iff in Hv as [r [<- Hr]].
      apply insert_row_In in Hr as [->|Hr]; [lia|].
      apply (monotonic_head_le _ _ Hl). now apply in_map.
    + apply IH. exact (monotonic_tail _ _ Hl).
Qed.

Lemma sort_index_monotonic (l : list row) :
  is_monotonic_increasing (map key (sort_index key l)) = true.
Proof.
  induction l as [|x l IH]; [reflexivity|].
  simpl. now apply insert_row_monotonic.
Qed.

Lemma sorted_on_load_monotonic (l : list row) :
  is_monotonic_increasing (map key (sorted_on_load key l)) = true.
Proof.
  unfold sorted_on_load.
  destruct (is_monotonic_increasing (map key l)) eqn:E; [exact E|].
  apply sort_index_monotonic.
Qed.





Lemma filter_absent (l : list row) (label : Z) :
  ~ In label (map key l) -> filter (fun x => key x =? label) l = [].
Proof.
  induction l as [|x l IH]; intros Hn; [reflexivity|].
  simpl. destruct (key x =? label) eqn:E.
  - apply Z.eqb_eq in E. exfalso. apply Hn. simpl. now left.
  - apply IH. intros H. apply Hn. simpl. now right.
Qed.

Lemma loc_In (l : list row) (label : Z) :
  NoDup (map key l) -> In label (map key l) ->
  exists r, loc key l label = Some r.
Proof.
  induction l as [|x l IH]; intros Hnd Hin; [easy|].
  simpl in Hnd. inversion Hnd as [|? ? Hx Hl]; subst.
  unfold loc. simpl. destruct (key x =? label) eqn:E.
  - apply Z.eqb_eq in E. rewrite <- E, (filter_absent l (key x) Hx). now exists x.
  - apply Z.eqb_neq in E. destruct Hin as [Hin|Hin]; [contradiction|].
    destruct (IH Hl Hin) as [r Hr]. exists r. exact Hr.
Qed.

(** On a repeated label [loc] has no row to give. *)
Lemma loc_repeated (l : list row) (a b : row) (pre mid post : list row) :
  l = pre ++ a :: mid ++ b :: post -> key a = key b -> loc key l (key a) = None.
Proof.
  intros -> Hk. unfold loc.
  rewrite filter_app. simpl. rewrite Z.eqb_refl, filter_app. simpl.
  rewrite <- Hk, Z.eqb_refl.
  destruct (filter (fun x => key x =? key a) pre) as [|p [|q t]]; simpl;
    try reflexivity.
  destruct (filter (fun x => key x =? key a) mid); reflexivity.
Qed.


End SortFacts.

Lemma pad_Some (idx : list Z) (ts u : Z) :
  is_monotonic_increasing idx = true -> pad idx ts = Some u ->
  In u idx /\ u <= ts /\ forall v, In v idx -> v <= ts -> v <= u.
Proof.
  revert u; induction idx as [|t rest IH]; intros u Hm H; [discriminate|].
  simpl in H. destruct (t <=? ts) eqn:E; [|discriminate].
  apply Z.leb_le in E.
  pose proof (monotonic_tail _ _ Hm) as Hr.
  pose proof (monotonic_head_le _ _ Hm) as Hh.
  destruct (pad rest ts) as [w|] eqn:Ew.
  - injection H as <-. destruct (IH w Hr eq_refl) as (Hin & Hle & Hmax).
    split; [now right|]. split; [assumption|].
    intros v [<-|Hv] Hvt; [now apply Hh|now apply Hmax].
  - injection H as <-. split; [now left|]. split; [assumption|].
    intros v [<-|Hv] Hvt; [lia|].
    exfalso. clear IH Hh Hm.
    revert Hr Ew Hv. clear -Hvt. induction rest as [|a rest IH]; [easy|].
    intros Hr. simpl. destruct (a <=? ts) eqn:Ea.
    + destruct (pad rest ts); discriminate.
    + intros _ [->|Hv].
      * apply Z.leb_gt in Ea. lia.
      * apply Z.leb_gt in Ea.
        pose proof (monotonic_head_le _ _ Hr v Hv). lia.
Qed.

Lemma pad_None (idx : list Z) (ts : Z) :
  is_monotonic_increasing idx = true -> pad idx ts = None ->
  forall v, In v idx -> ts < v.
Proof.
  destruct idx as [|t rest]; [easy|].
  intros Hm H v Hv. simpl in H.
  destruct (t <=? ts) eqn:E.
  - destruct (pad rest ts); discriminate.
  - apply Z.leb_gt in E. destruct Hv as [<-|Hv]; [assumption|].
    pose proof (monotonic_head_le _ _ Hm v Hv). lia.
Qed.

Lemma pad_exact (idx : list Z) (ts : Z) :
  is_monotonic_increasing idx = true -> In ts idx -> pad idx ts = Some ts.
Proof.
  intros Hm Hin. destruct (pad idx ts) as [u|] eqn:E.
  - destruct (pad_Some _ _ _ Hm E) as (_ & Hle & Hmax).
    specialize (Hmax ts Hin (Z.le_refl ts)). f_equal. lia.
  - pose proof (pad_None _ _ Hm E ts Hin). lia.
Qed.

Lemma existsb_In (a : Z) (l : list Z) : existsb (Z.eqb a) l = true <-> In a l.
Proof.
  rewrite existsb_exists. split.
  - intros (x & Hx & E). apply Z.eqb_eq in E. now subst.
  - intros H. exists a. split; [exact H|apply Z.eqb_refl].
Qed.

Lemma is_unique_NoDup (idx : list Z) : is_unique idx = true <-> NoDup idx.
Proof.
  induction idx as [|t rest IH]; simpl.
  - split; [constructor|reflexivity].
  - rewrite andb_true_iff, negb_true_iff, IH. split.
    + intros [Hn Hr]. constructor; [|exact Hr].
      intros Hin. apply existsb_In in Hin. congruence.
    + intros H. inversion H as [|? ? Hn Hr]; subst. split; [|exact Hr].
      destruct (existsb (Z.eqb t) rest) eqn:E; [|reflexivity].
      apply existsb_In in E. contradiction.
Qed.

Lemma occurrences_absent (ts : Z) (idx : list Z) :
  occurrences ts idx = 0%nat <-> ~ In ts idx.
Proof.
  unfold occurrences. induction idx as [|t rest IH]; simpl; [tauto|].
  destruct (ts =? t) eqn:E; simpl.
  - apply Z.eqb_eq in E. split; [discriminate|]. intros H. exfalso. apply H. now left.
  - apply Z.eqb_neq in E. rewrite IH. intuition congruence.
Qed.

Lemma occurrences_NoDup (ts : Z) (idx : list Z) :
  NoDup idx -> In ts idx -> occurrences ts idx = 1%nat.
Proof.
  unfold occurrences. induction idx as [|t rest IH]; intros Hnd Hin; [easy|].
  inversion Hnd as [|? ? Hn Hr]; subst. simpl.
  destruct (ts =? t) eqn:E; simpl.
  - apply Z.eqb_eq in E. subst t. f_equal.
    apply (proj2 (occurrences_absent ts rest)). exact Hn.
  - apply Z.eqb_neq in E. destruct Hin as [Hin|Hin]; [congruence|]. now apply IH.
Qed.

(** On an index without repeats [asof] is the padded lookup. *)
Lemma index_asof_unique (idx : list Z) (ts : Z) :
  is_monotonic_increasing idx = true -> NoDup idx ->
  index_asof idx ts = pad idx ts.
Proof.
  intros Hm Hnd. unfold index_asof.
  destruct (in_dec Z.eq_dec ts idx) as [Hin|Hout].
  - rewrite (occurrences_NoDup ts idx Hnd Hin). symmetry. now apply pad_exact.
  - rewrite (proj2 (occurrences_absent ts idx) Hout).
    now rewrite (proj2 (is_unique_NoDup idx) Hnd).
Qed.

Lemma index_asof_Some (idx : list Z) (ts u : Z) :
  is_monotonic_increasing idx = true -> NoDup idx -> index_asof idx ts = Some u ->
  In u idx /\ u <= ts /\ forall v, In v idx -> v <= ts -> v <= u.
Proof.
  intros Hm Hnd H. rewrite (index_asof_unique idx ts Hm Hnd) in H.
  now apply pad_Some.
Qed.

Lemma index_asof_None (idx : list Z) (ts : Z) :
  is_monotonic_increasing idx = true -> NoDup idx -> index_asof idx ts = None ->
  forall v, In v idx -> ts < v.
Proof.
  intros Hm Hnd H. rewrite (index_asof_unique idx ts Hm Hnd) in H.
  now apply pad_None.
Qed.




Section LookupFacts.
Context {row : Type} (key : row -> Z).





End LookupFacts.

Lemma ewm_from_length (alpha prev : Q) (xs : list Q) :
  List.length (Selling.ewm_from alpha prev xs) = List.length xs.
Proof.
  revert prev; induction xs as [|x xs IH]; intros prev; simpl; [reflexivity|].
  now rewrite IH.
Qed.

Lemma ewm_mean_length (span : Q) (xs : list Q) :
  List.length (Selling.ewm_mean span xs) = List.length xs.
Proof.
  destruct xs as [|x xs]; simpl; [reflexivity|]. now rewrite ewm_from_length.
Qed.

Lemma add_columns_samples (df : list sample) (c h l : list Q) :
  List.length c = List.length df -> List.length h = List.length df ->
  List.length l = List.length df ->
  map Selling.i_sample (Selling.add_columns df c h l) = df.
Proof.
  revert c h l; induction df as [|r df IH]; intros c h l Hc Hh Hl; [reflexivity|].
  destruct c as [|c0 c]; [discriminate|].
  destruct h as [|h0 h]; [discriminate|].
  destruct l as [|l0 l]; [discriminate|].
  simpl in *. f_equal. apply IH; lia.
Qed.

(** The indicator columns leave the CSV rows and their order untouched. *)
Lemma with_indicators_samples (df : list sample) :
  map Selling.i_sample (Selling.with_indicators df) = df.
Proof.
  unfold Selling.with_indicators.
  apply add_columns_samples; rewrite ewm_mean_length; apply length_map.
Qed.

Lemma with_indicators_ts (df : list sample) :
  map Selling.i_ts (Selling.with_indicators df) = map s_ts df.
Proof.
  rewrite <- (with_indicators_samples df) at 2. now rewrite map_map.
Qed.

Section SortPermutation.
Context {row : Type} (key : row -> Z).

Lemma insert_row_perm (x : row) (l : list row) :
  Permutation (insert_row key x l) (x :: l).
Proof.
  induction l as [|y l IH]; simpl; [apply Permutation_refl|].
  destruct (key x <=? key y); [apply Permutation_refl|].
  eapply perm_trans; [apply perm_skip, IH|apply perm_swap].
Qed.

Lemma sort_index_perm (l : list row) : Permutation (sort_index key l) l.
Proof.
  induction l as [|x l IH]; simpl; [apply perm_nil|].
  eapply perm_trans; [apply insert_row_perm|now apply perm_skip].
Qed.

Lemma sorted_on_load_NoDup (l : list row) :
  NoDup (map key l) -> NoDup (map key (sorted_on_load key l)).
Proof.
  unfold sorted_on_load.
  destruct (is_monotonic_increasing (map key l)); [easy|].
  apply Permutation_NoDup, Permutation_map, Permutation_sym, sort_index_perm.
Qed.
End SortPermutation.







(* ------------------------------------------------------------------------- *)
(** ** C3: as-of price resolution *)

Example asof_0927 :
  Buying.asof_close Demo.morning (timestamp_of (Demo.at_ Demo.day1 9 27)) = Some 101%Q.
Proof. reflexivity. Qed.

Example asof_0910 :
  Buying.asof_close Demo.morning (timestamp_of (Demo.at_ Demo.day1 9 10)) = None.
Proof. reflexivity. Qed.

Example asof_no_ceiling_when_buying :
  Buying.asof_close Demo.morning (timestamp_of (Demo.at_ Demo.day2 15 0)) = Some 102%Q.
Proof. reflexivity. Qed.

Example asof_lag_900_accepted :
  option_map Selling.i_close
    (Selling.asof_row (Selling.with_indicators Demo.morning)
       (timestamp_of (Demo.at_ Demo.day1 9 45)))
  = Some 102%Q.
Proof. reflexivity. Qed.

Example asof_lag_901_rejected :
  Selling.asof_row (Selling.with_indicators Demo.morning)
    (timestamp_of (Demo.at_ Demo.day1 9 45) + 1) = None.
Proof. reflexivity. Qed.










(** At 09:20, a timestamp that occurs once, the same file gives its price;
    at 09:15, the repeated timestamp, the label found is that of a frame of
    two rows and there is no price. *)
Example asof_exact_label_among_repeats :
  Buying.asof_close repeated_stamp (timestamp_of (Demo.at_ Demo.day1 9 20))
  = Some 10%Q
  /\ index_asof (map s_ts repeated_stamp) (timestamp_of (Demo.at_ Demo.day1 9 15))
     = Some (timestamp_of (Demo.at_ Demo.day1 9 15))
  /\ Buying.asof_close repeated_stamp (timestamp_of (Demo.at_ Demo.day1 9 15))
     = None.
Proof. repeat split. Qed.

(** A file out of order is sorted with its ties in file order. *)
Example sort_keeps_ties_in_file_order :
  map s_close
    (sorted_on_load s_ts
       [Demo.candle Demo.day1 9 20 10; Demo.candle Demo.day1 9 15 20;
        Demo.candle Demo.day1 9 15 30])
  = [20; 30; 10]%Q.
Proof. reflexivity. Qed.



(* ------------------------------------------------------------------------- *)
(** ** Which attributes each method leaves alone *)

Ltac split_ifs :=
  repeat match goal with
         | |- context [if ?c then _ else _] => destruct c
         | |- context [match ?c with Some _ => _ | None => _ end] => destruct c
         end.

(** A lookup of the buying variant touches the cached frame and the scrip it
    belongs to, nothing else. *)
Lemma buying_lookup_frame (fs : folder) (s : Buying.state) (scrip : string) (ts : Z) :
  let s1 := snd (Buying.get_option_price fs s scrip ts) in
  s1 = s \/ exists df, s1 = Buying.set_cache s (Some df) scrip.
Proof.
  unfold Buying.get_option_price.
  destruct (match Buying.active_option_df s with
            | Some _ => negb (Buying.active_scrip s =? scrip)%string
            | None => true
            end).
  - destruct (fs scrip) as [raw|]; simpl; [right; eauto|now left].
  - destruct (Buying.active_option_df s); simpl; now left.
Qed.

Lemma buying_lookup_position (fs : folder) (s : Buying.state) (scrip : string) (ts : Z) :
  let s1 := snd (Buying.get_option_price fs s scrip ts) in
  buying_trade s1 = buying_trade s /\ buying_stop s1 = buying_stop s
  /\ buying_books s1 = buying_books s /\ buying_day s1 = buying_day s
  /\ Buying.current_trade_ledger s1 = Buying.current_trade_ledger s.
Proof.
  destruct (buying_lookup_frame fs s scrip ts) as [->|[df ->]]; now repeat split.
Qed.

Lemma buying_lookup_active_scrip (fs : folder) (s : Buying.state) (ts : Z) :
  Buying.active_scrip (snd (Buying.get_option_price fs s (Buying.active_scrip s) ts))
  = Buying.active_scrip s.
Proof.
  destruct (buying_lookup_frame fs s (Buying.active_scrip s) ts) as [->|[df ->]];
    reflexivity.
Qed.

Lemma buying_same_trade_refl (s : Buying.state) : buying_same_trade s s.
Proof. now repeat split. Qed.

Lemma buying_same_trade_trans (s s1 s2 : Buying.state) :
  buying_same_trade s s1 -> buying_same_trade s1 s2 -> buying_same_trade s s2.
Proof.
  unfold buying_same_trade. intros (A & B & C & D) (A' & B' & C' & D').
  repeat split; congruence.
Qed.

Lemma buying_lookup_same_trade (fs : folder) (s : Buying.state) (ts : Z) :
  buying_same_trade s (snd (Buying.get_option_price fs s (Buying.active_scrip s) ts)).
Proof.
  destruct (buying_lookup_position fs s (Buying.active_scrip s) ts)
    as (A & _ & C & D & _).
  repeat split; auto. apply buying_lookup_active_scrip.
Qed.

Lemma buying_log_same_trade (s : Buying.state) dt ev price pnl sl info :
  buying_same_trade s (Buying.log_trade_step s dt ev price pnl sl info).
Proof. now repeat split. Qed.

Lemma tsl_trigger_same_trade (s : Buying.state) dt c pnl :
  buying_same_trade s (Buying.tsl_trigger s dt c pnl).
Proof.
  unfold Buying.tsl_trigger.
  destruct (Buying.is_none (Buying.sl_mode s) && Qle_bool Buying.TSL_TRIGGER pnl);
    now repeat split.
Qed.

Lemma tsl_step_same_trade (s : Buying.state) dt c pnl :
  buying_same_trade s (Buying.tsl_step s dt c pnl).
Proof.
  unfold Buying.tsl_step. split_ifs; now repeat split.
Qed.

Lemma exits_cases (b : Buying.bar) (s : Buying.state) dt c :
  Buying.exits b s dt c = s
  \/ exists r price, Buying.exits b s dt c = Buying.close_trade b s r dt price.
Proof.
  unfold Buying.exits.
  destruct (negb (Buying.is_none (Buying.sl_mode s))
            && Qle_bool c (Buying.current_sl_price s)); [right; eauto|].
  destruct (Buying.pos_type s) as [[|]|]; [| |now left].
  - destruct (Qlt_bool (Buying.ema5 b) (Buying.ema20_low b)); [right; eauto|now left].
  - destruct (Qlt_bool (Buying.ema20_high b) (Buying.ema5 b)); [right; eauto|now left].
Qed.

(** A held bar either keeps the trade or closes it, once. *)
Lemma manage_position_cases (fs : folder) (b : Buying.bar) (s : Buying.state) :
  let s1 := Buying.manage_position fs b s in
  buying_same_trade s s1
  \/ exists sx r price,
       s1 = Buying.close_trade b sx r (Buying.bar_dt b) price
       /\ buying_same_trade s sx.
Proof.
  unfold Buying.manage_position.
  pose proof (buying_lookup_same_trade fs s (timestamp_of (Buying.bar_dt b))) as Hl.
  destruct (Buying.get_option_price fs s (Buying.active_scrip s)
              (timestamp_of (Buying.bar_dt b))) as [p s1].
  simpl in Hl.
  destruct (Buying.is_expiry_today b && (time_of 15 15 <=? dt_time (Buying.bar_dt b))).
  - right. eauto.
  - destruct p as [c|]; [|now left].
    set (pnl := ((c - Buying.entry_price s1) * Buying.qty)%Q).
    set (s2 := Buying.log_trade_step s1 _ _ _ _ _ _).
    set (s3 := Buying.tsl_trigger s2 _ _ _).
    set (s4 := Buying.tsl_step s3 _ _ _).
    assert (H4 : buying_same_trade s s4).
    { apply (buying_same_trade_trans s s1); [assumption|].
      apply (buying_same_trade_trans s1 s2); [apply buying_log_same_trade|].
      apply (buying_same_trade_trans s2 s3);
        [apply tsl_trigger_same_trade|apply tsl_step_same_trade]. }
    destruct (exits_cases b s4 (Buying.bar_dt b) c) as [->|(r & price & ->)];
      [now left|right; eauto].
Qed.

Lemma new_day_reset_frame (s : Buying.state) (today : date) :
  let s0 := Buying.new_day_reset s today in
  buying_trade s0 = buying_trade s /\ buying_stop s0 = buying_stop s
  /\ buying_books s0 = buying_books s
  /\ Buying.active_scrip s0 = Buying.active_scrip s
  /\ Buying.current_trade_ledger s0 = Buying.current_trade_ledger s.
Proof.
  unfold Buying.new_day_reset.
  destruct (opt_date_eqb (Buying.current_date s) today); now repeat split.
Qed.

(** An entry attempt either leaves trade, stop, books, counter and ledger as
    they are or opens a position at a price that is not zero. *)
Lemma entry_setup_cases (fs : folder) (b : Buying.bar) (s : Buying.state)
    (t : side) (dt : datetime) :
  let s1 := Buying.entry_setup fs b s t dt in
  (buying_trade s1 = buying_trade s /\ buying_stop s1 = buying_stop s
   /\ buying_books s1 = buying_books s /\ buying_day s1 = buying_day s
   /\ Buying.current_trade_ledger s1 = Buying.current_trade_ledger s)
  \/ exists sx scrip p,
       s1 = Buying.open_position b sx t scrip dt p
       /\ truthy p = true
       /\ buying_books sx = buying_books s /\ buying_day sx = buying_day s.
Proof.
  unfold Buying.entry_setup.
  set (scrip := match t with
                | CE => Buying.icici_scrip_code_ce b
                | PE => Buying.icici_scrip_code_pe b
                end).
  destruct (buying_lookup_position fs s scrip (timestamp_of (Buying.bar_dt b)))
    as (A & B & C & D & E).
  destruct (Buying.get_option_price fs s scrip (timestamp_of (Buying.bar_dt b)))
    as [p s1].
  simpl in A, B, C, D, E.
  destruct p as [p|]; [|now left].
  destruct (truthy p) eqn:Ep; [|now left].
  right. exists s1, scrip, p. now repeat split.
Qed.

Lemma entry_logic_cases (fs : folder) (b : Buying.bar) (s : Buying.state) :
  let s1 := Buying.entry_logic fs b s in
  (buying_trade s1 = buying_trade s /\ buying_stop s1 = buying_stop s
   /\ buying_books s1 = buying_books s /\ buying_day s1 = buying_day s
   /\ Buying.current_trade_ledger s1 = Buying.current_trade_ledger s)
  \/ exists sx t scrip p,
       s1 = Buying.open_position b sx t scrip (Buying.bar_dt b) p
       /\ truthy p = true
       /\ buying_books sx = buying_books s /\ buying_day sx = buying_day s.
Proof.
  unfold Buying.entry_logic.
  destruct (negb _); [now left|].
  destruct (Buying.MAX_TRADES_DAY <=? Buying.trades_today s); [now left|].
  destruct (Qle_bool (Buying.ema5_prev b) (Buying.ema20_high_prev b)
            && Qlt_bool (Buying.ema20_high b) (Buying.ema5 b)).
  - destruct (entry_setup_cases fs b s CE (Buying.bar_dt b))
      as [H|(sx & scrip & p & H)]; [now left|right; eauto].
  - destruct (Qle_bool (Buying.ema20_low_prev b) (Buying.ema5_prev b)
              && Qlt_bool (Buying.ema5 b) (Buying.ema20_low b)); [|now left].
    destruct (entry_setup_cases fs b s PE (Buying.bar_dt b))
      as [H|(sx & scrip & p & H)]; [now left|right; eauto].
Qed.

Lemma buying_next_count (fs : folder) (s : Buying.state) (b : Buying.bar) :
  buying_open_positions s = flag (Buying.position_active s) ->
  buying_open_positions (Buying.next fs s b)
  = flag (Buying.position_active (Buying.next fs s b)).
Proof.
  intros Hinv. unfold Buying.next.
  destruct (new_day_reset_frame s (dt_date (Buying.bar_dt b)))
    as (A & _ & C & _).
  set (s0 := Buying.new_day_reset s (dt_date (Buying.bar_dt b))) in *.
  assert (H0 : buying_open_positions s0 = flag (Buying.position_active s0)).
  { unfold buying_open_positions, buying_trade, buying_books in *.
    injection A as A1 _ _ _. injection C as C1 C2 _. congruence. }
  clearbody s0. clear A C Hinv s.
  destruct (Buying.position_active s0) eqn:Eact.
  - destruct (manage_position_cases fs b s0)
      as [(A & _ & C & _)|(sx & r & price & -> & (A & _ & C & _))];
      unfold buying_open_positions, buying_trade, buying_books in *.
    + injection A as A1 _ _ _. injection C as C1 C2 _.
      rewrite A1, C1, C2, Eact. exact H0.
    + injection A as A1 _ _ _. injection C as C1 C2 _.
      simpl. rewrite length_app, C1, C2. simpl. simpl in H0. lia.
  - destruct (entry_logic_cases fs b s0)
      as [(A & _ & C & _)|(sx & t & scrip & p & -> & _ & C & _)];
      unfold buying_open_positions, buying_trade, buying_books in *.
    + injection A as A1 _ _ _. injection C as C1 C2 _.
      rewrite A1, C1, C2, Eact. exact H0.
    + injection C as C1 C2 _. simpl. rewrite C1, C2. simpl in H0. lia.
Qed.

Lemma buying_run_count (steps : list (folder * Buying.bar)) (s : Buying.state) :
  buying_open_positions s = flag (Buying.position_active s) ->
  buying_open_positions (Buying.run s steps)
  = flag (Buying.position_active (Buying.run s steps)).
Proof.
  revert s; induction steps as [|[fs b] steps IH]; intros s H; [exact H|].
  apply IH. now apply buying_next_count.
Qed.

(** A lookup of the selling variant touches the cached frame only. *)
Lemma selling_lookup_frame (fs : folder) (s : Selling.state) (scrip : string)
    (dt : datetime) :
  let s1 := snd (Selling.get_option_indicators fs s scrip dt) in
  s1 = s \/ exists df, s1 = Selling.set_df s (Some df).
Proof.
  unfold Selling.get_option_indicators.
  destruct (Selling.position_active s && (scrip =? Selling.active_scrip s)%string).
  - destruct (Selling.active_option_df s); [now left|].
    destruct (fs scrip); simpl; [right; eauto|now left].
  - destruct (fs scrip); simpl; now left.
Qed.

Lemma selling_lookup_same_trade (fs : folder) (s : Selling.state) (scrip : string)
    (dt : datetime) :
  let s1 := snd (Selling.get_option_indicators fs s scrip dt) in
  selling_same_trade s s1
  /\ Selling.current_trade_ledger s1 = Selling.current_trade_ledger s.
Proof.
  destruct (selling_lookup_frame fs s scrip dt) as [->|[df ->]]; now repeat split.
Qed.

Lemma selling_same_trade_trans (s s1 s2 : Selling.state) :
  selling_same_trade s s1 -> selling_same_trade s1 s2 -> selling_same_trade s s2.
Proof.
  unfold selling_same_trade. intros (A & B) (A' & B'). split; congruence.
Qed.

(** A held bar of the selling variant either keeps the trade or closes it,
    once. *)
Lemma selling_manage_cases (fs : folder) (b : Selling.bar) (s : Selling.state)
    (rollover : bool) :
  let s1 := Selling.manage_position fs b s rollover in
  selling_same_trade s s1
  \/ exists sx r price,
       s1 = Selling.close_trade sx r (Selling.local_time b) price
       /\ selling_same_trade s sx.
Proof.
  unfold Selling.manage_position.
  destruct (selling_lookup_same_trade fs s (Selling.active_scrip s)
              (Selling.local_time b)) as [Hl _].
  destruct (Selling.get_option_indicators fs s (Selling.active_scrip s)
              (Selling.local_time b)) as [row s1].
  simpl in Hl. destruct row as [row|]; [|now left].
  set (s2 := Selling.log_trade_step s1 _ _ _ _ _).
  assert (H2 : selling_same_trade s s2)
    by (apply (selling_same_trade_trans s s1); [assumption|now split]).
  destruct rollover; [right; eauto|].
  destruct (Qlt_bool (Selling.EMA50_High row) (Selling.EMA19_Close row));
    [right; eauto|].
  destruct (Qlt_bool (Selling.i_close row) Selling.TARGET_LTP);
    [right; eauto|now left].
Qed.

(** An entry evaluation of the selling variant either leaves trade, books
    and ledger as they are or opens one position. *)
Lemma selling_entry_cases (fs : folder) (b : Selling.bar) (s : Selling.state)
    (rollover : bool) :
  let s1 := Selling.entry_logic fs b s rollover in
  (selling_same_trade s s1
   /\ Selling.current_trade_ledger s1 = Selling.current_trade_ledger s)
  \/ exists sx t scrip price,
       s1 = Selling.open_trade sx t scrip price (Selling.local_time b)
       /\ selling_books sx = selling_books s.
Proof.
  unfold Selling.entry_logic.
  destruct rollover; [left; now repeat split|].
  destruct (negb _); [left; now repeat split|].
  destruct (selling_lookup_same_trade fs s (Selling.icici_scrip_code_pe b)
              (Selling.local_time b)) as [H1 L1].
  destruct (Selling.get_option_indicators fs s (Selling.icici_scrip_code_pe b)
              (Selling.local_time b)) as [row_pe s1].
  simpl in H1, L1.
  destruct (Selling.entry_signal row_pe) as [r|].
  - right. exists s1, PE, (Selling.icici_scrip_code_pe b), (Selling.i_close r).
    split; [reflexivity|apply H1].
  - destruct (selling_lookup_same_trade fs s1 (Selling.icici_scrip_code_ce b)
                (Selling.local_time b)) as [H2 L2].
    destruct (Selling.get_option_indicators fs s1 (Selling.icici_scrip_code_ce b)
                (Selling.local_time b)) as [row_ce s2].
    simpl in H2, L2.
    pose proof (selling_same_trade_trans _ _ _ H1 H2) as H12.
    destruct (Selling.entry_signal row_ce) as [r|].
    + right. exists s2, CE, (Selling.icici_scrip_code_ce b), (Selling.i_close r).
      split; [reflexivity|apply H12].
    + left. split; [assumption|congruence].
Qed.

Lemma selling_next_count (fs : folder) (s s1 : Selling.state) (b : Selling.bar) :
  Selling.next fs s b = Some s1 ->
  selling_open_positions s = flag (Selling.position_active s) ->
  selling_open_positions s1 = flag (Selling.position_active s1).
Proof.
  unfold Selling.next.
  destruct (date_ctor _ _ _) as [expiry|]; [|discriminate].
  set (ro := Selling.is_rollover_period _ _).
  intros [= <-] H0.
  destruct (Selling.position_active s) eqn:Eact.
  - destruct (selling_manage_cases fs b s ro)
      as [(A & C)|(sx & r & price & -> & (A & C))];
      unfold selling_open_positions, selling_trade, selling_books in *.
    + injection A as A1 _ _ _ _. injection C as C1 C2 _.
      rewrite A1, C1, C2, Eact. exact H0.
    + injection A as A1 _ _ _ _. injection C as C1 C2 _.
      simpl. rewrite length_app, C1, C2. simpl. simpl in H0. lia.
  - destruct (selling_entry_cases fs b s ro)
      as [((A & C) & _)|(sx & t & scrip & price & -> & C)];
      unfold selling_open_positions, selling_trade, selling_books in *.
    + injection A as A1 _ _ _ _. injection C as C1 C2 _.
      rewrite A1, C1, C2, Eact. exact H0.
    + injection C as C1 C2 _. simpl. rewrite C1, C2. simpl in H0. lia.
Qed.

Lemma selling_run_count (steps : list (folder * Selling.bar)) (s s1 : Selling.state) :
  Selling.run s steps = Some s1 ->
  selling_open_positions s = flag (Selling.position_active s) ->
  selling_open_positions s1 = flag (Selling.position_active s1).
Proof.
  revert s; induction steps as [|[fs b] steps IH]; intros s Hrun H.
  - simpl in Hrun. now injection Hrun as <-.
  - simpl in Hrun. destruct (Selling.next fs s b) as [s2|] eqn:E; [|discriminate].
    apply (IH s2 Hrun). exact (selling_next_count fs s s2 b E H).
Qed.

(* ------------------------------------------------------------------------- *)
(** ** C1: at most one open position *)

(** C1. In every replay of either variant from the initial strategy, the
    number of positions opened minus the number closed is 1 while a position
    is active and 0 while flat, so it never exceeds one.  A bar that arrives
    while a position is active is handled by the position branch alone: it
    opens nothing (the trade counter, entry price and entry time stay, and
    side and scrip stay unless the position is closed). *)
Theorem one_position_at_a_time :
  (forall steps,
      let s := Buying.run Buying.init steps in
      buying_open_positions s = flag (Buying.position_active s))
  /\ (forall fs s b,
         Buying.position_active s = true ->
         let s1 := Buying.next fs s b in
         s1 = Buying.manage_position fs b
                (Buying.new_day_reset s (dt_date (Buying.bar_dt b)))
         /\ Buying.total_trades_count s1 = Buying.total_trades_count s
         /\ Buying.entry_price s1 = Buying.entry_price s
         /\ Buying.entry_time s1 = Buying.entry_time s
         /\ (Buying.position_active s1 = true ->
             Buying.pos_type s1 = Buying.pos_type s
             /\ Buying.active_scrip s1 = Buying.active_scrip s))
  /\ (forall steps s,
         Selling.run Selling.init steps = Some s ->
         selling_open_positions s = flag (Selling.position_active s))
  /\ (forall fs s b s1,
         Selling.position_active s = true ->
         Selling.next fs s b = Some s1 ->
         (exists rollover, s1 = Selling.manage_position fs b s rollover)
         /\ Selling.total_trades_count s1 = Selling.total_trades_count s
         /\ Selling.entry_price s1 = Selling.entry_price s
         /\ Selling.entry_time s1 = Selling.entry_time s
         /\ (Selling.position_active s1 = true ->
             Selling.pos_type s1 = Selling.pos_type s
             /\ Selling.active_scrip s1 = Selling.active_scrip s)).
Proof.
  split; [|split; [|split]].
  - intros steps. now apply buying_run_count.
  - intros fs s b Hact s1. subst s1. unfold Buying.next.
    destruct (new_day_reset_frame s (dt_date (Buying.bar_dt b)))
      as (A & _ & C & D & _).
    set (s0 := Buying.new_day_reset s (dt_date (Buying.bar_dt b))) in *.
    unfold buying_trade, buying_books in A, C.
    injection A as A1 A2 A3 A4. injection C as C1 _ _.
    rewrite A1, Hact. split; [reflexivity|].
    destruct (manage_position_cases fs b s0)
      as [(T & N & B & _)|(sx & r & price & -> & (T & N & B & _))];
      unfold buying_trade, buying_books in T, B;
      injection T as T1 T2 T3 T4; injection B as B1 _ _.
    + repeat split; congruence.
    + simpl. repeat split; try congruence; discriminate.
  - intros steps s Hrun. now apply (selling_run_count steps Selling.init).
  - intros fs s b s1 Hact Hnext. unfold Selling.next in Hnext.
    destruct (date_ctor _ _ _) as [expiry|]; [|discriminate].
    rewrite Hact in Hnext. injection Hnext as <-.
    set (ro := Selling.is_rollover_period _ _).
    split; [now exists ro|].
    destruct (selling_manage_cases fs b s ro)
      as [(T & B)|(sx & r & price & -> & (T & B))];
      unfold selling_trade, selling_books in T, B;
      injection T as T1 T2 T3 T4 T5; injection B as B1 _ _.
    + repeat split; congruence.
    + simpl. repeat split; try congruence; discriminate.
Qed.

Lemma one_position_at_a_time_witness :
  Buying.position_active Demo.buy_open = true
  /\ Buying.total_trades_count
       (Buying.next Demo.buy_folder Demo.buy_open (Demo.quiet Demo.day1 9 25))
     = Buying.total_trades_count Demo.buy_open
  /\ selling_open_positions Demo.sell_open_state
     = flag (Selling.position_active Demo.sell_open_state)
  /\ Selling.position_active Demo.sell_open_state = true
  /\ option_map Selling.total_trades_count
       (Selling.next Demo.sell_folder Demo.sell_open_state
          (Demo.sell_bar (Demo.at_ Demo.day1 14 10) 25))
     = Some (Selling.total_trades_count Demo.sell_open_state).
Proof.
  destruct one_position_at_a_time as (_ & HB & HS & HN).
  split; [reflexivity|]. split.
  - apply (HB Demo.buy_folder Demo.buy_open (Demo.quiet Demo.day1 9 25)).
    reflexivity.
  - split.
    + apply (HS [(Demo.sell_folder, Demo.sell_bar (Demo.at_ Demo.day1 14 5) 25)]).
      reflexivity.
    + split; [reflexivity|].
      destruct (Selling.next Demo.sell_folder Demo.sell_open_state
                  (Demo.sell_bar (Demo.at_ Demo.day1 14 10) 25)) as [s1|] eqn:E.
      * simpl. f_equal.
        apply (HN Demo.sell_folder Demo.sell_open_state
                 (Demo.sell_bar (Demo.at_ Demo.day1 14 10) 25) s1);
          [reflexivity|exact E].
      * vm_compute in E. discriminate E.
Defined.

(* ------------------------------------------------------------------------- *)
(** ** The trailing stop of the buying variant *)

Lemma Qlt_bool_iff (x y : Q) : Qlt_bool x y = true <-> (x < y)%Q.
Proof.
  unfold Qlt_bool. rewrite negb_true_iff. split.
  - intros H. apply Qnot_le_lt. intros Hle.
    apply Qle_bool_iff in Hle. congruence.
  - intros H. destruct (Qle_bool y x) eqn:E; [|reflexivity].
    apply Qle_bool_iff in E. exfalso. exact (Qlt_not_le _ _ H E).
Qed.

Lemma Qlt_bool_false (x y : Q) : Qlt_bool x y = false <-> (y <= x)%Q.
Proof.
  unfold Qlt_bool. rewrite negb_false_iff. apply Qle_bool_iff.
Qed.

Lemma is_none_true (m : Buying.sl_mode_t) :
  Buying.is_none m = true <-> m = Buying.NONE.
Proof. destruct m; simpl; split; congruence. Qed.

(** The move to cost: it fires exactly when the stop is unarmed and the
    profit has reached the trigger. *)
Lemma tsl_trigger_spec (s : Buying.state) dt c pnl :
  let s1 := Buying.tsl_trigger s dt c pnl in
  (Buying.sl_mode s = Buying.NONE /\ (Buying.TSL_TRIGGER <= pnl)%Q
   /\ buying_stop s1 = (Buying.COST, Buying.entry_price s, pnl))
  \/ (~ (Buying.sl_mode s = Buying.NONE /\ (Buying.TSL_TRIGGER <= pnl)%Q)
      /\ s1 = s).
Proof.
  unfold Buying.tsl_trigger.
  destruct (Buying.is_none (Buying.sl_mode s)) eqn:Em;
    destruct (Qle_bool Buying.TSL_TRIGGER pnl) eqn:Ep; simpl.
  - left. apply is_none_true in Em. apply Qle_bool_iff in Ep. now repeat split.
  - right. split; [|reflexivity]. intros [_ H].
    apply Qle_bool_iff in H. congruence.
  - right. split; [|reflexivity]. intros [H _].
    apply is_none_true in H. congruence.
  - right. split; [|reflexivity]. intros [H _].
    apply is_none_true in H. congruence.
Qed.

(** The stepped stop: once armed, the high-water mark follows the profit
    upward, and the stop is replaced by the stepped price exactly when
    the high-water mark is a full step past the trigger and the stepped price
    is strictly above the current stop. *)
Lemma tsl_step_spec (s : Buying.state) dt c pnl :
  let s1 := Buying.tsl_step s dt c pnl in
  let mx := high_water s pnl in
  let new_sl := Buying.stepped_sl (Buying.entry_price s) mx in
  (Buying.sl_mode s = Buying.NONE /\ s1 = s)
  \/ (Buying.sl_mode s <> Buying.NONE
      /\ ((((Buying.TSL_STEP <= mx - Buying.TSL_TRIGGER)%Q
            /\ (Buying.current_sl_price s < new_sl)%Q)
           /\ buying_stop s1 = (Buying.TRAILING, new_sl, mx))
          \/ (~ ((Buying.TSL_STEP <= mx - Buying.TSL_TRIGGER)%Q
                 /\ (Buying.current_sl_price s < new_sl)%Q)
              /\ buying_stop s1
                 = (Buying.sl_mode s, Buying.current_sl_price s, mx)))).
Proof.
  unfold Buying.tsl_step, high_water.
  destruct (Buying.is_none (Buying.sl_mode s)) eqn:Em.
  - left. apply is_none_true in Em. now split.
  - right. split; [intros H; apply is_none_true in H; congruence|].
    destruct (Qlt_bool (Buying.max_pnl_reached s) pnl) eqn:Ehw; simpl;
      match goal with
      | |- context [Qle_bool Buying.TSL_STEP ?e] =>
          destruct (Qle_bool Buying.TSL_STEP e) eqn:Ex
      end;
      try (right; split; [|reflexivity]; intros [H _];
           apply Qle_bool_iff in H; congruence);
      match goal with
      | |- context [Qlt_bool (Buying.current_sl_price s) ?n] =>
          destruct (Qlt_bool (Buying.current_sl_price s) n) eqn:Es
      end;
      try (left; apply Qle_bool_iff in Ex; apply Qlt_bool_iff in Es;
           now repeat split);
      right; (split; [|reflexivity]); intros [_ H];
      apply Qlt_bool_iff in H; congruence.
Qed.

(** A held bar that leaves the position open never lowers the stop. *)
Lemma held_bar_stop (fs : folder) (b : Buying.bar) (s : Buying.state) :
  Buying.position_active s = true -> stop_unarmed_at_zero s ->
  let s1 := Buying.manage_position fs b s in
  Buying.position_active s1 = true ->
  stop_unarmed_at_zero s1
  /\ (Buying.sl_mode s <> Buying.NONE \/ (0 <= Buying.entry_price s)%Q ->
      (Buying.current_sl_price s <= Buying.current_sl_price s1)%Q).
Proof.
  intros Hact Hz. unfold Buying.manage_position.
  destruct (buying_lookup_position fs s (Buying.active_scrip s)
              (timestamp_of (Buying.bar_dt b))) as (T & S & _).
  destruct (Buying.get_option_price fs s (Buying.active_scrip s)
              (timestamp_of (Buying.bar_dt b))) as [p s1].
  simpl in T, S. unfold buying_trade in T. unfold buying_stop in S.
  injection T as T1 _ T3 _. injection S as S1 S2 _.
  destruct (Buying.is_expiry_today b && (time_of 15 15 <=? dt_time (Buying.bar_dt b)));
    [simpl; discriminate|].
  destruct p as [c|].
  2:{ simpl. intros _. unfold stop_unarmed_at_zero in *. rewrite S1, S2.
      split; [assumption|intros _; apply Qle_refl]. }
  set (pnl := ((c - Buying.entry_price s1) * Buying.qty)%Q).
  set (s2 := Buying.log_trade_step s1 (Buying.bar_dt b) Buying.HOLD c pnl
               (Buying.current_sl_price s1) "Monitoring").
  set (s3 := Buying.tsl_trigger s2 (Buying.bar_dt b) c pnl).
  set (s4 := Buying.tsl_step s3 (Buying.bar_dt b) c pnl).
  simpl.
  destruct (exits_cases b s4 (Buying.bar_dt b) c) as [->|(r & price & ->)];
    [|simpl; discriminate].
  intros _.
  assert (E3 : Buying.entry_price s3 = Buying.entry_price s).
  { destruct (tsl_trigger_same_trade s2 (Buying.bar_dt b) c pnl) as (A & _).
    unfold buying_trade in A. injection A as _ _ A _.
    fold s3 in A. rewrite A. exact T3. }
  assert (H3 : (Buying.sl_mode s3 = Buying.NONE ->
                Buying.current_sl_price s3 = 0%Q)
               /\ (Buying.sl_mode s <> Buying.NONE \/ (0 <= Buying.entry_price s)%Q ->
                   (Buying.current_sl_price s <= Buying.current_sl_price s3)%Q)).
  { destruct (tsl_trigger_spec s2 (Buying.bar_dt b) c pnl) as [(M & _ & St)|(_ & E)];
      fold s3 in St || fold s3 in E.
    - unfold buying_stop in St. injection St as St1 St2 _.
      rewrite St1, St2. split; [discriminate|].
      simpl in M. rewrite S1 in M.
      intros [Harmed|Hpos]; [contradiction|]. rewrite (Hz M).
      simpl. now rewrite T3.
    - rewrite E. simpl. rewrite S1, S2.
      split; [exact Hz|intros _; apply Qle_refl]. }
  destruct H3 as [Hz3 Hle3].
  destruct (tsl_step_spec s3 (Buying.bar_dt b) c pnl)
    as [(M & E)|(M & [((_ & Hup) & St)|(_ & St)])];
    fold s4 in E || fold s4 in St.
  - rewrite E. now split.
  - unfold buying_stop in St. injection St as St1 St2 _.
    unfold stop_unarmed_at_zero. rewrite St1, St2. split; [discriminate|].
    intros Hpos. specialize (Hle3 Hpos).
    apply Qlt_le_weak in Hup. exact (Qle_trans _ _ _ Hle3 Hup).
  - unfold buying_stop in St. injection St as St1 St2 _.
    unfold stop_unarmed_at_zero. rewrite St1, St2. split; [congruence|assumption].
Qed.

(** The same for a whole bar step, and the stop of a fresh position. *)
Lemma next_stop (fs : folder) (s : Buying.state) (b : Buying.bar) :
  (Buying.position_active s = true -> stop_unarmed_at_zero s) ->
  let s1 := Buying.next fs s b in
  Buying.position_active s1 = true ->
  stop_unarmed_at_zero s1
  /\ (Buying.position_active s = true ->
      Buying.sl_mode s <> Buying.NONE \/ (0 <= Buying.entry_price s)%Q ->
      (Buying.current_sl_price s <= Buying.current_sl_price s1)%Q).
Proof.
  intros Hz. unfold Buying.next.
  destruct (new_day_reset_frame s (dt_date (Buying.bar_dt b)))
    as (T & S & _).
  set (s0 := Buying.new_day_reset s (dt_date (Buying.bar_dt b))) in *.
  unfold buying_trade in T. unfold buying_stop in S.
  injection T as T1 _ T3 _. injection S as S1 S2 _.
  destruct (Buying.position_active s0) eqn:E0.
  - symmetry in T1. intros Hopen.
    destruct (held_bar_stop fs b s0 E0) as [Hz1 Hle]; auto.
    { unfold stop_unarmed_at_zero. rewrite S1, S2. now apply Hz. }
    split; [assumption|]. intros _ Hpos. rewrite <- S2. apply Hle.
    now rewrite S1, T3.
  - intros Hopen.
    destruct (entry_logic_cases fs b s0)
      as [(A & _)|(sx & t & scrip & p & -> & _)].
    + unfold buying_trade in A. injection A as A1 _ _ _. congruence.
    + split; [intros _; reflexivity|]. intros Hs. congruence.
Qed.

Lemma run_stop_unarmed (steps : list (folder * Buying.bar)) (s : Buying.state) :
  (Buying.position_active s = true -> stop_unarmed_at_zero s) ->
  Buying.position_active (Buying.run s steps) = true ->
  stop_unarmed_at_zero (Buying.run s steps).
Proof.
  revert s; induction steps as [|[fs b] steps IH]; intros s Hz; [exact Hz|].
  simpl. apply IH. intros H. now apply next_stop.
Qed.

(* ------------------------------------------------------------------------- *)
(** ** C2: the stop price never retreats *)

Example stepped_sl_one_step : (Buying.stepped_sl 100 3500 == 100 + 500 / 120)%Q.
Proof. reflexivity. Qed.

Example stepped_sl_two_steps : (Buying.stepped_sl 100 4000 == 100 + 1000 / 120)%Q.
Proof. reflexivity. Qed.

Example stepped_sl_partial_step : (Buying.stepped_sl 100 3999 == 100 + 500 / 120)%Q.
Proof. reflexivity. Qed.

(** C2. Buying variant.  In every replay from the initial strategy, a bar
    that finds a position open and leaves it open does not lower the stop
    price: never once the stop is armed, and also not on arming, from the
    placeholder 0 to the entry price, when the position was bought at a
    non-negative price.  When the profit reaches the trigger
    with the stop unarmed, the mode becomes COST and the stop is the entry
    price.  Once armed, a ratchet sets the stop to
    entry + (steps * 500) / 120 with steps = floor((high-water - 3000) / 500),
    in mode TRAILING, exactly when the high-water profit is at least 500 past
    the trigger and that price is strictly above the current stop; otherwise
    stop and mode stay. *)
Theorem stop_price_never_retreats :
  (forall steps fs b,
      let s := Buying.run Buying.init steps in
      let s1 := Buying.next fs s b in
      Buying.position_active s = true ->
      Buying.sl_mode s <> Buying.NONE \/ (0 <= Buying.entry_price s)%Q ->
      Buying.position_active s1 = true ->
      (Buying.current_sl_price s <= Buying.current_sl_price s1)%Q)
  /\ (forall s dt c pnl,
         Buying.sl_mode s = Buying.NONE -> (3000 <= pnl)%Q ->
         let s1 := Buying.tsl_trigger s dt c pnl in
         Buying.sl_mode s1 = Buying.COST
         /\ Buying.current_sl_price s1 = Buying.entry_price s
         /\ Buying.max_pnl_reached s1 = pnl)
  /\ (forall s dt c pnl,
         Buying.sl_mode s <> Buying.NONE ->
         let s1 := Buying.tsl_step s dt c pnl in
         let mx := Buying.max_pnl_reached s1 in
         let new_sl :=
           (Buying.entry_price s
            + (inject_Z (Qfloor ((mx - 3000) / 500)) * 500) / 120)%Q in
         mx = high_water s pnl
         /\ (Buying.current_sl_price s <= Buying.current_sl_price s1)%Q
         /\ ((500 <= mx - 3000)%Q /\ (Buying.current_sl_price s < new_sl)%Q ->
             Buying.current_sl_price s1 = new_sl
             /\ Buying.sl_mode s1 = Buying.TRAILING)
         /\ (~ ((500 <= mx - 3000)%Q /\ (Buying.current_sl_price s < new_sl)%Q) ->
             Buying.current_sl_price s1 = Buying.current_sl_price s
             /\ Buying.sl_mode s1 = Buying.sl_mode s)).
Proof.
  split; [|split].
  - intros steps fs b s s1 Hact Hpos Hopen.
    apply (next_stop fs s b); auto.
    intros _. apply run_stop_unarmed; [discriminate|exact Hact].
  - intros s dt c pnl Hm Hp s1.
    destruct (tsl_trigger_spec s dt c pnl) as [(_ & _ & St)|(Hn & _)].
    + unfold buying_stop in St. injection St as St1 St2 St3. now repeat split.
    + exfalso. apply Hn. now split.
  - intros s dt c pnl Hm s1 mx new_sl.
    destruct (tsl_step_spec s dt c pnl) as [(M & _)|(_ & [(Hup & St)|(Hno & St)])];
      [contradiction| |];
      unfold buying_stop in St; injection St as St1 St2 St3;
      subst mx new_sl s1; rewrite St3 in *;
      (split; [reflexivity|]).
    + split; [rewrite St2; apply Qlt_le_weak, Hup|].
      split; [intros _; now split|]. intros Hn. exfalso. exact (Hn Hup).
    + split; [rewrite St2; apply Qle_refl|].
      split; [intros Hy; exfalso; exact (Hno Hy)|]. intros _. now split.
Qed.

Lemma stop_price_never_retreats_witness :
  (let s := Buying.run Buying.init (Demo.buy_steps [25; 30]) in
   let s1 := Buying.next Demo.buy_folder s (Demo.quiet Demo.day1 9 35) in
   (Buying.current_sl_price s <= Buying.current_sl_price s1)%Q)
  /\ Buying.sl_mode
       (Buying.tsl_trigger Demo.buy_unarmed (Demo.at_ Demo.day1 9 30) 126 3120)
     = Buying.COST
  /\ Buying.max_pnl_reached
       (Buying.tsl_step Demo.buy_at_cost (Demo.at_ Demo.day1 9 35) 130 3600)
     = high_water Demo.buy_at_cost 3600.
Proof.
  destruct stop_price_never_retreats as (H1 & H2 & H3).
  split; [|split].
  - apply (H1 (Demo.buy_steps [25; 30]) Demo.buy_folder (Demo.quiet Demo.day1 9 35)).
    + reflexivity.
    + right. vm_compute. discriminate.
    + reflexivity.
  - apply (H2 Demo.buy_unarmed (Demo.at_ Demo.day1 9 30) 126%Q 3120%Q).
    + reflexivity.
    + vm_compute. discriminate.
  - apply (H3 Demo.buy_at_cost (Demo.at_ Demo.day1 9 35) 130%Q 3600%Q).
    vm_compute. discriminate.
Defined.

(* ------------------------------------------------------------------------- *)
(** ** C4: the forced exit on expiry day *)

(** The first branch of the position logic. *)
Lemma expiry_exit_state (fs : folder) (s : Buying.state) (b : Buying.bar) :
  Buying.position_active s = true ->
  Buying.is_expiry_today b = true ->
  time_of 15 15 <= dt_time (Buying.bar_dt b) ->
  let s0 := Buying.new_day_reset s (dt_date (Buying.bar_dt b)) in
  let found :=
    Buying.get_option_price fs s0 (Buying.active_scrip s)
      (timestamp_of (Buying.bar_dt b)) in
  Buying.next fs s b
  = Buying.close_trade b (snd found) Buying.EXPIRY_FORCE (Buying.bar_dt b)
      (match fst found with
       | Some c => c
       | None => Buying.entry_price s
       end).
Proof.
  intros Hact Hexp Htime s0 found.
  destruct (new_day_reset_frame s (dt_date (Buying.bar_dt b))) as (T & _ & _ & N & _).
  fold s0 in T, N. unfold buying_trade in T. injection T as T1 _ T3 _.
  destruct (buying_lookup_position fs s0 (Buying.active_scrip s)
              (timestamp_of (Buying.bar_dt b))) as (T' & _).
  fold found in T'. unfold buying_trade in T'. injection T' as _ _ T3' _.
  unfold Buying.next. fold s0. rewrite T1, Hact.
  unfold Buying.manage_position.
  apply Z.leb_le in Htime. rewrite Hexp, Htime. simpl.
  rewrite N. fold found.
  destruct found as [[c|] sf]; simpl in *; [reflexivity|].
  now rewrite T3', T3.
Qed.




(* ------------------------------------------------------------------------- *)
(** ** C5: the order of the exits of the buying variant *)

Lemma tsl_trigger_ledger (s : Buying.state) dt c pnl :
  exists updates,
    Buying.current_trade_ledger (Buying.tsl_trigger s dt c pnl)
    = Buying.current_trade_ledger s ++ updates
    /\ Forall (fun r => Buying.l_Event r = Buying.TSL_UPDATE) updates.
Proof.
  unfold Buying.tsl_trigger.
  destruct (Buying.is_none (Buying.sl_mode s) && Qle_bool Buying.TSL_TRIGGER pnl).
  - eexists. split; [reflexivity|]. now repeat constructor.
  - exists []. split; [now rewrite app_nil_r|constructor].
Qed.

Lemma tsl_step_ledger (s : Buying.state) dt c pnl :
  exists updates,
    Buying.current_trade_ledger (Buying.tsl_step s dt c pnl)
    = Buying.current_trade_ledger s ++ updates
    /\ Forall (fun r => Buying.l_Event r = Buying.TSL_UPDATE) updates.
Proof.
  unfold Buying.tsl_step.
  destruct (Buying.is_none (Buying.sl_mode s));
    [exists []; split; [now rewrite app_nil_r|constructor]|].
  destruct (Qlt_bool (Buying.max_pnl_reached s) pnl); simpl;
    match goal with
    | |- context [Qle_bool Buying.TSL_STEP ?e] => destruct (Qle_bool Buying.TSL_STEP e)
    end;
    try (exists []; split; [now rewrite app_nil_r|constructor]);
    match goal with
    | |- context [Qlt_bool (Buying.current_sl_price s) ?n] =>
        destruct (Qlt_bool (Buying.current_sl_price s) n)
    end;
    try (exists []; split; [now rewrite app_nil_r|constructor]);
    (eexists; split; [reflexivity|now repeat constructor]).
Qed.

(** The two exits that follow the stop update: the stop first, at the stop
    price; the EMA reversal second, at the market price. *)
Lemma exits_spec (b : Buying.bar) (s : Buying.state) dt c :
  let stop_hit :=
    Buying.sl_mode s <> Buying.NONE /\ (c <= Buying.current_sl_price s)%Q in
  let reversal :=
    (Buying.pos_type s = Some CE /\ (Buying.ema5 b < Buying.ema20_low b)%Q)
    \/ (Buying.pos_type s = Some PE /\ (Buying.ema20_high b < Buying.ema5 b)%Q) in
  (stop_hit ->
   Buying.exits b s dt c
   = Buying.close_trade b s Buying.TSL_HIT dt (Buying.current_sl_price s))
  /\ (~ stop_hit -> reversal ->
      Buying.exits b s dt c = Buying.close_trade b s Buying.EMA_REVERSAL dt c)
  /\ (~ stop_hit -> ~ reversal -> Buying.exits b s dt c = s).
Proof.
  intros stop_hit reversal. unfold Buying.exits.
  assert (Hstop : negb (Buying.is_none (Buying.sl_mode s))
                  && Qle_bool c (Buying.current_sl_price s) = true <-> stop_hit).
  { unfold stop_hit. rewrite andb_true_iff, negb_true_iff, Qle_bool_iff.
    destruct (Buying.sl_mode s); simpl; intuition congruence. }
  destruct (negb (Buying.is_none (Buying.sl_mode s))
            && Qle_bool c (Buying.current_sl_price s)).
  - assert stop_hit by now apply Hstop. repeat split; tauto.
  - assert (~ stop_hit) by (intros H; apply Hstop in H; discriminate).
    split; [tauto|]. unfold reversal.
    destruct (Buying.pos_type s) as [[|]|].
    + destruct (Qlt_bool (Buying.ema5 b) (Buying.ema20_low b)) eqn:E.
      * apply Qlt_bool_iff in E. split; [reflexivity|].
        intros _ Hn. exfalso. apply Hn. left. now split.
      * split; [|reflexivity]. intros _ [[_ Hr]|[Hr _]]; [|discriminate].
        apply Qlt_bool_iff in Hr. congruence.
    + destruct (Qlt_bool (Buying.ema20_high b) (Buying.ema5 b)) eqn:E.
      * apply Qlt_bool_iff in E. split; [reflexivity|].
        intros _ Hn. exfalso. apply Hn. right. now split.
      * split; [|reflexivity]. intros _ [[Hr _]|[_ Hr]]; [discriminate|].
        apply Qlt_bool_iff in Hr. congruence.
    + split; [|reflexivity]. intros _ [[Hr _]|[Hr _]]; discriminate.
Qed.

(** C5 as the specification words it, every exit coming after the bar's
    HOLD record, fails on the forced expiry exit: the position bought at 100 is
    closed at 15:15 of expiry day at the resolved price and the bar adds the
    EXIT row only. *)
Lemma hold_before_every_exit_fails :
  ~ (forall fs s b,
        Buying.position_active s = true ->
        Buying.position_active (Buying.next fs s b) = false ->
        exists hold rest,
          Buying.current_trade_ledger (Buying.next fs s b)
          = Buying.current_trade_ledger s ++ hold :: rest
          /\ Buying.l_Event hold = Buying.HOLD).
Proof.
  intros H.
  destruct (H Demo.buy_folder Demo.buy_open Demo.expiry_bar eq_refl eq_refl)
    as (hold & rest & E & Hh).
  vm_compute in E. injection E as E _. subst hold. discriminate Hh.
Qed.

(** C5, amended.  Buying variant, on a bar that finds a position open.
    (1) The forced expiry exit is decided first, before the price is known
    to be available and with no HOLD record: the bar adds the EXIT row alone.
    Otherwise, (2) without a price the bar is skipped, and (3) with a price
    the HOLD record is appended, then the stop is updated (TSL_UPDATE rows
    only), then the stop-loss hit closes at the stop price, and only if it
    does not fire the EMA reversal closes at the market price; if neither
    fires the position stays open.  (4) A bar adds at most one exit. *)
Theorem exit_priority (fs : folder) (s : Buying.state) (b : Buying.bar) :
  Buying.position_active s = true ->
  let dt := Buying.bar_dt b in
  let s0 := Buying.new_day_reset s (dt_date dt) in
  let found := Buying.get_option_price fs s0 (Buying.active_scrip s) (timestamp_of dt) in
  let forced := Buying.is_expiry_today b = true /\ time_of 15 15 <= dt_time dt in
  let s1 := Buying.next fs s b in
  (forced ->
   s1 = Buying.close_trade b (snd found) Buying.EXPIRY_FORCE dt
          (match fst found with
           | Some c => c
           | None => Buying.entry_price s
           end)
   /\ exists row,
        Buying.current_trade_ledger s1 = Buying.current_trade_ledger s ++ [row]
        /\ Buying.l_Event row = Buying.EXIT)
  /\ (~ forced -> fst found = None -> s1 = snd found)
  /\ (forall c,
         ~ forced -> fst found = Some c ->
         let pnl := ((c - Buying.entry_price s) * 120)%Q in
         let held :=
           Buying.log_trade_step (snd found) dt Buying.HOLD c pnl
             (Buying.current_sl_price s) "Monitoring" in
         let s4 := Buying.tsl_step (Buying.tsl_trigger held dt c pnl) dt c pnl in
         let stop_hit :=
           Buying.sl_mode s4 <> Buying.NONE /\ (c <= Buying.current_sl_price s4)%Q in
         let reversal :=
           (Buying.pos_type s = Some CE /\ (Buying.ema5 b < Buying.ema20_low b)%Q)
           \/ (Buying.pos_type s = Some PE /\ (Buying.ema20_high b < Buying.ema5 b)%Q) in
         (exists hold updates,
             Buying.current_trade_ledger s4
             = Buying.current_trade_ledger s ++ hold :: updates
             /\ Buying.l_Event hold = Buying.HOLD
             /\ Buying.l_Price hold = round2 c
             /\ Buying.l_PnL_INR hold = round2 pnl
             /\ Forall (fun r => Buying.l_Event r = Buying.TSL_UPDATE) updates)
         /\ (stop_hit ->
             s1 = Buying.close_trade b s4 Buying.TSL_HIT dt (Buying.current_sl_price s4))
         /\ (~ stop_hit -> reversal ->
             s1 = Buying.close_trade b s4 Buying.EMA_REVERSAL dt c)
         /\ (~ stop_hit -> ~ reversal -> s1 = s4))
  /\ (List.length (Buying.summary_log s1)
      <= List.length (Buying.summary_log s) + 1)%nat.
Proof.
  intros Hact dt s0 found forced s1. subst dt.
  destruct (new_day_reset_frame s (dt_date (Buying.bar_dt b))) as (T & S & B & N & L).
  fold s0 in T, S, B, N, L.
  unfold buying_trade in T. unfold buying_stop in S. unfold buying_books in B.
  injection T as T1 T2 T3 T4. injection S as S1 S2 S3. injection B as B1 B2 B3.
  destruct (buying_lookup_position fs s0 (Buying.active_scrip s)
              (timestamp_of (Buying.bar_dt b))) as (T' & S' & B' & _ & L').
  fold found in T', S', B', L'.
  unfold buying_trade in T'. unfold buying_stop in S'. unfold buying_books in B'.
  injection T' as _ T2' T3' _. injection S' as _ S2' _. injection B' as _ B2' _.
  assert (Hnext : s1 = Buying.manage_position fs b s0).
  { subst s1. unfold Buying.next. fold s0. now rewrite T1, Hact. }
  assert (Hforced : Buying.is_expiry_today b
                    && (time_of 15 15 <=? dt_time (Buying.bar_dt b)) = true
                    <-> forced).
  { unfold forced. now rewrite andb_true_iff, Z.leb_le. }
  split; [|split; [|split]].
  - intros Hf.
    pose proof (expiry_exit_state fs s b Hact (proj1 Hf) (proj2 Hf)) as E.
    cbv zeta in E. fold s0 found s1 in E.
    split; [exact E|]. rewrite E. eexists.
    split; [simpl; rewrite L', L; reflexivity|reflexivity].
  - intros Hnf Hnone. rewrite Hnext. unfold Buying.manage_position.
    destruct (Buying.is_expiry_today b
              && (time_of 15 15 <=? dt_time (Buying.bar_dt b)));
      [exfalso; now apply Hnf, Hforced|].
    rewrite N. fold found. destruct found as [p sf]. simpl in Hnone.
    now rewrite Hnone.
  - intros c Hnf Hsome pnl held s4 stop_hit reversal.
    assert (Hman : s1 = Buying.exits b s4 (Buying.bar_dt b) c).
    { rewrite Hnext. unfold Buying.manage_position.
      destruct (Buying.is_expiry_today b
                && (time_of 15 15 <=? dt_time (Buying.bar_dt b)));
        [exfalso; now apply Hnf, Hforced|].
      rewrite N. subst s4 held pnl. fold found.
      destruct found as [p sf]. simpl in *. rewrite Hsome.
      now rewrite T3', T3, S2', S2. }
    assert (P4 : Buying.pos_type s4 = Buying.pos_type s).
    { destruct (tsl_step_same_trade (Buying.tsl_trigger held (Buying.bar_dt b) c pnl)
                  (Buying.bar_dt b) c pnl) as (A & _).
      destruct (tsl_trigger_same_trade held (Buying.bar_dt b) c pnl) as (A' & _).
      unfold buying_trade in A, A'. injection A as _ A _ _. injection A' as _ A' _ _.
      fold s4 in A. rewrite A, A'. simpl. now rewrite T2', T2. }
    split.
    + destruct (tsl_step_ledger (Buying.tsl_trigger held (Buying.bar_dt b) c pnl)
                  (Buying.bar_dt b) c pnl) as (u2 & E2 & F2).
      destruct (tsl_trigger_ledger held (Buying.bar_dt b) c pnl) as (u1 & E1 & F1).
      fold s4 in E2. rewrite E1 in E2. simpl in E2. rewrite L', L in E2.
      rewrite <- !app_assoc in E2. simpl in E2.
      eexists. exists (u1 ++ u2). split; [exact E2|].
      repeat split. now apply Forall_app.
    + rewrite Hman.
      pose proof (exits_spec b s4 (Buying.bar_dt b) c) as Hx.
      simpl in Hx. rewrite P4 in Hx. exact Hx.
  - rewrite Hnext.
    destruct (manage_position_cases fs b s0)
      as [(_ & _ & C & _)|(sx & r & price & -> & (_ & _ & C & _))];
      unfold buying_books in C; injection C as _ C _.
    + rewrite C, B2. lia.
    + simpl. rewrite length_app, C, B2. simpl. lia.
Qed.

Lemma exit_priority_witness :
  let s1 := Buying.next Demo.buy_folder Demo.buy_open Demo.expiry_bar in
  (exists row,
      Buying.current_trade_ledger s1
      = Buying.current_trade_ledger Demo.buy_open ++ [row]
      /\ Buying.l_Event row = Buying.EXIT)
  /\ (List.length (Buying.summary_log s1)
      <= List.length (Buying.summary_log Demo.buy_open) + 1)%nat.
Proof.
  destruct (exit_priority Demo.buy_folder Demo.buy_open Demo.expiry_bar eq_refl)
    as (H1 & _ & _ & H4).
  split; [|exact H4].
  apply H1. split; [reflexivity|]. vm_compute. discriminate.
Defined.

(** The rally of the sample data: the stop is armed at 09:30, stepped up at
    09:35 and hit at 09:45, where the trade is closed at the stop price
    (104.17 after rounding) although the market is at 104. *)
Example stop_hit_closes_at_stop_price :
  map (fun r => (Buying.ExitReason r, Qred (Buying.SellPrice r), Qred (Buying.PnL r)))
    (Buying.summary_log (Buying.run Buying.init (Demo.buy_steps [25; 30; 35; 40; 45])))
  = [(Buying.TSL_HIT, 104.17%Q, 500%Q)].
Proof. vm_compute. reflexivity. Qed.

(* ------------------------------------------------------------------------- *)
(** ** C6: the rollover window of the selling variant *)




(** Five days before expiry is outside the window: the put is sold. *)
Example entry_five_days_before_expiry :
  option_map Selling.position_active
    (Selling.next Demo.sell_folder Selling.init
       (Demo.sell_bar (Demo.at_ Demo.day1 14 5) 6))
  = Some true.
Proof. reflexivity. Qed.

(* ------------------------------------------------------------------------- *)
(** ** C7: the day rollover *)

Lemma date_eqb_eq (a b : date) : date_eqb a b = true <-> a = b.
Proof.
  destruct a as [y m d], b as [y' m' d']. unfold date_eqb. simpl.
  rewrite !andb_true_iff, !Z.eqb_eq. split.
  - intros [[-> ->] ->]. reflexivity.
  - intros [= -> -> ->]. now repeat split.
Qed.

Lemma opt_date_eqb_eq (a : option date) (b : date) :
  opt_date_eqb a b = true <-> a = Some b.
Proof.
  destruct a as [d|]; simpl; [|split; discriminate].
  rewrite date_eqb_eq. split; [now intros ->|now intros [= ->]].
Qed.

(** C7 as the specification words it fails for the selling variant, which
    keeps no date and no daily counter: the frame cached on 1 January is still used
    on 2 January.  With the folder empty on the second day the bar resolves
    a row from the cache and records a HOLD, where a strategy with its cache
    dropped would have skipped the bar. *)
Lemma selling_cache_dropped_on_new_day_fails :
  ~ (forall fs1 b1 fs2 b2 s s1,
        Selling.next fs1 s b1 = Some s1 ->
        dt_date (Selling.local_time b1) <> dt_date (Selling.local_time b2) ->
        Selling.next fs2 s1 b2 = Selling.next fs2 (Selling.set_df s1 None) b2).
Proof.
  intros H.
  specialize (H Demo.sell_folder (Demo.sell_bar (Demo.at_ Demo.day1 14 10) 25)
                Demo.no_files (Demo.sell_bar (Demo.at_ Demo.day2 9 15) 25)
                Demo.sell_open_state Demo.sell_held_state).
  assert (E : option_map (fun s => List.length (Selling.current_trade_ledger s))
                (Selling.next Demo.no_files Demo.sell_held_state
                   (Demo.sell_bar (Demo.at_ Demo.day2 9 15) 25))
              = option_map (fun s => List.length (Selling.current_trade_ledger s))
                  (Selling.next Demo.no_files
                     (Selling.set_df Demo.sell_held_state None)
                     (Demo.sell_bar (Demo.at_ Demo.day2 9 15) 25))).
  { f_equal. apply H; [vm_compute; reflexivity|]. vm_compute. discriminate. }
  vm_compute in E. discriminate E.
Qed.

(** C7, amended.  Buying variant: on a bar whose date differs from the date
    the strategy holds, the date is replaced, the daily trade counter is set
    to zero and the cached series is dropped, so that the next lookup reads
    the folder even for the scrip that was cached; trade, stop, ledger and
    books are as before, and the bar is then processed from that state.  On
    a bar of the same date nothing is reset.  Selling variant: there is no
    date and no daily counter, and while a position is open its cached
    series answers every lookup of its scrip, whatever the date and the
    folder. *)
Theorem day_rollover :
  (forall fs s b,
      let today := dt_date (Buying.bar_dt b) in
      let s0 := Buying.new_day_reset s today in
      Buying.next fs s b
      = (if Buying.position_active s then Buying.manage_position fs b s0
         else Buying.entry_logic fs b s0)
      /\ (Buying.current_date s = Some today -> s0 = s)
      /\ (Buying.current_date s <> Some today ->
          Buying.current_date s0 = Some today
          /\ Buying.trades_today s0 = 0
          /\ Buying.active_option_df s0 = None
          /\ buying_trade s0 = buying_trade s
          /\ Buying.active_scrip s0 = Buying.active_scrip s
          /\ buying_stop s0 = buying_stop s
          /\ Buying.current_trade_ledger s0 = Buying.current_trade_ledger s
          /\ buying_books s0 = buying_books s
          /\ forall scrip ts,
               Buying.get_option_price fs s0 scrip ts
               = match fs scrip with
                 | None => (None, s0)
                 | Some raw =>
                     let df := sorted_on_load s_ts raw in
                     (Buying.asof_close df ts, Buying.set_cache s0 (Some df) scrip)
                 end))
  /\ (forall fs s df dt,
         Selling.position_active s = true ->
         Selling.active_option_df s = Some df ->
         Selling.get_option_indicators fs s (Selling.active_scrip s) dt
         = (Selling.asof_row df (timestamp_of dt), s)).
Proof.
  split.
  - intros fs s b today s0. split; [|split].
    + unfold Buying.next. fold today s0.
      destruct (new_day_reset_frame s today) as (T & _).
      fold s0 in T. unfold buying_trade in T. injection T as T1 _ _ _.
      now rewrite T1.
    + intros Hsame. subst s0. unfold Buying.new_day_reset.
      apply opt_date_eqb_eq in Hsame. now rewrite Hsame.
    + intros Hnew.
      assert (E : opt_date_eqb (Buying.current_date s) today = false).
      { destruct (opt_date_eqb (Buying.current_date s) today) eqn:E; [|reflexivity].
        apply opt_date_eqb_eq in E. contradiction. }
      subst s0. unfold Buying.new_day_reset. rewrite E.
      repeat split.
  - intros fs s df dt Hact Hdf. unfold Selling.get_option_indicators.
    now rewrite Hact, String.eqb_refl, Hdf.
Qed.

Lemma day_rollover_witness :
  let s0 := Buying.new_day_reset Demo.buy_open Demo.day2 in
  (Buying.current_date s0 = Some Demo.day2
   /\ Buying.trades_today s0 = 0
   /\ Buying.active_option_df s0 = None
   /\ buying_trade s0 = buying_trade Demo.buy_open)
  /\ fst (Selling.get_option_indicators Demo.no_files Demo.sell_held_state
            (Selling.active_scrip Demo.sell_held_state) (Demo.at_ Demo.day2 9 15))
     = match Selling.active_option_df Demo.sell_held_state with
       | Some df => Selling.asof_row df (timestamp_of (Demo.at_ Demo.day2 9 15))
       | None => None
       end.
Proof.
  destruct day_rollover as [HB HS]. split.
  - destruct (HB Demo.buy_folder Demo.buy_open (Demo.quiet Demo.day2 9 15))
      as (_ & _ & H).
    destruct H as (H1 & H2 & H3 & H4 & _); [vm_compute; discriminate|].
    repeat split; assumption.
  - destruct (Selling.active_option_df Demo.sell_held_state) as [df|] eqn:E;
      [|vm_compute in E; discriminate E].
    now rewrite (HS Demo.no_files Demo.sell_held_state df
                   (Demo.at_ Demo.day2 9 15) eq_refl E).
Defined.

(* ------------------------------------------------------------------------- *)
(** ** C8: the moving averages *)

Lemma ewm_from_nth (alpha : Q) (xs : list Q) :
  forall (prev : Q) (i : nat),
    (i < List.length xs)%nat ->
    nth i (Selling.ewm_from alpha prev xs) 0%Q
    = ((1 - alpha) * nth i (prev :: Selling.ewm_from alpha prev xs) 0
       + alpha * nth i xs 0)%Q.
Proof.
  induction xs as [|x xs IH]; intros prev i Hi; simpl in Hi; [lia|].
  destruct i as [|i]; [reflexivity|].
  simpl. rewrite (IH _ i); [reflexivity|lia].
Qed.

Lemma smooth_length (alpha prev : Q) (xs : list Q) :
  List.length (Buying.smooth alpha prev xs) = List.length xs.
Proof.
  revert prev; induction xs as [|x xs IH]; intros prev; simpl; [reflexivity|].
  now rewrite IH.
Qed.

Lemma smooth_nth (alpha : Q) (xs : list Q) :
  forall (prev : Q) (i : nat),
    (i < List.length xs)%nat ->
    exists p,
      nth i (Some prev :: Buying.smooth alpha prev xs) None = Some p
      /\ nth i (Buying.smooth alpha prev xs) None
         = Some (p * (1 - alpha) + nth i xs 0 * alpha)%Q.
Proof.
  induction xs as [|x xs IH]; intros prev i Hi; simpl in Hi; [lia|].
  destruct i as [|i]; [exists prev; now split|].
  destruct (IH (prev * (1 - alpha) + x * alpha)%Q i) as (p & Hp & Hn); [lia|].
  exists p. split; [exact Hp|exact Hn].
Qed.

Lemma add_columns_columns (df : list sample) (c h l : list Q) :
  List.length c = List.length df -> List.length h = List.length df ->
  List.length l = List.length df ->
  map Selling.EMA19_Close (Selling.add_columns df c h l) = c
  /\ map Selling.EMA50_High (Selling.add_columns df c h l) = h
  /\ map Selling.EMA50_Low (Selling.add_columns df c h l) = l.
Proof.
  revert c h l; induction df as [|r df IH]; intros c h l Hc Hh Hl.
  - destruct c, h, l; try discriminate. now repeat split.
  - destruct c as [|c0 c]; [discriminate|].
    destruct h as [|h0 h]; [discriminate|].
    destruct l as [|l0 l]; [discriminate|].
    simpl in *. destruct (IH c h l) as (A & B & C); try lia.
    now rewrite A, B, C.
Qed.

(** The indicator columns of a loaded frame are the moving averages of its
    close, high and low columns over the whole frame. *)
Lemma with_indicators_columns (df : list sample) :
  map Selling.EMA19_Close (Selling.with_indicators df)
  = Selling.ewm_mean 19 (map s_close df)
  /\ map Selling.EMA50_High (Selling.with_indicators df)
     = Selling.ewm_mean 50 (map s_high df)
  /\ map Selling.EMA50_Low (Selling.with_indicators df)
     = Selling.ewm_mean 50 (map s_low df).
Proof.
  unfold Selling.with_indicators.
  apply add_columns_columns; rewrite ewm_mean_length; apply length_map.
Qed.

(** C8 as the specification words it fails for the spot averages of the
    buying variant: backtrader's EMA of period 5 has no value on the first bar. *)
Lemma buying_ema_starts_at_first_price_fails :
  ~ (forall (period : nat) (x : Q) (rest : list Q),
        (0 < period)%nat ->
        nth 0 (Buying.EMA period (x :: rest)) None = Some x).
Proof.
  intros H.
  assert (E := H 5%nat 10%Q [12; 14; 16; 18]%Q ltac:(lia)).
  vm_compute in E. discriminate E.
Qed.

(** C8, amended.  Selling variant: each indicator column of a loaded frame
    is computed over the whole price column when the frame is loaded, starts
    at the first price and continues with
    ema[i] = alpha * price[i] + (1 - alpha) * ema[i-1], alpha = 2/(span+1);
    for the prices 10, 12, 14 and span 19 the values are 10, 10.2, 10.58.
    Buying variant: the spot averages follow the same recurrence with
    alpha = 2/(1+period) from bar [period] on, have no value before bar
    [period - 1], and start there from the arithmetic mean of the first
    [period] prices. *)
Theorem ema_recurrence :
  (forall (span x : Q) (xs : list Q),
      let alpha := (2 / (span + 1))%Q in
      let ema := Selling.ewm_mean span (x :: xs) in
      List.length ema = List.length (x :: xs)
      /\ nth 0 ema 0%Q = x
      /\ forall i, (i < List.length xs)%nat ->
           (nth (S i) ema 0 == alpha * nth (S i) (x :: xs) 0
                               + (1 - alpha) * nth i ema 0)%Q)
  /\ Forall2 Qeq (Selling.ewm_mean 19 [10; 12; 14]%Q) [10; 10.2; 10.58]%Q
  /\ (forall df,
         map Selling.EMA19_Close (Selling.with_indicators df)
         = Selling.ewm_mean 19 (map s_close df)
         /\ map Selling.EMA50_High (Selling.with_indicators df)
            = Selling.ewm_mean 50 (map s_high df)
         /\ map Selling.EMA50_Low (Selling.with_indicators df)
            = Selling.ewm_mean 50 (map s_low df))
  /\ (forall (period : nat) (xs : list Q),
         (0 < period <= List.length xs)%nat ->
         let alpha := (2 / (1 + inject_Z (Z.of_nat period)))%Q in
         let ema := Buying.EMA period xs in
         List.length ema = List.length xs
         /\ (forall i, (i < period - 1)%nat -> nth i ema None = None)
         /\ nth (period - 1) ema None
            = Some (Buying.Qsum (firstn period xs) / inject_Z (Z.of_nat period))%Q
         /\ forall i, (period <= i < List.length xs)%nat ->
              exists prev,
                nth (i - 1) ema None = Some prev
                /\ nth i ema None
                   = Some (prev * (1 - alpha) + nth i xs 0 * alpha)%Q).
Proof.
  split; [|split; [|split]].
  - intros span x xs alpha ema. subst ema. split; [apply ewm_mean_length|].
    split; [reflexivity|]. intros i Hi.
    change (Selling.ewm_mean span (x :: xs))
      with (x :: Selling.ewm_from alpha x xs).
    change (nth (S i) (x :: Selling.ewm_from alpha x xs) 0%Q)
      with (nth i (Selling.ewm_from alpha x xs) 0%Q).
    rewrite (ewm_from_nth alpha xs x i Hi). simpl. ring.
  - repeat constructor.
  - apply with_indicators_columns.
  - intros period xs [Hpos Hlen] alpha ema. subst ema.
    destruct period as [|k]; [lia|].
    unfold Buying.EMA.
    destruct (List.length xs <? S k)%nat eqn:E;
      [apply Nat.ltb_lt in E; lia|clear E].
    fold alpha.
    set (seed := (Buying.Qsum (firstn (S k) xs) / inject_Z (Z.of_nat (S k)))%Q).
    set (tl := Buying.smooth alpha seed (skipn (S k) xs)).
    assert (Htl : List.length tl = (List.length xs - S k)%nat)
      by (subst tl; now rewrite smooth_length, length_skipn).
    replace (S k - 1)%nat with k by lia.
    split; [rewrite length_app, repeat_length; simpl; lia|].
    split.
    { intros i Hi. rewrite app_nth1 by (rewrite repeat_length; lia).
      apply nth_repeat_lt; lia. }
    split.
    { rewrite app_nth2 by (rewrite repeat_length; lia).
      rewrite repeat_length, Nat.sub_diag. reflexivity. }
    intros i [Hi1 Hi2].
    rewrite !app_nth2 by (rewrite repeat_length; lia).
    rewrite !repeat_length.
    destruct (smooth_nth alpha (skipn (S k) xs) seed (i - S k)) as (p & Hp & Hn);
      [rewrite length_skipn; lia|].
    fold tl in Hp, Hn. exists p.
    replace (i - 1 - k)%nat with (i - S k)%nat by lia.
    replace (i - k)%nat with (S (i - S k)) by lia.
    split; [exact Hp|]. simpl. rewrite Hn. do 3 f_equal.
    rewrite nth_skipn. f_equal. lia.
Qed.

Lemma ema_recurrence_witness :
  let ema := Selling.ewm_mean 19 [10; 12; 14]%Q in
  (nth 1 ema 0 == (2 / (19 + 1)) * 12 + (1 - 2 / (19 + 1)) * nth 0 ema 0)%Q
  /\ nth 4 (Buying.EMA 5 [10; 12; 14; 16; 18; 20]%Q) None
     = Some (Buying.Qsum [10; 12; 14; 16; 18] / inject_Z (Z.of_nat 5))%Q.
Proof.
  destruct ema_recurrence as (HS & _ & _ & HB). split.
  - destruct (HS 19%Q 10%Q [12; 14]%Q) as (_ & _ & H).
    apply (H 0%nat). simpl. lia.
  - destruct (HB 5%nat [10; 12; 14; 16; 18; 20]%Q) as (_ & _ & H & _).
    + simpl. lia.
    + exact H.
Defined.

(* ------------------------------------------------------------------------- *)
(** ** The rows of the summary *)

Lemma buying_next_summary (fs : folder) (s : Buying.state) (b : Buying.bar) :
  Buying.summary_log (Buying.next fs s b) = Buying.summary_log s
  \/ exists row,
       Buying.summary_log (Buying.next fs s b) = Buying.summary_log s ++ [row]
       /\ long_row row.
Proof.
  unfold Buying.next.
  destruct (new_day_reset_frame s (dt_date (Buying.bar_dt b))) as (_ & _ & B & _).
  set (s0 := Buying.new_day_reset s (dt_date (Buying.bar_dt b))) in *.
  unfold buying_books in B. injection B as _ B _.
  destruct (Buying.position_active s0).
  - destruct (manage_position_cases fs b s0)
      as [(_ & _ & C & _)|(sx & r & price & -> & (_ & _ & C & _))];
      unfold buying_books in C; injection C as _ C _.
    + left. congruence.
    + right. eexists. split; [simpl; rewrite C, B; reflexivity|].
      exists (Buying.entry_price sx), price. now repeat split.
  - destruct (entry_logic_cases fs b s0)
      as [(_ & _ & C & _)|(sx & t & scrip & p & -> & _ & C & _)];
      unfold buying_books in C; injection C as _ C _; left; simpl; congruence.
Qed.

Lemma buying_run_summary (steps : list (folder * Buying.bar)) (s : Buying.state) :
  Forall long_row (Buying.summary_log s) ->
  Forall long_row (Buying.summary_log (Buying.run s steps)).
Proof.
  revert s; induction steps as [|[fs b] steps IH]; intros s H; [exact H|].
  simpl. apply IH.
  destruct (buying_next_summary fs s b) as [->|(row & -> & Hrow)]; [exact H|].
  apply Forall_app. split; [exact H|now constructor].
Qed.

Lemma selling_next_summary (fs : folder) (s s1 : Selling.state) (b : Selling.bar) :
  Selling.next fs s b = Some s1 ->
  Selling.summary_log s1 = Selling.summary_log s
  \/ exists row,
       Selling.summary_log s1 = Selling.summary_log s ++ [row] /\ short_row row.
Proof.
  unfold Selling.next.
  destruct (date_ctor _ _ _) as [expiry|]; [|discriminate].
  set (ro := Selling.is_rollover_period _ _). intros [= <-].
  destruct (Selling.position_active s).
  - destruct (selling_manage_cases fs b s ro)
      as [(_ & C)|(sx & r & price & -> & (_ & C))];
      unfold selling_books in C; injection C as _ C _.
    + left. congruence.
    + right. eexists. split; [simpl; rewrite C; reflexivity|].
      exists (Selling.entry_price sx), price. now repeat split.
  - destruct (selling_entry_cases fs b s ro)
      as [((_ & C) & _)|(sx & t & scrip & price & -> & C)];
      unfold selling_books in C; injection C as _ C _; left; simpl; congruence.
Qed.

Lemma selling_run_summary (steps : list (folder * Selling.bar)) (s s1 : Selling.state) :
  Selling.run s steps = Some s1 ->
  Forall short_row (Selling.summary_log s) ->
  Forall short_row (Selling.summary_log s1).
Proof.
  revert s; induction steps as [|[fs b] steps IH]; intros s Hrun H.
  - simpl in Hrun. now injection Hrun as <-.
  - simpl in Hrun. destruct (Selling.next fs s b) as [s2|] eqn:E; [|discriminate].
    apply (IH s2 Hrun).
    destruct (selling_next_summary fs s s2 b E) as [->|(row & -> & Hrow)];
      [exact H|].
    apply Forall_app. split; [exact H|now constructor].
Qed.

(** The trigger is compared with the unrounded profit: bought at 100.004
    and quoted at 125, the profit is 2999.52 and the stop stays unarmed,
    although the recorded entry price, 100.00, would give 3000. *)
Example trigger_uses_unrounded_profit :
  let s := Buying.open_position Demo.buy_entry_bar Buying.init CE "MID_CE"
             (Demo.at_ Demo.day1 9 20) 100.004 in
  let pnl := ((125 - Buying.entry_price s) * Buying.qty)%Q in
  Buying.sl_mode (Buying.tsl_trigger s (Demo.at_ Demo.day1 9 25) 125 pnl) = Buying.NONE
  /\ (round2 (Buying.entry_price s) == 100)%Q
  /\ (3000 <= (125 - round2 (Buying.entry_price s)) * Buying.qty)%Q.
Proof. vm_compute. repeat split; discriminate. Qed.

(* ------------------------------------------------------------------------- *)
(** ** C10: a resolved price of zero opens nothing *)

Lemma truthy_false (x : Q) : truthy x = false <-> (x == 0)%Q.
Proof. unfold truthy. rewrite negb_false_iff. apply Qeq_bool_iff. Qed.

(** C10.  Buying variant.  When the price resolved for an entry signal is
    zero, [entry_setup] does what it does when no price resolves: it returns
    the strategy as the lookup left it, so the position flag, both trade
    counters, the ledger, the summary and the written files are unchanged.
    A resolved price other than zero opens the position at that price. *)
Theorem zero_price_opens_nothing (fs : folder) (b : Buying.bar) (s : Buying.state)
    (t : side) (dt : datetime) :
  let scrip :=
    match t with
    | CE => Buying.icici_scrip_code_ce b
    | PE => Buying.icici_scrip_code_pe b
    end in
  let found := Buying.get_option_price fs s scrip (timestamp_of (Buying.bar_dt b)) in
  let s1 := Buying.entry_setup fs b s t dt in
  (fst found = None \/ (exists c, fst found = Some c /\ (c == 0)%Q) ->
   s1 = snd found
   /\ Buying.position_active s1 = Buying.position_active s
   /\ Buying.total_trades_count s1 = Buying.total_trades_count s
   /\ Buying.trades_today s1 = Buying.trades_today s
   /\ Buying.current_trade_ledger s1 = Buying.current_trade_ledger s
   /\ Buying.summary_log s1 = Buying.summary_log s
   /\ Buying.trade_files s1 = Buying.trade_files s)
  /\ (forall c, fst found = Some c -> ~ (c == 0)%Q ->
      Buying.position_active s1 = true
      /\ Buying.entry_price s1 = c
      /\ Buying.total_trades_count s1 = Buying.total_trades_count s + 1
      /\ Buying.trades_today s1 = Buying.trades_today s + 1).
Proof.
  intros scrip found s1.
  destruct (buying_lookup_position fs s scrip (timestamp_of (Buying.bar_dt b)))
    as (T & _ & B & D & L).
  fold found in T, B, D, L.
  unfold buying_trade in T. unfold buying_books in B. unfold buying_day in D.
  injection T as T1 _ _ _. injection B as B1 B2 B3. injection D as _ D.
  subst s1. unfold Buying.entry_setup. fold scrip found.
  destruct found as [p sf]. simpl in *. split.
  - intros [->|(c & -> & Hc)].
    + now repeat split.
    + apply truthy_false in Hc. rewrite Hc. now repeat split.
  - intros c -> Hc.
    destruct (truthy c) eqn:E; [|apply truthy_false in E; contradiction].
    simpl. rewrite B1, D. now repeat split.
Qed.

Lemma zero_price_opens_nothing_witness :
  let s1 := Buying.entry_setup Demo.zero_folder Demo.buy_entry_bar Buying.init CE
              (Demo.at_ Demo.day1 9 20) in
  fst (Buying.get_option_price Demo.zero_folder Buying.init "MID_CE"
         (timestamp_of (Demo.at_ Demo.day1 9 20))) = Some 0%Q
  /\ Buying.position_active s1 = false
  /\ Buying.total_trades_count s1 = 0
  /\ Buying.trades_today s1 = 0
  /\ Buying.current_trade_ledger s1 = [].
Proof.
  split; [reflexivity|].
  destruct (zero_price_opens_nothing Demo.zero_folder Demo.buy_entry_bar
              Buying.init CE (Demo.at_ Demo.day1 9 20)) as [H _].
  destruct H as (_ & H1 & H2 & H3 & H4 & _).
  - right. exists 0%Q. split; reflexivity.
  - repeat split; assumption.
Defined.

(** The same bar through [next]: the call signal fires, the price resolves
    to zero and the strategy stays flat with no trade counted. *)
Example zero_price_bar_stays_flat :
  let s1 := Buying.next Demo.zero_folder Buying.init Demo.buy_entry_bar in
  Buying.position_active s1 = false
  /\ Buying.total_trades_count s1 = 0
  /\ Buying.trades_today s1 = 0
  /\ Buying.current_trade_ledger s1 = [].
Proof. now repeat split. Qed.

(* ------------------------------------------------------------------------- *)
(** * Further properties of the two strategies *)

(** ** Every bar step of the buying variant is one of eight outcomes *)

Lemma buying_next_outcome (fs : folder) (s : Buying.state) (b : Buying.bar) :
  buying_outcome fs b (Buying.new_day_reset s (dt_date (Buying.bar_dt b)))
    (Buying.next fs s b).
Proof.
  unfold Buying.next.
  set (s0 := Buying.new_day_reset s (dt_date (Buying.bar_dt b))).
  destruct (Buying.position_active s0) eqn:Eact.
  - unfold Buying.manage_position. fold (buying_forced b).
    destruct (buying_forced b) eqn:Ef.
    + destruct (Buying.get_option_price fs s0 (Buying.active_scrip s0)
                  (timestamp_of (Buying.bar_dt b))) as [p sl] eqn:Eg.
      now apply (outcome_forced fs b s0 p sl).
    + destruct (Buying.get_option_price fs s0 (Buying.active_scrip s0)
                  (timestamp_of (Buying.bar_dt b))) as [[c|] sl] eqn:Eg.
      * fold (buying_held sl (Buying.bar_dt b) c).
        set (s4 := buying_held sl (Buying.bar_dt b) c).
        unfold Buying.exits. fold (buying_stop_hit s4 c).
        destruct (buying_stop_hit s4 c) eqn:Eh.
        -- now apply (outcome_stop_hit fs b s0 c sl).
        -- destruct (Buying.pos_type s4) as [[|]|].
           ++ destruct (Qlt_bool (Buying.ema5 b) (Buying.ema20_low b));
                [now apply (outcome_reversal fs b s0 c sl)
                |now apply (outcome_held fs b s0 c sl)].
           ++ destruct (Qlt_bool (Buying.ema20_high b) (Buying.ema5 b));
                [now apply (outcome_reversal fs b s0 c sl)
                |now apply (outcome_held fs b s0 c sl)].
           ++ now apply (outcome_held fs b s0 c sl).
      * now apply (outcome_skipped fs b s0 sl).
  - unfold Buying.entry_logic. fold (buying_in_window b).
    destruct (buying_in_window b) eqn:Ew; simpl;
      [|apply outcome_idle; auto].
    destruct (Buying.MAX_TRADES_DAY <=? Buying.trades_today s0) eqn:Ecap;
      [apply Z.leb_le in Ecap; apply outcome_idle; auto|].
    apply Z.leb_gt in Ecap.
    assert (Hsetup : forall t, buying_signal b = Some t ->
              buying_outcome fs b s0 (Buying.entry_setup fs b s0 t (Buying.bar_dt b))).
    { intros t Ht. unfold Buying.entry_setup. fold (buying_scrip b t).
      destruct (Buying.get_option_price fs s0 (buying_scrip b t)
                  (timestamp_of (Buying.bar_dt b))) as [[c|] sl] eqn:Eg.
      - destruct (truthy c) eqn:Ec.
        + now apply (outcome_opened fs b s0 t c sl).
        + now apply (outcome_no_price fs b s0 t (Some c) sl).
      - now apply (outcome_no_price fs b s0 t None sl). }
    unfold buying_signal in Hsetup.
    destruct (Qle_bool (Buying.ema5_prev b) (Buying.ema20_high_prev b)
              && Qlt_bool (Buying.ema20_high b) (Buying.ema5 b)) eqn:Ece;
      [now apply Hsetup|].
    destruct (Qle_bool (Buying.ema20_low_prev b) (Buying.ema5_prev b)
              && Qlt_bool (Buying.ema5 b) (Buying.ema20_low b)) eqn:Epe;
      [now apply Hsetup|].
    apply outcome_idle; auto. right. right. unfold buying_signal.
    now rewrite Ece, Epe.
Qed.

(** A property kept by the day reset and by every outcome holds along every
    replay. *)
Lemma buying_replay_invariant (P : Buying.state -> Prop) :
  P Buying.init ->
  (forall s today, P s -> P (Buying.new_day_reset s today)) ->
  (forall fs b s0 s1, P s0 -> buying_outcome fs b s0 s1 -> P s1) ->
  forall steps, P (Buying.run Buying.init steps).
Proof.
  intros Hinit Hreset Hstep steps.
  assert (H : forall s, P s -> P (Buying.run s steps)).
  { induction steps as [|[fs b] steps IH]; intros s Hs; [exact Hs|].
    simpl. apply IH.
    apply (Hstep fs b (Buying.new_day_reset s (dt_date (Buying.bar_dt b)))).
    - now apply Hreset.
    - apply buying_next_outcome. }
  now apply H.
Qed.

(** ** What the steps of a bar keep *)

Lemma buying_lookup_cache (fs : folder) (s sl : Buying.state) (scrip : string)
    (ts : Z) (p : option Q) :
  Buying.get_option_price fs s scrip ts = (p, sl) ->
  sl = s
  \/ exists raw,
       fs scrip = Some raw
       /\ sl = Buying.set_cache s (Some (sorted_on_load s_ts raw)) scrip.
Proof.
  unfold Buying.get_option_price.
  destruct (match Buying.active_option_df s with
            | Some _ => negb (Buying.active_scrip s =? scrip)%string
            | None => true
            end).
  - destruct (fs scrip) as [raw|]; intros [= _ <-]; [right; eauto|now left].
  - destruct (Buying.active_option_df s); intros [= _ <-]; now left.
Qed.

Lemma buying_lookup_keeps (fs : folder) (s sl : Buying.state) (scrip : string)
    (ts : Z) (p : option Q) :
  Buying.get_option_price fs s scrip ts = (p, sl) ->
  buying_trade sl = buying_trade s /\ buying_stop sl = buying_stop s
  /\ buying_books sl = buying_books s /\ buying_day sl = buying_day s
  /\ Buying.current_trade_ledger sl = Buying.current_trade_ledger s.
Proof.
  intros E. pose proof (buying_lookup_position fs s scrip ts) as H.
  now rewrite E in H.
Qed.

Lemma buying_lookup_keeps_scrip (fs : folder) (s sl : Buying.state) (ts : Z)
    (p : option Q) :
  Buying.get_option_price fs s (Buying.active_scrip s) ts = (p, sl) ->
  Buying.active_scrip sl = Buying.active_scrip s.
Proof.
  intros E. pose proof (buying_lookup_active_scrip fs s ts) as H.
  now rewrite E in H.
Qed.

Lemma buying_held_same_trade (s : Buying.state) (dt : datetime) (c : Q) :
  buying_same_trade s (buying_held s dt c).
Proof.
  unfold buying_held.
  eapply buying_same_trade_trans; [apply buying_log_same_trade|].
  eapply buying_same_trade_trans;
    [apply tsl_trigger_same_trade|apply tsl_step_same_trade].
Qed.

Lemma tsl_trigger_cache (s : Buying.state) dt c pnl :
  Buying.active_option_df (Buying.tsl_trigger s dt c pnl) = Buying.active_option_df s.
Proof. unfold Buying.tsl_trigger. split_ifs; reflexivity. Qed.

Lemma tsl_step_cache (s : Buying.state) dt c pnl :
  Buying.active_option_df (Buying.tsl_step s dt c pnl) = Buying.active_option_df s.
Proof. unfold Buying.tsl_step. split_ifs; reflexivity. Qed.

Lemma buying_held_cache (s : Buying.state) (dt : datetime) (c : Q) :
  Buying.active_option_df (buying_held s dt c) = Buying.active_option_df s.
Proof. unfold buying_held. now rewrite tsl_step_cache, tsl_trigger_cache. Qed.

(* ------------------------------------------------------------------------- *)
(** ** X1: the daily cap of the buying variant *)

Lemma buying_cap_invariant (steps : list (folder * Buying.bar)) :
  0 <= Buying.trades_today (Buying.run Buying.init steps) <= Buying.MAX_TRADES_DAY.
Proof.
  apply (buying_replay_invariant
           (fun s => 0 <= Buying.trades_today s <= Buying.MAX_TRADES_DAY)).
  - unfold Buying.MAX_TRADES_DAY. simpl. lia.
  - intros s today H. unfold Buying.new_day_reset.
    destruct (opt_date_eqb (Buying.current_date s) today); [exact H|].
    unfold Buying.MAX_TRADES_DAY. simpl. lia.
  - intros fs b s0 s1 H Hout.
    assert (Hlook : forall scrip p sl,
              Buying.get_option_price fs s0 scrip (timestamp_of (Buying.bar_dt b))
              = (p, sl) ->
              Buying.trades_today sl = Buying.trades_today s0).
    { intros scrip p sl E.
      destruct (buying_lookup_keeps _ _ _ _ _ _ E) as (_ & _ & _ & D & _).
      unfold buying_day in D. now injection D. }
    assert (Hheld : forall sl c,
              Buying.trades_today (buying_held sl (Buying.bar_dt b) c)
              = Buying.trades_today sl).
    { intros sl c.
      destruct (buying_held_same_trade sl (Buying.bar_dt b) c) as (_ & _ & _ & D).
      unfold buying_day in D. now injection D. }
    destruct Hout as [p sl _ _ E|sl _ _ E|c sl _ _ E _|c sl _ _ E _|c sl _ _ E _
                      | |t p sl _ _ _ _ E _|t c sl _ _ Hcap _ E _];
      simpl; rewrite ?Hheld, ?(Hlook _ _ _ E); try exact H.
    lia.
Qed.

(** What one bar does to the counter, given the counter [base] that the
    day reset leaves. *)
Lemma buying_counter_step (fs : folder) (b : Buying.bar) (s0 s1 : Buying.state) :
  buying_outcome fs b s0 s1 ->
  (Buying.position_active s0 = false /\ Buying.position_active s1 = true
   /\ Buying.trades_today s0 < Buying.MAX_TRADES_DAY
   /\ Buying.trades_today s1 = Buying.trades_today s0 + 1)
  \/ (~ (Buying.position_active s0 = false /\ Buying.position_active s1 = true)
      /\ Buying.trades_today s1 = Buying.trades_today s0).
Proof.
  intros Hout.
  assert (Hlook : forall scrip p sl,
            Buying.get_option_price fs s0 scrip (timestamp_of (Buying.bar_dt b))
            = (p, sl) ->
            Buying.trades_today sl = Buying.trades_today s0
            /\ Buying.position_active sl = Buying.position_active s0).
  { intros scrip p sl E.
    destruct (buying_lookup_keeps _ _ _ _ _ _ E) as (T & _ & _ & D & _).
    unfold buying_day in D. unfold buying_trade in T.
    injection D as _ D. injection T as T _ _ _. now split. }
  assert (Hheld : forall sl c,
            Buying.trades_today (buying_held sl (Buying.bar_dt b) c)
            = Buying.trades_today sl).
  { intros sl c.
    destruct (buying_held_same_trade sl (Buying.bar_dt b) c) as (_ & _ & _ & D).
    unfold buying_day in D. now injection D. }
  destruct Hout as [p sl Ha _ E|sl Ha _ E|c sl Ha _ E _|c sl Ha _ E _|c sl Ha _ E _
                    |Hf _|t p sl Hf _ _ _ E _|t c sl Hf _ Hcap _ E _];
    try destruct (Hlook _ _ _ E) as [Hd Hp].
  - right. split; [intros [H _]; congruence|]. simpl. exact Hd.
  - right. split; [intros [H _]; congruence|]. exact Hd.
  - right. split; [intros [H _]; congruence|]. now rewrite Hheld.
  - right. split; [intros [H _]; congruence|]. simpl. now rewrite Hheld.
  - right. split; [intros [H _]; congruence|]. simpl. now rewrite Hheld.
  - right. split; [intros [_ H]; congruence|]. reflexivity.
  - right. split; [intros [_ H]; congruence|]. exact Hd.
  - left. repeat split; auto. simpl. now rewrite Hd.
Qed.

(** X1.  Buying variant.  In every replay the counter of today's trades
    stays between 0 and MAX_TRADES_DAY = 2.  On every bar the day reset
    first leaves the counter as it is when the bar is dated on the
    strategy's current date and puts it to zero otherwise; then a bar that
    opens a position finds that counter below the cap and raises it by
    one, and every other bar leaves it at that counter. *)
Theorem daily_cap_never_exceeded :
  (forall steps,
      0 <= Buying.trades_today (Buying.run Buying.init steps)
      <= Buying.MAX_TRADES_DAY)
  /\ (forall fs s b,
         let today := dt_date (Buying.bar_dt b) in
         let base :=
           if opt_date_eqb (Buying.current_date s) today
           then Buying.trades_today s else 0 in
         let s1 := Buying.next fs s b in
         let opens :=
           Buying.position_active s = false /\ Buying.position_active s1 = true in
         Buying.trades_today (Buying.new_day_reset s today) = base
         /\ (opens ->
             base < Buying.MAX_TRADES_DAY /\ Buying.trades_today s1 = base + 1)
         /\ (~ opens -> Buying.trades_today s1 = base)).
Proof.
  split; [exact buying_cap_invariant|].
  intros fs s b today base s1 opens.
  assert (Hbase : Buying.trades_today (Buying.new_day_reset s today) = base).
  { subst base. unfold Buying.new_day_reset.
    destruct (opt_date_eqb (Buying.current_date s) today); reflexivity. }
  split; [exact Hbase|].
  destruct (new_day_reset_frame s today) as (T & _).
  unfold buying_trade in T. injection T as T _ _ _.
  pose proof (buying_counter_step fs b _ _ (buying_next_outcome fs s b)) as H.
  fold today s1 in H. rewrite Hbase, T in H.
  destruct H as [(Hf & Ha & Hcap & Hup)|(Hno & Hsame)].
  - split; [intros _; now split|]. intros Hn. exfalso. apply Hn. now split.
  - split; [intros Ho; contradiction|]. intros _. exact Hsame.
Qed.

Lemma daily_cap_never_exceeded_witness :
  Buying.trades_today (Buying.next Demo.buy_folder Buying.init Demo.buy_entry_bar) = 1
  /\ Buying.trades_today
       (Buying.next Demo.buy_folder Demo.buy_open (Demo.quiet Demo.day1 9 25)) = 1
  /\ Buying.trades_today
       (Buying.next Demo.buy_folder Demo.buy_open (Demo.quiet Demo.day2 9 15)) = 0.
Proof.
  destruct daily_cap_never_exceeded as [_ H]. split; [|split].
  - destruct (H Demo.buy_folder Buying.init Demo.buy_entry_bar) as (_ & Ho & _).
    apply Ho. split; reflexivity.
  - destruct (H Demo.buy_folder Demo.buy_open (Demo.quiet Demo.day1 9 25))
      as (_ & _ & Hn).
    apply Hn. intros [Hf _]. discriminate Hf.
  - destruct (H Demo.buy_folder Demo.buy_open (Demo.quiet Demo.day2 9 15))
      as (_ & _ & Hn).
    apply Hn. intros [Hf _]. discriminate Hf.
Defined.

(* ------------------------------------------------------------------------- *)
(** ** Every bar step of the selling variant is one of eight outcomes *)

(** While flat, a lookup of the selling variant caches nothing. *)
Lemma selling_flat_lookup (fs : folder) (s : Selling.state) (scrip : string)
    (dt : datetime) :
  Selling.position_active s = false ->
  snd (Selling.get_option_indicators fs s scrip dt) = s.
Proof.
  intros Hflat. unfold Selling.get_option_indicators. rewrite Hflat. simpl.
  destruct (fs scrip); reflexivity.
Qed.

Lemma selling_next_outcome (fs : folder) (s s1 : Selling.state) (b : Selling.bar) :
  Selling.next fs s b = Some s1 ->
  exists expiry,
    date_ctor (Selling.expiry_year b) (Selling.expiry_month b) (Selling.expiry_day b)
    = Some expiry
    /\ selling_outcome fs b
         (Selling.is_rollover_period expiry (dt_date (Selling.local_time b))) s s1.
Proof.
  unfold Selling.next.
  destruct (date_ctor _ _ _) as [expiry|]; [|discriminate].
  set (ro := Selling.is_rollover_period _ _). intros [= <-].
  exists expiry. split; [reflexivity|]. fold ro. clearbody ro.
  destruct (Selling.position_active s) eqn:Eact.
  - unfold Selling.manage_position.
    destruct (Selling.get_option_indicators fs s (Selling.active_scrip s)
                (Selling.local_time b)) as [[row|] sl] eqn:Eg;
      [|now apply (sold_skipped fs b ro s sl)].
    fold (selling_held sl (Selling.local_time b) row).
    fold (selling_reversal row). fold (selling_target row).
    destruct ro eqn:Ero; [now apply (sold_rollover fs b true s row sl)|].
    destruct (selling_reversal row) eqn:Er;
      [now apply (sold_reversal fs b false s row sl)|].
    destruct (selling_target row) eqn:Et;
      [now apply (sold_target fs b false s row sl)
      |now apply (sold_held fs b false s row sl)].
  - unfold Selling.entry_logic.
    destruct ro eqn:Ero; [apply sold_idle; auto|].
    fold (selling_in_window b).
    destruct (selling_in_window b) eqn:Ew; simpl; [|apply sold_idle; auto].
    pose proof (selling_flat_lookup fs s (Selling.icici_scrip_code_pe b)
                  (Selling.local_time b) Eact) as Hpe.
    unfold selling_leg in *.
    assert (Lpe : selling_leg fs s (Selling.icici_scrip_code_pe b)
                    (Selling.local_time b)
                  = Selling.entry_signal
                      (fst (Selling.get_option_indicators fs s
                              (Selling.icici_scrip_code_pe b) (Selling.local_time b))))
      by reflexivity.
    destruct (Selling.get_option_indicators fs s (Selling.icici_scrip_code_pe b)
                (Selling.local_time b)) as [row_pe spe].
    simpl in Hpe, Lpe. subst spe.
    destruct (Selling.entry_signal row_pe) as [r|] eqn:Epe.
    + now apply (sold_open_put fs b false s r).
    + pose proof (selling_flat_lookup fs s (Selling.icici_scrip_code_ce b)
                    (Selling.local_time b) Eact) as Hce.
      assert (Lce : selling_leg fs s (Selling.icici_scrip_code_ce b)
                      (Selling.local_time b)
                    = Selling.entry_signal
                        (fst (Selling.get_option_indicators fs s
                                (Selling.icici_scrip_code_ce b) (Selling.local_time b))))
        by reflexivity.
      destruct (Selling.get_option_indicators fs s (Selling.icici_scrip_code_ce b)
                  (Selling.local_time b)) as [row_ce sce].
      simpl in Hce, Lce. subst sce.
      destruct (Selling.entry_signal row_ce) as [r|] eqn:Ece.
      * now apply (sold_open_call fs b false s r).
      * apply sold_idle; auto.
Qed.

Lemma selling_replay_invariant (P : Selling.state -> Prop) :
  P Selling.init ->
  (forall fs b ro s s1, P s -> selling_outcome fs b ro s s1 -> P s1) ->
  forall steps s, Selling.run Selling.init steps = Some s -> P s.
Proof.
  intros Hinit Hstep steps.
  assert (H : forall s0 s, P s0 -> Selling.run s0 steps = Some s -> P s).
  { induction steps as [|[fs b] steps IH]; intros s0 s Hs Hrun; simpl in Hrun.
    - now injection Hrun as <-.
    - destruct (Selling.next fs s0 b) as [s1|] eqn:E; [|discriminate].
      apply (IH s1 s); [|exact Hrun].
      destruct (selling_next_outcome fs s0 s1 b E) as (expiry & _ & Hout).
      exact (Hstep _ _ _ _ _ Hs Hout). }
  intros s. now apply H.
Qed.

(* ------------------------------------------------------------------------- *)
(** ** X2: trade numbers *)

Lemma trade_ids_S (n : nat) : trade_ids (S n) = trade_ids n ++ [Z.of_nat (S n)].
Proof. unfold trade_ids. now rewrite seq_S, map_app. Qed.

Lemma buying_numbered_kept (s s1 : Buying.state) :
  buying_trade s1 = buying_trade s -> buying_books s1 = buying_books s ->
  buying_numbered s -> buying_numbered s1.
Proof.
  unfold buying_numbered, buying_open_positions, buying_trade, buying_books.
  intros [= T _ _ _] [= B1 B2 B3]. now rewrite T, B1, B2, B3.
Qed.

Lemma buying_numbered_close (b : Buying.bar) (s : Buying.state) r dt price :
  Buying.position_active s = true -> buying_numbered s ->
  buying_numbered (Buying.close_trade b s r dt price).
Proof.
  unfold buying_numbered, buying_open_positions. intros Hact (Hn & Hs & Hf).
  rewrite Hact in Hn. simpl in *. rewrite !map_app, !length_app, Hs, Hf, Hs.
  simpl. rewrite Nat.add_1_r, trade_ids_S.
  repeat split; try lia; do 2 f_equal; lia.
Qed.

Lemma buying_numbered_open (b : Buying.bar) (s : Buying.state) t scrip dt price :
  Buying.position_active s = false -> buying_numbered s ->
  buying_numbered (Buying.open_position b s t scrip dt price).
Proof.
  unfold buying_numbered, buying_open_positions. intros Hflat (Hn & Hs & Hf).
  rewrite Hflat in Hn. simpl in *. repeat split; auto. lia.
Qed.

Lemma buying_numbered_step (fs : folder) (b : Buying.bar) (s0 s1 : Buying.state) :
  buying_numbered s0 -> buying_outcome fs b s0 s1 -> buying_numbered s1.
Proof.
  intros H Hout.
  assert (Hlook : forall scrip p sl,
            Buying.get_option_price fs s0 scrip (timestamp_of (Buying.bar_dt b))
            = (p, sl) ->
            buying_numbered sl
            /\ Buying.position_active sl = Buying.position_active s0).
  { intros scrip p sl E.
    destruct (buying_lookup_keeps _ _ _ _ _ _ E) as (T & _ & B & _).
    split; [now apply (buying_numbered_kept s0)|].
    unfold buying_trade in T. now injection T. }
  assert (Hheld : forall sl c,
            buying_numbered sl ->
            buying_numbered (buying_held sl (Buying.bar_dt b) c)
            /\ Buying.position_active (buying_held sl (Buying.bar_dt b) c)
               = Buying.position_active sl).
  { intros sl c Hsl.
    destruct (buying_held_same_trade sl (Buying.bar_dt b) c) as (T & _ & B & _).
    split; [now apply (buying_numbered_kept sl)|].
    unfold buying_trade in T. now injection T. }
  destruct Hout as [p sl Ha _ E|sl _ _ E|c sl Ha _ E _|c sl Ha _ E _|c sl Ha _ E _
                    | |t p sl _ _ _ _ E _|t c sl Hf _ _ _ E _];
    try destruct (Hlook _ _ _ E) as [Hsl Hact]; auto.
  - apply buying_numbered_close; [congruence|assumption].
  - now apply Hheld.
  - destruct (Hheld sl c Hsl) as [Hh Hha].
    apply buying_numbered_close; [congruence|assumption].
  - destruct (Hheld sl c Hsl) as [Hh Hha].
    apply buying_numbered_close; [congruence|assumption].
  - apply buying_numbered_open; [congruence|assumption].
Qed.

Lemma selling_lookup_keeps (fs : folder) (s sl : Selling.state) (scrip : string)
    (dt : datetime) (row : option Selling.indicator_row) :
  Selling.get_option_indicators fs s scrip dt = (row, sl) ->
  selling_trade sl = selling_trade s /\ selling_books sl = selling_books s
  /\ Selling.current_trade_ledger sl = Selling.current_trade_ledger s.
Proof.
  intros E. pose proof (selling_lookup_same_trade fs s scrip dt) as H.
  rewrite E in H. simpl in H. destruct H as [[T B] L]. now repeat split.
Qed.

Lemma selling_numbered_kept (s s1 : Selling.state) :
  selling_trade s1 = selling_trade s -> selling_books s1 = selling_books s ->
  selling_numbered s -> selling_numbered s1.
Proof.
  unfold selling_numbered, selling_open_positions, selling_trade, selling_books.
  intros [= T _ _ _ _] [= B1 B2 B3]. now rewrite T, B1, B2, B3.
Qed.

Lemma selling_numbered_close (s : Selling.state) r dt price :
  Selling.position_active s = true -> selling_numbered s ->
  selling_numbered (Selling.close_trade s r dt price).
Proof.
  unfold selling_numbered, selling_open_positions. intros Hact (Hn & Hs & Hf).
  rewrite Hact in Hn. simpl in *. rewrite !map_app, !length_app, Hs, Hf, Hs.
  simpl. rewrite Nat.add_1_r, trade_ids_S.
  repeat split; try lia; do 2 f_equal; lia.
Qed.

Lemma selling_numbered_open (s : Selling.state) t scrip price dt :
  Selling.position_active s = false -> selling_numbered s ->
  selling_numbered (Selling.open_trade s t scrip price dt).
Proof.
  unfold selling_numbered, selling_open_positions. intros Hflat (Hn & Hs & Hf).
  rewrite Hflat in Hn. simpl in *. repeat split; auto. lia.
Qed.

Lemma selling_numbered_step (fs : folder) (b : Selling.bar) (ro : bool)
    (s s1 : Selling.state) :
  selling_numbered s -> selling_outcome fs b ro s s1 -> selling_numbered s1.
Proof.
  intros H Hout.
  assert (Hlook : forall row sl,
            Selling.get_option_indicators fs s (Selling.active_scrip s)
              (Selling.local_time b) = (row, sl) ->
            forall r, selling_numbered (selling_held sl (Selling.local_time b) r)
                      /\ Selling.position_active
                           (selling_held sl (Selling.local_time b) r)
                         = Selling.position_active s).
  { intros row sl E r.
    destruct (selling_lookup_keeps _ _ _ _ _ _ E) as (T & B & _).
    split; [now apply (selling_numbered_kept s)|].
    unfold selling_trade in T. now injection T. }
  destruct Hout as [sl _ E|row sl Ha E _|row sl Ha E _ _|row sl Ha E _ _ _
                    |row sl Ha E _ _ _| |r Hf _ _ _|r Hf _ _ _ _];
    try (destruct (Hlook _ _ E row) as [Hh Hact]); auto.
  - destruct (selling_lookup_keeps _ _ _ _ _ _ E) as (T & B & _).
    now apply (selling_numbered_kept s).
  - apply selling_numbered_close; [congruence|assumption].
  - apply selling_numbered_close; [congruence|assumption].
  - apply selling_numbered_close; [congruence|assumption].
  - now apply selling_numbered_open.
  - now apply selling_numbered_open.
Qed.

(** X2.  In every replay of either variant the rows of the summary carry the
    trade numbers 1, 2, 3, ... in order, and the ledger files written by
    [close_trade] carry the same numbers in the same order: no number is
    skipped or used twice. *)
Theorem trade_numbers_are_consecutive :
  (forall steps,
      let s := Buying.run Buying.init steps in
      map Buying.TradeID (Buying.summary_log s)
      = trade_ids (List.length (Buying.summary_log s))
      /\ map Buying.f_trade (Buying.trade_files s)
         = map Buying.TradeID (Buying.summary_log s))
  /\ (forall steps s,
         Selling.run Selling.init steps = Some s ->
         map Selling.TradeID (Selling.summary_log s)
         = trade_ids (List.length (Selling.summary_log s))
         /\ map Selling.f_trade (Selling.trade_files s)
            = map Selling.TradeID (Selling.summary_log s)).
Proof.
  split.
  - intros steps s. subst s.
    apply (buying_replay_invariant buying_numbered).
    + now repeat split.
    + intros s today H.
      destruct (new_day_reset_frame s today) as (T & _ & B & _).
      now apply (buying_numbered_kept s).
    + intros fs b s0 s1. apply buying_numbered_step.
  - intros steps s Hrun.
    apply (selling_replay_invariant selling_numbered) in Hrun.
    + apply Hrun.
    + now repeat split.
    + intros fs b ro s0 s1. apply selling_numbered_step.
Qed.

Lemma trade_numbers_are_consecutive_witness :
  map Selling.TradeID (Selling.summary_log Demo.sell_closed_state) = [1].
Proof.
  exact (proj1 (proj2 trade_numbers_are_consecutive Demo.sell_round_trip
                  Demo.sell_closed_state eq_refl)).
Defined.

(* ------------------------------------------------------------------------- *)
(** ** X3, X4: the shape of the trade ledgers *)

Lemma buying_held_ledger (s : Buying.state) (dt : datetime) (c : Q) :
  exists added,
    Buying.current_trade_ledger (buying_held s dt c)
    = Buying.current_trade_ledger s ++ added
    /\ Forall buying_mid_event added
    /\ Forall (fun r => Buying.l_Ticker r = Buying.active_scrip s) added.
Proof.
  unfold buying_held, Buying.tsl_step, Buying.tsl_trigger.
  split_ifs; simpl; rewrite <- ?app_assoc; simpl;
    (eexists; split; [reflexivity|]);
    split; repeat (apply Forall_cons || apply Forall_nil);
    unfold buying_mid_event; simpl; auto.
Qed.

Lemma buying_open_ledger_grows (scrip : string) (rows added : list Buying.ledger_row) :
  buying_open_ledger scrip rows ->
  Forall buying_mid_event added ->
  Forall (fun r => Buying.l_Ticker r = scrip) added ->
  buying_open_ledger scrip (rows ++ added).
Proof.
  intros (entry & mid & -> & He & Hw & Hm & Ht) Ha Hta.
  exists entry, (mid ++ added). repeat split; auto; try apply Hw.
  - now apply Forall_app.
  - now apply Forall_app.
Qed.

Lemma buying_ledgers_kept (s s1 : Buying.state) :
  Buying.position_active s1 = Buying.position_active s ->
  (Buying.position_active s = true ->
   Buying.active_scrip s1 = Buying.active_scrip s) ->
  Buying.current_trade_ledger s1 = Buying.current_trade_ledger s ->
  Buying.trade_files s1 = Buying.trade_files s ->
  buying_ledgers_formed s -> buying_ledgers_formed s1.
Proof.
  unfold buying_ledgers_formed. intros A N L F [Ho Hf].
  rewrite A, L, F. split; [|exact Hf].
  intros Hact. rewrite (N Hact). now apply Ho.
Qed.

Lemma buying_ledgers_held (s : Buying.state) (dt : datetime) (c : Q) :
  buying_ledgers_formed s -> buying_ledgers_formed (buying_held s dt c).
Proof.
  intros [Ho Hf].
  destruct (buying_held_same_trade s dt c) as (T & N & B & _).
  unfold buying_trade in T. unfold buying_books in B.
  injection T as T _ _ _. injection B as _ _ B.
  destruct (buying_held_ledger s dt c) as (added & L & Hm & Ht).
  unfold buying_ledgers_formed. rewrite T, N, B, L. split; [|exact Hf].
  intros Hact. apply buying_open_ledger_grows; auto.
Qed.

Lemma buying_ledgers_close (b : Buying.bar) (s : Buying.state) r dt price :
  Buying.position_active s = true -> buying_ledgers_formed s ->
  buying_ledgers_formed (Buying.close_trade b s r dt price).
Proof.
  intros Hact [Ho Hf]. split; [discriminate|].
  simpl. apply Forall_app. split; [exact Hf|].
  constructor; [|constructor]. simpl.
  destruct (Ho Hact) as (entry & mid & -> & He & Hw & Hm & Ht).
  eexists entry, mid, _. split; [reflexivity|].
  repeat split; auto; try apply Hw.
  apply Forall_app. split; [exact Ht|].
  now repeat constructor.
Qed.

Lemma in_window_time (b : Buying.bar) :
  buying_in_window b = true ->
  time_of 9 20 <= dt_time (Buying.bar_dt b) <= time_of 11 0.
Proof.
  unfold buying_in_window. rewrite andb_true_iff, !Z.leb_le. tauto.
Qed.

Lemma buying_ledgers_step (fs : folder) (b : Buying.bar) (s0 s1 : Buying.state) :
  buying_ledgers_formed s0 -> buying_outcome fs b s0 s1 -> buying_ledgers_formed s1.
Proof.
  intros H Hout.
  assert (Hown : forall p sl,
            Buying.get_option_price fs s0 (Buying.active_scrip s0)
              (timestamp_of (Buying.bar_dt b)) = (p, sl) ->
            buying_ledgers_formed sl
            /\ Buying.position_active sl = Buying.position_active s0).
  { intros p sl E.
    destruct (buying_lookup_keeps _ _ _ _ _ _ E) as (T & _ & B & _ & L).
    unfold buying_trade in T. unfold buying_books in B.
    injection T as T _ _ _. injection B as _ _ B.
    split; [|exact T].
    apply (buying_ledgers_kept s0); auto.
    intros _. exact (buying_lookup_keeps_scrip _ _ _ _ _ E). }
  assert (Hheld : forall sl c,
            Buying.position_active (buying_held sl (Buying.bar_dt b) c)
            = Buying.position_active sl).
  { intros sl c.
    destruct (buying_held_same_trade sl (Buying.bar_dt b) c) as (T & _).
    unfold buying_trade in T. now injection T. }
  destruct Hout as [p sl Ha _ E|sl _ _ E|c sl Ha _ E _|c sl Ha _ E _|c sl Ha _ E _
                    | |t p sl Hf _ _ _ E _|t c sl Hf Hw _ _ E _];
    try destruct (Hown _ _ E) as [Hsl Hact]; auto.
  - apply buying_ledgers_close; [congruence|assumption].
  - now apply buying_ledgers_held.
  - apply buying_ledgers_close; [rewrite Hheld; congruence|].
    now apply buying_ledgers_held.
  - apply buying_ledgers_close; [rewrite Hheld; congruence|].
    now apply buying_ledgers_held.
  - destruct (buying_lookup_keeps _ _ _ _ _ _ E) as (T & _ & B & _ & L).
    unfold buying_trade in T. unfold buying_books in B.
    injection T as T _ _ _. injection B as _ _ B.
    apply (buying_ledgers_kept s0); auto. intros Hact. congruence.
  - destruct (buying_lookup_keeps _ _ _ _ _ _ E) as (_ & _ & B & _).
    unfold buying_books in B. injection B as _ _ B.
    destruct H as [_ Hfiles]. split; [|simpl; now rewrite B].
    intros _. simpl. eexists _, []. split; [reflexivity|].
    repeat split; simpl; try apply (in_window_time b Hw); now repeat constructor.
Qed.

(** X3.  Buying variant.  In every replay, each ledger file written by
    [close_trade] holds one trade of one contract: an ENTRY row stamped
    between 09:20 and 11:00, then only HOLD and TSL_UPDATE rows, then one
    EXIT row at the end, all with the file's scrip as ticker; and while a
    position is open the ledger in memory is such a file without its EXIT
    row. *)
Theorem buying_ledgers_are_well_formed (steps : list (folder * Buying.bar)) :
  let s := Buying.run Buying.init steps in
  (Buying.position_active s = true ->
   buying_open_ledger (Buying.active_scrip s) (Buying.current_trade_ledger s))
  /\ Forall (fun f => buying_closed_ledger (Buying.f_scrip f) (Buying.f_rows f))
       (Buying.trade_files s).
Proof.
  apply (buying_replay_invariant buying_ledgers_formed).
  - split; [discriminate|constructor].
  - intros s today H.
    destruct (new_day_reset_frame s today) as (T & _ & B & N & L).
    unfold buying_trade in T. unfold buying_books in B.
    injection T as T _ _ _. injection B as _ _ B.
    now apply (buying_ledgers_kept s).
  - intros fs b s0 s1. apply buying_ledgers_step.
Qed.

Lemma buying_ledgers_are_well_formed_witness :
  buying_open_ledger "MID_CE" (Buying.current_trade_ledger Demo.buy_at_cost).
Proof.
  exact (proj1 (buying_ledgers_are_well_formed (Demo.buy_steps [25; 30])) eq_refl).
Defined.

Lemma selling_ledgers_kept (s s1 : Selling.state) :
  selling_trade s1 = selling_trade s ->
  Selling.current_trade_ledger s1 = Selling.current_trade_ledger s ->
  Selling.trade_files s1 = Selling.trade_files s ->
  selling_ledgers_formed s -> selling_ledgers_formed s1.
Proof.
  unfold selling_ledgers_formed, selling_trade.
  intros [= A _ _ _ N] L F [Ho Hf]. now rewrite A, N, L, F.
Qed.

Lemma selling_ledgers_held (s : Selling.state) (dt : datetime)
    (row : Selling.indicator_row) :
  selling_ledgers_formed s -> selling_ledgers_formed (selling_held s dt row).
Proof.
  intros [Ho Hf]. split; [|exact Hf]. simpl. intros Hact.
  destruct (Ho Hact) as (entry & holds & -> & He & Hw & Hh & Ht).
  exists entry, (holds ++ [Selling.mk_ledger_row (dt_date dt) (dt_time dt)
                             Selling.HOLD (Selling.active_scrip s)
                             (round2 (Selling.i_close row))
                             (round2 ((Selling.entry_price s - Selling.i_close row)
                                      * Selling.qty)) "Monitoring"]).
  split; [reflexivity|]. repeat split; auto; try apply Hw.
  - apply Forall_app. split; [exact Hh|now repeat constructor].
  - apply Forall_app. split; [exact Ht|now repeat constructor].
Qed.

(** Closing on the bar of a HOLD record. *)
Lemma selling_ledgers_close (s : Selling.state) (dt : datetime)
    (row : Selling.indicator_row) (r : Selling.reason) :
  Selling.position_active s = true -> selling_ledgers_formed s ->
  selling_ledgers_formed
    (Selling.close_trade (selling_held s dt row) r dt (Selling.i_close row)).
Proof.
  intros Hact [Ho Hf]. split; [discriminate|].
  simpl. apply Forall_app. split; [exact Hf|].
  constructor; [|constructor]. simpl.
  destruct (Ho Hact) as (entry & holds & -> & He & Hw & Hh & Ht).
  eexists entry, holds, _, _. split.
  { simpl. rewrite <- app_assoc. reflexivity. }
  repeat split; auto; try apply Hw.
  rewrite <- app_assoc. apply Forall_app. split; [exact Ht|].
  now repeat constructor.
Qed.

Lemma selling_window_time (b : Selling.bar) :
  selling_in_window b = true ->
  time_of 14 0 <= dt_time (Selling.local_time b) <= time_of 15 30.
Proof.
  unfold selling_in_window. rewrite andb_true_iff, !Z.leb_le. tauto.
Qed.

Lemma selling_ledgers_open (b : Selling.bar) (s : Selling.state) t scrip price :
  selling_in_window b = true -> selling_ledgers_formed s ->
  selling_ledgers_formed (Selling.open_trade s t scrip price (Selling.local_time b)).
Proof.
  intros Hw [_ Hf]. split; [|exact Hf].
  intros _. simpl. eexists _, []. split; [reflexivity|].
  repeat split; simpl; try apply (selling_window_time b Hw); now repeat constructor.
Qed.

Lemma selling_ledgers_step (fs : folder) (b : Selling.bar) (ro : bool)
    (s s1 : Selling.state) :
  selling_ledgers_formed s -> selling_outcome fs b ro s s1 ->
  selling_ledgers_formed s1.
Proof.
  intros H Hout.
  assert (Hlook : forall row sl,
            Selling.get_option_indicators fs s (Selling.active_scrip s)
              (Selling.local_time b) = (row, sl) ->
            selling_ledgers_formed sl
            /\ Selling.position_active sl = Selling.position_active s).
  { intros row sl E.
    destruct (selling_lookup_keeps _ _ _ _ _ _ E) as (T & B & L).
    split; [|unfold selling_trade in T; now injection T].
    apply (selling_ledgers_kept s); auto.
    unfold selling_books in B. now injection B. }
  destruct Hout as [sl _ E|row sl Ha E _|row sl Ha E _ _|row sl Ha E _ _ _
                    |row sl Ha E _ _ _| |r Hf _ Hw _|r Hf _ Hw _ _];
    try destruct (Hlook _ _ E) as [Hsl Hact]; auto.
  - apply selling_ledgers_close; [congruence|assumption].
  - apply selling_ledgers_close; [congruence|assumption].
  - apply selling_ledgers_close; [congruence|assumption].
  - now apply selling_ledgers_held.
  - now apply selling_ledgers_open.
  - now apply selling_ledgers_open.
Qed.

(** X4.  Selling variant.  In every replay, each ledger file written by
    [close_trade] holds a SELL_ENTRY row stamped between 14:00 and 15:30,
    then HOLD rows, at least one, then one BUY_EXIT row that repeats date,
    time, price and profit of the HOLD row before it, all rows with the
    file's scrip as ticker: a short trade is never closed on a bar without
    its HOLD record.  While a position is open the ledger in memory is the
    SELL_ENTRY row followed by HOLD rows. *)
Theorem selling_ledgers_are_well_formed (steps : list (folder * Selling.bar))
    (s : Selling.state) :
  Selling.run Selling.init steps = Some s ->
  (Selling.position_active s = true ->
   selling_open_ledger (Selling.active_scrip s) (Selling.current_trade_ledger s))
  /\ Forall (fun f => selling_closed_ledger (Selling.f_scrip f) (Selling.f_rows f))
       (Selling.trade_files s).
Proof.
  intros Hrun.
  apply (selling_replay_invariant selling_ledgers_formed) in Hrun.
  - exact Hrun.
  - split; [discriminate|constructor].
  - intros fs b ro s0 s1. apply selling_ledgers_step.
Qed.

Lemma selling_ledgers_are_well_formed_witness :
  Forall (fun f => selling_closed_ledger (Selling.f_scrip f) (Selling.f_rows f))
    (Selling.trade_files Demo.sell_closed_state)
  /\ List.length (Selling.trade_files Demo.sell_closed_state) = 1%nat.
Proof.
  split; [|reflexivity].
  exact (proj2 (selling_ledgers_are_well_formed Demo.sell_round_trip
                  Demo.sell_closed_state eq_refl)).
Defined.

(* ------------------------------------------------------------------------- *)
(** ** X5, X6: the stop as a function of the high-water profit *)

Lemma steps_nonneg (mx : Q) :
  (3000 <= mx)%Q -> 0 <= Qfloor ((mx - 3000) / 500).
Proof.
  intros H. change 0 with (Qfloor 0). apply Qfloor_resp_le.
  unfold Qdiv. change (/ 500)%Q with (1 # 500)%Q. lra.
Qed.

Lemma steps_mono (mx mx' : Q) :
  (mx <= mx')%Q -> Qfloor ((mx - 3000) / 500) <= Qfloor ((mx' - 3000) / 500).
Proof.
  intros H. apply Qfloor_resp_le.
  unfold Qdiv. change (/ 500)%Q with (1 # 500)%Q. lra.
Qed.

Lemma steps_zero (mx : Q) :
  (3000 <= mx)%Q -> (mx - 3000 < 500)%Q -> Qfloor ((mx - 3000) / 500) = 0.
Proof.
  intros Hlo Hhi. pose proof (steps_nonneg mx Hlo) as H0.
  pose proof (Qfloor_le ((mx - 3000) / 500)) as Hf.
  assert (H1 : (inject_Z (Qfloor ((mx - 3000) / 500)) < inject_Z 1)%Q).
  { eapply Qle_lt_trans; [exact Hf|].
    unfold Qdiv. change (/ 500)%Q with (1 # 500)%Q. change (inject_Z 1) with 1%Q. lra. }
  rewrite <- Zlt_Qlt in H1. lia.
Qed.

Lemma stepped_sl_eq (entry mx : Q) :
  (Buying.stepped_sl entry mx
   == entry + inject_Z (Qfloor ((mx - 3000) / 500)) * (500 # 120))%Q.
Proof.
  unfold Buying.stepped_sl, Buying.TSL_TRIGGER, Buying.TSL_STEP,
    Buying.TSL_INCREMENT, Buying.qty, Buying.LOT_SIZE.
  unfold Qdiv at 1. change (/ 120)%Q with (1 # 120)%Q. ring.
Qed.

Lemma stepped_sl_mono (entry mx mx' : Q) :
  (mx <= mx')%Q -> (Buying.stepped_sl entry mx <= Buying.stepped_sl entry mx')%Q.
Proof.
  intros H. rewrite !stepped_sl_eq.
  pose proof (steps_mono mx mx' H) as Hk. rewrite Zle_Qle in Hk. lra.
Qed.

Lemma stepped_sl_ge_entry (entry mx : Q) :
  (3000 <= mx)%Q -> (entry <= Buying.stepped_sl entry mx)%Q.
Proof.
  intros H. rewrite stepped_sl_eq.
  pose proof (steps_nonneg mx H) as Hk. rewrite Zle_Qle in Hk.
  change (inject_Z 0) with 0%Q in Hk. lra.
Qed.

Lemma stepped_sl_first_step (entry mx : Q) :
  (3000 <= mx)%Q -> (mx - 3000 < 500)%Q -> (Buying.stepped_sl entry mx == entry)%Q.
Proof.
  intros Hlo Hhi. rewrite stepped_sl_eq, (steps_zero mx Hlo Hhi).
  change (inject_Z 0) with 0%Q. ring.
Qed.

(** The stepped price locks in a profit within one step below the excess of
    the high-water mark over the trigger. *)
Lemma stepped_sl_bracket (entry mx : Q) :
  (mx - 3500 < (Buying.stepped_sl entry mx - entry) * 120 <= mx - 3000)%Q.
Proof.
  rewrite stepped_sl_eq.
  pose proof (Qfloor_le ((mx - 3000) / 500)) as Hlo.
  pose proof (Qlt_floor ((mx - 3000) / 500)) as Hhi.
  rewrite inject_Z_plus in Hhi. change (inject_Z 1) with 1%Q in Hhi.
  unfold Qdiv in Hlo, Hhi. change (/ 500)%Q with (1 # 500)%Q in Hlo, Hhi.
  set (k := inject_Z (Qfloor ((mx - 3000) * (1 # 500)))) in *.
  assert (Hk : (inject_Z (Qfloor ((mx - 3000) / 500)) == k)%Q) by reflexivity.
  rewrite Hk. split; lra.
Qed.

Lemma high_water_ge (s : Buying.state) (pnl : Q) :
  (Buying.max_pnl_reached s <= high_water s pnl)%Q.
Proof.
  unfold high_water.
  destruct (Qlt_bool (Buying.max_pnl_reached s) pnl) eqn:E; [|apply Qle_refl].
  apply Qlt_bool_iff in E. now apply Qlt_le_weak.
Qed.

Lemma follows_is_within (s : Buying.state) :
  stop_follows_high_water s -> stop_within_high_water s.
Proof.
  intros [Hz Ha]. split; [exact Hz|]. intros Hm.
  destruct (Ha Hm) as [Ht He]. split; [exact Ht|].
  rewrite He. split; [|apply Qle_refl].
  apply stepped_sl_ge_entry. exact Ht.
Qed.

Lemma tsl_trigger_within (s : Buying.state) dt c pnl :
  stop_follows_high_water s ->
  stop_within_high_water (Buying.tsl_trigger s dt c pnl).
Proof.
  intros H.
  destruct (tsl_trigger_same_trade s dt c pnl) as (T & _).
  unfold buying_trade in T. injection T as _ _ T _.
  destruct (tsl_trigger_spec s dt c pnl) as [(_ & Hp & St)|(_ & ->)];
    [|now apply follows_is_within].
  unfold buying_stop in St. injection St as St1 St2 St3.
  unfold stop_within_high_water. rewrite St1, St2, St3, T.
  split; [discriminate|]. intros _. split; [exact Hp|].
  split; [apply Qle_refl|now apply stepped_sl_ge_entry].
Qed.

Lemma tsl_step_follows (s : Buying.state) dt c pnl :
  stop_within_high_water s ->
  stop_follows_high_water (Buying.tsl_step s dt c pnl).
Proof.
  intros [Hz Ha].
  destruct (tsl_step_same_trade s dt c pnl) as (T & _).
  unfold buying_trade in T. injection T as _ _ T _.
  destruct (tsl_step_spec s dt c pnl) as [(Hm & ->)|(Hm & Hcase)].
  { split; [exact Hz|]. intros Hn. contradiction. }
  destruct (Ha Hm) as (Ht & Hlo & Hhi).
  pose proof (high_water_ge s pnl) as Hw.
  set (mx := high_water s pnl) in *.
  assert (Hmx : (3000 <= mx)%Q)
    by (eapply Qle_trans; [exact Ht|exact Hw]).
  pose proof (stepped_sl_mono (Buying.entry_price s) _ _ Hw) as Hmono.
  unfold stop_follows_high_water.
  destruct Hcase as [(_ & St)|(Hno & St)];
    unfold buying_stop in St; injection St as St1 St2 St3;
    rewrite St1, St2, St3, T.
  - split; [discriminate|]. intros _. split; [exact Hmx|reflexivity].
  - split; [intros Hn; contradiction|]. intros _. split; [exact Hmx|].
    destruct (Qlt_le_dec (mx - 3000) 500) as [Hsmall|Hbig].
    + rewrite (stepped_sl_first_step _ mx Hmx Hsmall).
      rewrite (stepped_sl_first_step _ mx Hmx Hsmall) in Hmono.
      apply Qle_antisym; [|exact Hlo].
      eapply Qle_trans; [exact Hhi|exact Hmono].
    + apply Qle_antisym; [eapply Qle_trans; [exact Hhi|exact Hmono]|].
      apply Qnot_lt_le. intros Hlt. apply Hno. split; [exact Hbig|exact Hlt].
Qed.

Lemma buying_held_follows (s : Buying.state) (dt : datetime) (c : Q) :
  stop_follows_high_water s -> stop_follows_high_water (buying_held s dt c).
Proof.
  intros H. unfold buying_held. apply tsl_step_follows, tsl_trigger_within.
  exact H.
Qed.

Lemma follows_kept (s s1 : Buying.state) :
  buying_trade s1 = buying_trade s -> buying_stop s1 = buying_stop s ->
  stop_follows_high_water s -> stop_follows_high_water s1.
Proof.
  unfold stop_follows_high_water, buying_trade, buying_stop.
  intros [= _ _ T _] [= S1 S2 S3]. now rewrite S1, S2, S3, T.
Qed.

Lemma round_half_even_integer (x : Q) (n : Z) :
  (x == inject_Z n)%Q -> round_half_even x = n.
Proof.
  intros H. unfold round_half_even.
  rewrite (Qfloor_comp _ _ H), Qfloor_Z.
  assert (Hc : (x - inject_Z n ?= 1 # 2)%Q = Lt).
  { apply Qlt_alt. rewrite H.
    setoid_replace (inject_Z n - inject_Z n)%Q with 0%Q by ring. reflexivity. }
  now rewrite Hc.
Qed.

Lemma round2_integer (x : Q) (n : Z) :
  (x == inject_Z n)%Q -> (round2 x == inject_Z n)%Q.
Proof.
  intros H. unfold round2.
  rewrite (round_half_even_integer (x * 100) (n * 100)).
  - rewrite inject_Z_mult. change (inject_Z 100) with 100%Q. field.
  - rewrite H, inject_Z_mult. reflexivity.
Qed.

(** Closing at an armed stop that follows the high-water mark. *)
Lemma stop_hit_row (b : Buying.bar) (s : Buying.state) (dt : datetime) :
  stop_follows_high_water s -> Buying.sl_mode s <> Buying.NONE ->
  Forall stop_hit_profit (Buying.summary_log s) ->
  Forall stop_hit_profit
    (Buying.summary_log
       (Buying.close_trade b s Buying.TSL_HIT dt (Buying.current_sl_price s))).
Proof.
  intros [_ Ha] Hm Hrows. destruct (Ha Hm) as [Ht He].
  simpl. apply Forall_app. split; [exact Hrows|].
  constructor; [|constructor]. intros _.
  exists (Qfloor ((Buying.max_pnl_reached s - 3000) / 500)).
  split; [now apply steps_nonneg|].
  cbn [Buying.PnL]. apply round2_integer.
  cbn [Buying.log_trade_step Buying.entry_price].
  rewrite He, stepped_sl_eq, inject_Z_mult.
  unfold Buying.qty, Buying.LOT_SIZE. change (inject_Z 500) with 500%Q. ring.
Qed.

Lemma other_exit_row (b : Buying.bar) (s : Buying.state) (r : Buying.reason)
    (dt : datetime) (price : Q) :
  r <> Buying.TSL_HIT ->
  Forall stop_hit_profit (Buying.summary_log s) ->
  Forall stop_hit_profit (Buying.summary_log (Buying.close_trade b s r dt price)).
Proof.
  intros Hr Hrows. simpl. apply Forall_app. split; [exact Hrows|].
  constructor; [|constructor]. intros Hhit. simpl in Hhit. contradiction.
Qed.

Lemma stop_hit_armed (s : Buying.state) (c : Q) :
  buying_stop_hit s c = true -> Buying.sl_mode s <> Buying.NONE.
Proof.
  unfold buying_stop_hit. rewrite andb_true_iff, negb_true_iff.
  intros [H _] Hn. rewrite Hn in H. discriminate.
Qed.

Lemma buying_stop_step (fs : folder) (b : Buying.bar) (s0 s1 : Buying.state) :
  (Buying.position_active s0 = true -> stop_follows_high_water s0)
  /\ Forall stop_hit_profit (Buying.summary_log s0) ->
  buying_outcome fs b s0 s1 ->
  (Buying.position_active s1 = true -> stop_follows_high_water s1)
  /\ Forall stop_hit_profit (Buying.summary_log s1).
Proof.
  intros [Hstop Hrows] Hout.
  assert (Hlook : forall scrip p sl,
            Buying.get_option_price fs s0 scrip (timestamp_of (Buying.bar_dt b))
            = (p, sl) ->
            (Buying.position_active s0 = true -> stop_follows_high_water sl)
            /\ Buying.position_active sl = Buying.position_active s0
            /\ Buying.summary_log sl = Buying.summary_log s0).
  { intros scrip p sl E.
    destruct (buying_lookup_keeps _ _ _ _ _ _ E) as (T & S & B & _).
    split; [intros Ha; apply (follows_kept s0); auto|].
    unfold buying_trade in T. unfold buying_books in B.
    injection T as T _ _ _. injection B as _ B _. now split. }
  assert (Hheld : forall sl c,
            Buying.summary_log (buying_held sl (Buying.bar_dt b) c)
            = Buying.summary_log sl).
  { intros sl c.
    destruct (buying_held_same_trade sl (Buying.bar_dt b) c) as (_ & _ & B & _).
    unfold buying_books in B. now injection B. }
  destruct Hout as [p sl Ha _ E|sl Ha _ E|c sl Ha _ E _|c sl Ha _ E Hhit|c sl Ha _ E _
                    | |t p sl Hf _ _ _ E _|t c sl Hf _ _ _ E _];
    try destruct (Hlook _ _ _ E) as (Hsl & Hact & Hsum).
  - split; [discriminate|]. apply other_exit_row; [discriminate|congruence].
  - split; [intros _; now apply Hsl|congruence].
  - split; [intros _; now apply buying_held_follows, Hsl|].
    rewrite Hheld. congruence.
  - split; [discriminate|].
    apply stop_hit_row;
      [now apply buying_held_follows, Hsl
      |exact (stop_hit_armed _ _ Hhit)
      |rewrite Hheld; congruence].
  - split; [discriminate|].
    apply other_exit_row; [discriminate|rewrite Hheld; congruence].
  - now split.
  - split; [congruence|congruence].
  - split; [|simpl; congruence].
    intros _. split; [reflexivity|]. simpl. intros Hn. contradiction.
Qed.

Lemma buying_stop_invariant (steps : list (folder * Buying.bar)) :
  let s := Buying.run Buying.init steps in
  (Buying.position_active s = true -> stop_follows_high_water s)
  /\ Forall stop_hit_profit (Buying.summary_log s).
Proof.
  apply (buying_replay_invariant
           (fun s => (Buying.position_active s = true -> stop_follows_high_water s)
                     /\ Forall stop_hit_profit (Buying.summary_log s))).
  - split; [discriminate|constructor].
  - intros s today [Hstop Hrows].
    destruct (new_day_reset_frame s today) as (T & S & B & _).
    pose proof T as T'. unfold buying_trade in T'. unfold buying_books in B.
    injection T' as T' _ _ _. injection B as _ B _.
    rewrite T', B. split; [|exact Hrows].
    intros Ha. apply (follows_kept s); auto.
  - intros fs b s0 s1. apply buying_stop_step.
Qed.

(** X5.  Buying variant.  In every replay, once the stop of the open
    position is armed it is exactly the stepped price of the high-water
    profit, entry + floor((high-water - 3000) / 500) * 500 / 120, with the
    high-water mark at or above the trigger: the stop is never below the
    entry price, and the profit it locks in is at most the excess of the
    high-water mark over 3000 and less than 500 below it. *)
Theorem stop_follows_the_high_water_mark (steps : list (folder * Buying.bar)) :
  let s := Buying.run Buying.init steps in
  Buying.position_active s = true -> Buying.sl_mode s <> Buying.NONE ->
  (3000 <= Buying.max_pnl_reached s)%Q
  /\ (Buying.current_sl_price s
      == Buying.entry_price s
         + inject_Z (Qfloor ((Buying.max_pnl_reached s - 3000) / 500)) * 500 / 120)%Q
  /\ (Buying.entry_price s <= Buying.current_sl_price s)%Q
  /\ (Buying.max_pnl_reached s - 3500
      < (Buying.current_sl_price s - Buying.entry_price s) * 120
      <= Buying.max_pnl_reached s - 3000)%Q.
Proof.
  intros s Hact Hm.
  destruct (buying_stop_invariant steps) as [Hstop _].
  destruct (Hstop Hact) as [_ Ha]. destruct (Ha Hm) as [Ht He].
  fold s in Ht, He. split; [exact Ht|]. split; [exact He|].
  split; [rewrite He; now apply stepped_sl_ge_entry|].
  rewrite He. apply stepped_sl_bracket.
Qed.

Lemma stop_follows_the_high_water_mark_witness :
  let s := Buying.run Buying.init (Demo.buy_steps [25; 30; 35; 40]) in
  (Buying.entry_price s <= Buying.current_sl_price s)%Q
  /\ (Buying.max_pnl_reached s - 3500
      < (Buying.current_sl_price s - Buying.entry_price s) * 120
      <= Buying.max_pnl_reached s - 3000)%Q.
Proof.
  destruct (stop_follows_the_high_water_mark (Demo.buy_steps [25; 30; 35; 40]))
    as (_ & _ & H3 & H4).
  - reflexivity.
  - vm_compute. discriminate.
  - split; [exact H3|exact H4].
Defined.

(** X6.  Buying variant.  In every replay, a summary row whose exit reason
    is TSL_HIT records a profit that is a whole, non-negative number of
    500s: a trade closed by the trailing stop never records a loss. *)
Theorem stop_hit_never_records_a_loss (steps : list (folder * Buying.bar))
    (row : Buying.summary_row) :
  In row (Buying.summary_log (Buying.run Buying.init steps)) ->
  Buying.ExitReason row = Buying.TSL_HIT ->
  (0 <= Buying.PnL row)%Q
  /\ exists k : Z, 0 <= k /\ (Buying.PnL row == inject_Z (500 * k))%Q.
Proof.
  intros Hin Hhit.
  destruct (buying_stop_invariant steps) as [_ Hrows].
  rewrite Forall_forall in Hrows.
  destruct (Hrows row Hin Hhit) as (k & Hk & He).
  split; [|now exists k].
  rewrite He. change 0%Q with (inject_Z 0). rewrite <- Zle_Qle. lia.
Qed.

Lemma stop_hit_never_records_a_loss_witness :
  (0 <= Buying.PnL stopped_row)%Q
  /\ exists k : Z, 0 <= k /\ (Buying.PnL stopped_row == inject_Z (500 * k))%Q.
Proof.
  apply (stop_hit_never_records_a_loss (Demo.buy_steps [25; 30; 35; 40; 45])
           stopped_row).
  - vm_compute. left. reflexivity.
  - reflexivity.
Defined.

(* ------------------------------------------------------------------------- *)
(** ** X7: the cached frames *)

Lemma selling_lookup_cache (fs : folder) (s sl : Selling.state) (scrip : string)
    (dt : datetime) (row : option Selling.indicator_row) :
  Selling.get_option_indicators fs s scrip dt = (row, sl) ->
  sl = s
  \/ (Selling.position_active s = true
      /\ exists raw,
           sl = Selling.set_df s
                  (Some (Selling.with_indicators (sorted_on_load s_ts raw)))).
Proof.
  unfold Selling.get_option_indicators.
  destruct (Selling.position_active s); simpl.
  - destruct (scrip =? Selling.active_scrip s)%string.
    + destruct (Selling.active_option_df s); [intros [= _ <-]; now left|].
      destruct (fs scrip) as [raw|]; intros [= _ <-]; [right; eauto|now left].
    + destruct (fs scrip) as [raw|]; intros [= _ <-]; now left.
  - destruct (fs scrip) as [raw|]; intros [= _ <-]; now left.
Qed.

(** X7.  In every replay the frame held in the cache is in index order
    (non-decreasing timestamps), so the as-of lookup always searches a
    sorted index.  In the selling variant, moreover, a frame is cached only
    while a position is open, and its three indicator columns are the
    moving averages of its own close, high and low columns. *)
Theorem cached_frames_are_in_index_order :
  (forall steps df,
      Buying.active_option_df (Buying.run Buying.init steps) = Some df ->
      is_monotonic_increasing (map s_ts df) = true)
  /\ (forall steps s,
         Selling.run Selling.init steps = Some s ->
         (Selling.position_active s = false -> Selling.active_option_df s = None)
         /\ forall df,
              Selling.active_option_df s = Some df ->
              is_monotonic_increasing (map Selling.i_ts df) = true
              /\ map Selling.EMA19_Close df
                 = Selling.ewm_mean 19 (map Selling.i_close df)
              /\ map Selling.EMA50_High df
                 = Selling.ewm_mean 50 (map s_high (map Selling.i_sample df))
              /\ map Selling.EMA50_Low df
                 = Selling.ewm_mean 50 (map s_low (map Selling.i_sample df))).
Proof.
  split.
  - intros steps.
    apply (buying_replay_invariant
             (fun s => forall df, Buying.active_option_df s = Some df ->
                                  is_monotonic_increasing (map s_ts df) = true)).
    + discriminate.
    + intros s today H df. unfold Buying.new_day_reset.
      destruct (opt_date_eqb (Buying.current_date s) today); [apply H|discriminate].
    + intros fs b s0 s1 H Hout.
      assert (Hlook : forall scrip p sl,
                Buying.get_option_price fs s0 scrip (timestamp_of (Buying.bar_dt b))
                = (p, sl) ->
                forall df, Buying.active_option_df sl = Some df ->
                           is_monotonic_increasing (map s_ts df) = true).
      { intros scrip p sl E df.
        destruct (buying_lookup_cache _ _ _ _ _ _ E) as [->|(raw & _ & ->)];
          [apply H|].
        simpl. intros [= <-]. apply sorted_on_load_monotonic. }
      destruct Hout as [p sl _ _ E|sl _ _ E|c sl _ _ E _|c sl _ _ E _|c sl _ _ E _
                        | |t p sl _ _ _ _ E _|t c sl _ _ _ _ E _];
        try (intros df; simpl; rewrite ?buying_held_cache; now apply (Hlook _ _ _ E)).
      exact H.
  - intros steps s Hrun.
    apply (selling_replay_invariant
             (fun s =>
                (Selling.position_active s = false -> Selling.active_option_df s = None)
                /\ forall df,
                     Selling.active_option_df s = Some df ->
                     is_monotonic_increasing (map Selling.i_ts df) = true
                     /\ df = Selling.with_indicators (map Selling.i_sample df)))
      in Hrun.
    + destruct Hrun as [Hflat Hdf]. split; [exact Hflat|].
      intros df E. destruct (Hdf df E) as [Hm Hw]. split; [exact Hm|].
      destruct (with_indicators_columns (map Selling.i_sample df)) as (A & B & C).
      rewrite <- Hw in A, B, C. rewrite A, B, C.
      unfold Selling.i_close. now rewrite map_map.
    + split; [reflexivity|discriminate].
    + intros fs b ro s0 s1 [Hflat Hdf] Hout.
      assert (Hlook : forall row sl,
                Selling.get_option_indicators fs s0 (Selling.active_scrip s0)
                  (Selling.local_time b) = (row, sl) ->
                Selling.position_active s0 = true ->
                (Selling.position_active sl = false ->
                 Selling.active_option_df sl = None)
                /\ forall df,
                     Selling.active_option_df sl = Some df ->
                     is_monotonic_increasing (map Selling.i_ts df) = true
                     /\ df = Selling.with_indicators (map Selling.i_sample df)).
      { intros row sl E Ha.
        destruct (selling_lookup_cache _ _ _ _ _ _ E) as [->|(_ & raw & ->)];
          [now split|].
        simpl. split; [congruence|]. intros df [= <-]. split.
        - rewrite with_indicators_ts. apply sorted_on_load_monotonic.
        - now rewrite with_indicators_samples. }
      destruct Hout as [sl Ha E|row sl Ha E _|row sl Ha E _ _|row sl Ha E _ _ _
                        |row sl Ha E _ _ _| |r Hf _ _ _|r Hf _ _ _ _];
        try (simpl; split; [reflexivity|discriminate]);
        try (split; [discriminate|discriminate]).
      * now apply (Hlook _ _ E).
      * simpl. now apply (Hlook _ _ E).
      * now split.
Qed.

Lemma cached_frames_are_in_index_order_witness :
  is_monotonic_increasing (map s_ts Demo.rally) = true
  /\ is_monotonic_increasing
       (map Selling.i_ts (Selling.with_indicators Demo.slump)) = true.
Proof.
  destruct cached_frames_are_in_index_order as [HB HS]. split.
  - exact (HB (Demo.buy_steps [25; 30]) Demo.rally eq_refl).
  - destruct (HS [(Demo.sell_folder, Demo.sell_bar (Demo.at_ Demo.day1 14 5) 25);
                  (Demo.sell_folder, Demo.sell_bar (Demo.at_ Demo.day1 14 10) 25)]
                Demo.sell_held_state eq_refl) as [_ H].
    exact (proj1 (H (Selling.with_indicators Demo.slump) eq_refl)).
Defined.

(* ------------------------------------------------------------------------- *)
(** ** X8: what a load leaves in the cache *)

(** X8.  Buying variant: once [get_option_price] has loaded the file of a
    scrip, a lookup of the same scrip is answered from the loaded rows
    without reading the folder again; a lookup of another scrip whose file is
    missing returns nothing and leaves the loaded frame in place; a lookup of
    another scrip whose file exists replaces the frame.  Selling variant:
    while flat, [get_option_indicators] reads the folder at every call and
    caches nothing. *)
Theorem contract_cache_round_trip :
  (forall fs1 s scrip raw ts1,
      fs1 scrip = Some raw ->
      Buying.active_option_df s = None \/ Buying.active_scrip s <> scrip ->
      let s1 := snd (Buying.get_option_price fs1 s scrip ts1) in
      (forall fs2 ts2,
          Buying.get_option_price fs2 s1 scrip ts2
          = (Buying.asof_close (sorted_on_load s_ts raw) ts2, s1))
      /\ (forall fs2 other ts2,
             other <> scrip -> fs2 other = None ->
             Buying.get_option_price fs2 s1 other ts2 = (None, s1))
      /\ (forall fs2 other raw2 ts2,
             other <> scrip -> fs2 other = Some raw2 ->
             Buying.get_option_price fs2 s1 other ts2
             = (Buying.asof_close (sorted_on_load s_ts raw2) ts2,
                Buying.set_cache s1 (Some (sorted_on_load s_ts raw2)) other)))
  /\ (forall fs s scrip dt,
         Selling.position_active s = false ->
         Selling.get_option_indicators fs s scrip dt
         = (match fs scrip with
            | Some raw =>
                Selling.asof_row (Selling.with_indicators (sorted_on_load s_ts raw))
                  (timestamp_of dt)
            | None => None
            end, s)).
Proof.
  split.
  - intros fs1 s scrip raw ts1 Hfile Hmiss s1.
    assert (Hs1 : s1 = Buying.set_cache s (Some (sorted_on_load s_ts raw)) scrip).
    { subst s1. unfold Buying.get_option_price.
      destruct Hmiss as [Hnone|Hother].
      - rewrite Hnone, Hfile. reflexivity.
      - apply String.eqb_neq in Hother. rewrite Hother.
        destruct (Buying.active_option_df s); simpl; now rewrite Hfile. }
    rewrite Hs1. split; [|split].
    + intros fs2 ts2. unfold Buying.get_option_price. simpl.
      now rewrite String.eqb_refl.
    + intros fs2 other ts2 Hne Hnone. unfold Buying.get_option_price. simpl.
      assert (E : (scrip =? other)%string = false)
        by (apply String.eqb_neq; congruence).
      now rewrite E, Hnone.
    + intros fs2 other raw2 ts2 Hne Hsome. unfold Buying.get_option_price. simpl.
      assert (E : (scrip =? other)%string = false)
        by (apply String.eqb_neq; congruence).
      now rewrite E, Hsome.
  - intros fs s scrip dt Hflat. unfold Selling.get_option_indicators.
    rewrite Hflat. simpl. destruct (fs scrip); reflexivity.
Qed.

Lemma contract_cache_round_trip_witness :
  let s1 := snd (Buying.get_option_price Demo.buy_folder Buying.init "MID_CE"
                   (timestamp_of (Demo.at_ Demo.day1 9 20))) in
  Buying.get_option_price Demo.no_files s1 "MID_CE"
    (timestamp_of (Demo.at_ Demo.day1 9 30))
  = (Buying.asof_close (sorted_on_load s_ts Demo.rally)
       (timestamp_of (Demo.at_ Demo.day1 9 30)), s1)
  /\ Selling.get_option_indicators Demo.no_files Selling.init "MID_PE"
       (Demo.at_ Demo.day1 14 5)
     = (None, Selling.init).
Proof.
  destruct contract_cache_round_trip as [HB HS]. split.
  - destruct (HB Demo.buy_folder Buying.init "MID_CE"%string Demo.rally
                (timestamp_of (Demo.at_ Demo.day1 9 20)) eq_refl (or_introl eq_refl))
      as (H & _).
    apply H.
  - exact (HS Demo.no_files Selling.init "MID_PE"%string (Demo.at_ Demo.day1 14 5)
             eq_refl).
Defined.

(* ------------------------------------------------------------------------- *)
(** ** X9: the entry gates of the buying variant *)

(** X9.  Buying variant, on a bar that finds the strategy flat.  Outside
    09:20-11:00, or with the day's trade counter at the cap, or without a
    crossover, the bar does nothing beyond the day reset: no file is read
    and no attribute of the trade, the cache or the books changes.  When
    both crossovers hold on a bar inside the window and under the cap, the
    call leg is the one tried, and the put leg is not looked at even when
    the call price does not resolve. *)
Theorem entry_gates (fs : folder) (s : Buying.state) (b : Buying.bar) :
  let s0 := Buying.new_day_reset s (dt_date (Buying.bar_dt b)) in
  let t := dt_time (Buying.bar_dt b) in
  let call_cross :=
    (Buying.ema5_prev b <= Buying.ema20_high_prev b)%Q
    /\ (Buying.ema20_high b < Buying.ema5 b)%Q in
  let put_cross :=
    (Buying.ema20_low_prev b <= Buying.ema5_prev b)%Q
    /\ (Buying.ema5 b < Buying.ema20_low b)%Q in
  Buying.position_active s = false ->
  (~ (time_of 9 20 <= t <= time_of 11 0)
   \/ 2 <= Buying.trades_today s0
   \/ (~ call_cross /\ ~ put_cross) ->
   Buying.next fs s b = s0)
  /\ (time_of 9 20 <= t <= time_of 11 0 -> Buying.trades_today s0 < 2 ->
      call_cross ->
      Buying.next fs s b = Buying.entry_setup fs b s0 CE (Buying.bar_dt b))
  /\ (time_of 9 20 <= t <= time_of 11 0 -> Buying.trades_today s0 < 2 ->
      ~ call_cross -> put_cross ->
      Buying.next fs s b = Buying.entry_setup fs b s0 PE (Buying.bar_dt b)).
Proof.
  intros s0 t call_cross put_cross Hflat.
  assert (Hnext : Buying.next fs s b = Buying.entry_logic fs b s0).
  { unfold Buying.next. fold s0.
    destruct (new_day_reset_frame s (dt_date (Buying.bar_dt b))) as (T & _).
    fold s0 in T. unfold buying_trade in T. injection T as T _ _ _.
    now rewrite T, Hflat. }
  rewrite Hnext. unfold Buying.entry_logic. fold t.
  assert (Hw : (time_of 9 20 <=? t) && (t <=? time_of 11 0) = true
               <-> time_of 9 20 <= t <= time_of 11 0)
    by (rewrite andb_true_iff, !Z.leb_le; tauto).
  assert (Hc : (Buying.MAX_TRADES_DAY <=? Buying.trades_today s0) = true
               <-> 2 <= Buying.trades_today s0) by apply Z.leb_le.
  assert (Hce : Qle_bool (Buying.ema5_prev b) (Buying.ema20_high_prev b)
                && Qlt_bool (Buying.ema20_high b) (Buying.ema5 b) = true
                <-> call_cross)
    by (unfold call_cross; now rewrite andb_true_iff, Qle_bool_iff, Qlt_bool_iff).
  assert (Hpe : Qle_bool (Buying.ema20_low_prev b) (Buying.ema5_prev b)
                && Qlt_bool (Buying.ema5 b) (Buying.ema20_low b) = true
                <-> put_cross)
    by (unfold put_cross; now rewrite andb_true_iff, Qle_bool_iff, Qlt_bool_iff).
  destruct ((time_of 9 20 <=? t) && (t <=? time_of 11 0));
    destruct (Buying.MAX_TRADES_DAY <=? Buying.trades_today s0);
    destruct (Qle_bool (Buying.ema5_prev b) (Buying.ema20_high_prev b)
              && Qlt_bool (Buying.ema20_high b) (Buying.ema5 b));
    destruct (Qle_bool (Buying.ema20_low_prev b) (Buying.ema5_prev b)
              && Qlt_bool (Buying.ema5 b) (Buying.ema20_low b));
    simpl; repeat split; try reflexivity; intros;
    try (exfalso; intuition (try discriminate; try lia; fail)).
Qed.

Lemma entry_gates_witness :
  Buying.next Demo.buy_folder Buying.init (Demo.spot (Demo.at_ Demo.day1 9 15) 12 10)
  = Buying.new_day_reset Buying.init Demo.day1
  /\ Buying.next Demo.buy_folder Buying.init Demo.buy_entry_bar
     = Buying.entry_setup Demo.buy_folder Demo.buy_entry_bar
         (Buying.new_day_reset Buying.init Demo.day1) CE (Demo.at_ Demo.day1 9 20).
Proof.
  split.
  - apply (proj1 (entry_gates Demo.buy_folder Buying.init
                    (Demo.spot (Demo.at_ Demo.day1 9 15) 12 10) eq_refl)).
    left. vm_compute. intros [H _]. now apply H.
  - apply (proj1 (proj2 (entry_gates Demo.buy_folder Buying.init Demo.buy_entry_bar
                           eq_refl))).
    + vm_compute. split; discriminate.
    + vm_compute. reflexivity.
    + vm_compute. split; [discriminate|reflexivity].
Defined.

(* ------------------------------------------------------------------------- *)
(** ** X10, X11: entries and exits of the selling variant *)

Lemma entry_signal_Some (row : option Selling.indicator_row) (r : Selling.indicator_row) :
  Selling.entry_signal row = Some r <->
  row = Some r /\ (Selling.EMA19_Close r < Selling.EMA50_Low r)%Q.
Proof.
  unfold Selling.entry_signal. destruct row as [x|]; [|split; [discriminate|now intros [? _]]].
  destruct (Qlt_bool (Selling.EMA19_Close x) (Selling.EMA50_Low x)) eqn:E.
  - apply Qlt_bool_iff in E. split.
    + intros [= <-]. now split.
    + now intros [-> _].
  - split; [discriminate|]. intros [[= ->] H].
    apply Qlt_bool_iff in H. congruence.
Qed.

(** X10.  Selling variant, on a bar that finds the strategy flat and does
    not abort.  Either the strategy is returned exactly as it was, cache
    included, or one short position is opened from that same strategy: on a
    bar more than 4 days before expiry and between 14:00 and 15:30, at the
    close of the resolved row of a leg whose EMA19(close) is below its
    EMA50(low).  The put leg has priority: the call is sold only when the
    put leg gives no entry. *)
Theorem selling_flat_bar (fs : folder) (s s1 : Selling.state) (b : Selling.bar) :
  Selling.position_active s = false ->
  Selling.next fs s b = Some s1 ->
  let dt := Selling.local_time b in
  s1 = s
  \/ exists expiry t r,
       date_ctor (Selling.expiry_year b) (Selling.expiry_month b)
         (Selling.expiry_day b) = Some expiry
       /\ 4 < toordinal expiry - toordinal (dt_date dt)
       /\ time_of 14 0 <= dt_time dt <= time_of 15 30
       /\ let scrip :=
            match t with
            | PE => Selling.icici_scrip_code_pe b
            | CE => Selling.icici_scrip_code_ce b
            end in
          fst (Selling.get_option_indicators fs s scrip dt) = Some r
          /\ (Selling.EMA19_Close r < Selling.EMA50_Low r)%Q
          /\ s1 = Selling.open_trade s t scrip (Selling.i_close r) dt
          /\ (t = CE ->
              selling_leg fs s (Selling.icici_scrip_code_pe b) dt = None).
Proof.
  intros Hflat Hnext dt.
  destruct (selling_next_outcome fs s s1 b Hnext) as (expiry & Hdate & Hout).
  assert (Hro : Selling.is_rollover_period expiry (dt_date dt) = false ->
                4 < toordinal expiry - toordinal (dt_date dt)).
  { unfold Selling.is_rollover_period, Selling.ROLLOVER_DAYS.
    intros H. apply Z.leb_gt in H. exact H. }
  destruct Hout as [sl Ha _|row sl Ha _ _|row sl Ha _ _ _|row sl Ha _ _ _ _
                    |row sl Ha _ _ _ _| |r _ Hr Hw Hleg|r _ Hr Hw Hpe Hleg];
    try congruence.
  - now left.
  - right. exists expiry, PE, r. apply entry_signal_Some in Hleg.
    destruct Hleg as [Hrow Hcond].
    repeat split; auto; try apply (selling_window_time b Hw). discriminate.
  - right. exists expiry, CE, r. apply entry_signal_Some in Hleg.
    destruct Hleg as [Hrow Hcond].
    repeat split; auto; try apply (selling_window_time b Hw).
Qed.

Lemma selling_flat_bar_witness :
  Demo.sell_open_state = Selling.init
  \/ exists expiry t r,
       date_ctor 2024 1 25 = Some expiry
       /\ 4 < toordinal expiry - toordinal Demo.day1
       /\ time_of 14 0 <= dt_time (Demo.at_ Demo.day1 14 5) <= time_of 15 30
       /\ let scrip := match t with PE => "MID_PE"%string | CE => "MID_CE"%string end in
          fst (Selling.get_option_indicators Demo.sell_folder Selling.init scrip
                 (Demo.at_ Demo.day1 14 5)) = Some r
          /\ (Selling.EMA19_Close r < Selling.EMA50_Low r)%Q
          /\ Demo.sell_open_state
             = Selling.open_trade Selling.init t scrip (Selling.i_close r)
                 (Demo.at_ Demo.day1 14 5)
          /\ (t = CE ->
              selling_leg Demo.sell_folder Selling.init "MID_PE"
                (Demo.at_ Demo.day1 14 5) = None).
Proof.
  exact (selling_flat_bar Demo.sell_folder Selling.init Demo.sell_open_state
           (Demo.sell_bar (Demo.at_ Demo.day1 14 5) 25) eq_refl eq_refl).
Defined.

(** X11.  Selling variant, on a bar more than 4 days before expiry that
    finds a position open and resolves its contract row.  After the HOLD
    record, the reversal stop (EMA19(close) above EMA50(high)) closes the
    trade with EMA_REVERSAL_SL even when the price is below the target; the
    target (close below 30) closes it with TARGET_LTP_30 only when the
    reversal does not hold; otherwise the position stays open.  Every exit
    is at the close of the resolved row. *)
Theorem selling_exit_order (fs : folder) (s : Selling.state) (b : Selling.bar)
    (expiry : date) (row : Selling.indicator_row) :
  Selling.position_active s = true ->
  date_ctor (Selling.expiry_year b) (Selling.expiry_month b) (Selling.expiry_day b)
  = Some expiry ->
  4 < toordinal expiry - toordinal (dt_date (Selling.local_time b)) ->
  let dt := Selling.local_time b in
  let found := Selling.get_option_indicators fs s (Selling.active_scrip s) dt in
  fst found = Some row ->
  let held := selling_held (snd found) dt row in
  let reversal := (Selling.EMA50_High row < Selling.EMA19_Close row)%Q in
  let target := (Selling.i_close row < 30)%Q in
  (reversal ->
   Selling.next fs s b
   = Some (Selling.close_trade held Selling.EMA_REVERSAL_SL dt (Selling.i_close row)))
  /\ (~ reversal -> target ->
      Selling.next fs s b
      = Some (Selling.close_trade held Selling.TARGET_LTP_30 dt (Selling.i_close row)))
  /\ (~ reversal -> ~ target -> Selling.next fs s b = Some held).
Proof.
  intros Hact Hdate Hdays dt found Hrow held reversal target.
  assert (Hro : Selling.is_rollover_period expiry (dt_date dt) = false)
    by (unfold Selling.is_rollover_period, Selling.ROLLOVER_DAYS;
        apply Z.leb_gt; exact Hdays).
  assert (Hnext : Selling.next fs s b
                  = Some (if Qlt_bool (Selling.EMA50_High row) (Selling.EMA19_Close row)
                          then Selling.close_trade held Selling.EMA_REVERSAL_SL dt
                                 (Selling.i_close row)
                          else if Qlt_bool (Selling.i_close row) Selling.TARGET_LTP
                          then Selling.close_trade held Selling.TARGET_LTP_30 dt
                                 (Selling.i_close row)
                          else held)).
  { unfold Selling.next. rewrite Hdate. fold dt. rewrite Hro, Hact.
    unfold Selling.manage_position. fold dt found.
    subst held. destruct found as [r sf]. simpl in Hrow. now rewrite Hrow. }
  rewrite Hnext.
  destruct (Qlt_bool (Selling.EMA50_High row) (Selling.EMA19_Close row)) eqn:Er.
  - apply Qlt_bool_iff in Er. fold reversal in Er.
    split; [reflexivity|split; intros; contradiction].
  - assert (Hnr : ~ reversal)
      by (intros H; apply (proj2 (Qlt_bool_iff _ _)) in H; congruence).
    split; [intros H; contradiction|].
    destruct (Qlt_bool (Selling.i_close row) Selling.TARGET_LTP) eqn:Et.
    + apply Qlt_bool_iff in Et. split; [reflexivity|]. intros _ H. contradiction.
    + split; [|reflexivity]. intros _ H.
      apply (proj2 (Qlt_bool_iff _ _)) in H.
      unfold Selling.TARGET_LTP in Et. congruence.
Qed.

Lemma selling_exit_order_witness :
  Selling.next Demo.sell_folder Demo.sell_open_state
    (Demo.sell_bar (Demo.at_ Demo.day1 14 10) 25)
  = Some Demo.sell_held_state.
Proof.
  destruct (fst (Selling.get_option_indicators Demo.sell_folder Demo.sell_open_state
                   (Selling.active_scrip Demo.sell_open_state)
                   (Demo.at_ Demo.day1 14 10))) as [row|] eqn:E;
    [|vm_compute in E; discriminate E].
  destruct (selling_exit_order Demo.sell_folder Demo.sell_open_state
              (Demo.sell_bar (Demo.at_ Demo.day1 14 10) 25) (mk_date 2024 1 25) row
              eq_refl eq_refl) as (_ & _ & H).
  - vm_compute. reflexivity.
  - exact E.
  - rewrite H.
    + vm_compute in E. injection E as <-. vm_compute. reflexivity.
    + vm_compute in E. injection E as <-. vm_compute. discriminate.
    + vm_compute in E. injection E as <-. vm_compute. discriminate.
Defined.

(* ------------------------------------------------------------------------- *)
(** ** X12: when the selling replay aborts *)

Lemma date_ctor_valid (b : Selling.bar) :
  date_ctor (Selling.expiry_year b) (Selling.expiry_month b) (Selling.expiry_day b)
  <> None
  <-> valid_expiry b.
Proof.
  unfold date_ctor, valid_expiry.
  destruct ((1 <=? Selling.expiry_year b) && (Selling.expiry_year b <=? 9999)
            && (1 <=? Selling.expiry_month b) && (Selling.expiry_month b <=? 12)
            && (1 <=? Selling.expiry_day b)
            && (Selling.expiry_day b
                <=? days_in_month (Selling.expiry_year b) (Selling.expiry_month b)))
    eqn:E.
  - rewrite !andb_true_iff, !Z.leb_le in E. split; [intros _; lia|discriminate].
  - split; [intros H; now contradiction H|].
    intros H. exfalso.
    assert (E' : (1 <=? Selling.expiry_year b) && (Selling.expiry_year b <=? 9999)
                 && (1 <=? Selling.expiry_month b) && (Selling.expiry_month b <=? 12)
                 && (1 <=? Selling.expiry_day b)
                 && (Selling.expiry_day b
                     <=? days_in_month (Selling.expiry_year b)
                           (Selling.expiry_month b)) = true)
      by (rewrite !andb_true_iff, !Z.leb_le; lia).
    congruence.
Qed.

(** X12.  Selling variant.  A bar whose expiry lines are not a calendar
    date makes [next] raise the ValueError of [datetime.date] before
    anything else is looked at: whatever the state of the strategy, flat or
    not, inside or outside the entry window, and whatever the folder holds.
    So a replay with such a bar anywhere in the feed does not complete, and
    a replay that completes has a calendar date on every bar. *)
Theorem bad_expiry_aborts_the_selling_replay :
  (forall fs s b, ~ valid_expiry b -> Selling.next fs s b = None)
  /\ (forall pre fs b post s,
         ~ valid_expiry b -> Selling.run s (pre ++ (fs, b) :: post) = None)
  /\ (forall steps s s1,
         Selling.run s steps = Some s1 ->
         Forall (fun fb => valid_expiry (snd fb)) steps).
Proof.
  assert (Hstep : forall fs s b, ~ valid_expiry b -> Selling.next fs s b = None).
  { intros fs s b Hb. unfold Selling.next.
    destruct (date_ctor (Selling.expiry_year b) (Selling.expiry_month b)
                (Selling.expiry_day b)) eqn:E; [|reflexivity].
    exfalso. apply Hb. apply date_ctor_valid. rewrite E. discriminate. }
  split; [exact Hstep|]. split.
  - induction pre as [|[fs0 b0] pre IH]; intros fs b post s Hb; simpl.
    + now rewrite (Hstep fs s b Hb).
    + destruct (Selling.next fs0 s b0); [now apply IH|reflexivity].
  - induction steps as [|[fs b] steps IH]; intros s s1 Hrun; [constructor|].
    simpl in Hrun. destruct (Selling.next fs s b) as [s2|] eqn:E; [|discriminate].
    constructor; [|exact (IH s2 s1 Hrun)].
    simpl. apply date_ctor_valid. unfold Selling.next in E.
    destruct (date_ctor (Selling.expiry_year b) (Selling.expiry_month b)
                (Selling.expiry_day b)); discriminate.
Qed.

Lemma bad_expiry_aborts_the_selling_replay_witness :
  Selling.run Selling.init
    (Demo.sell_round_trip
       ++ (Demo.no_files, Demo.sell_bar (Demo.at_ Demo.day2 9 15) 32) :: [])
  = None
  /\ Forall (fun fb => valid_expiry (snd fb)) Demo.sell_round_trip.
Proof.
  destruct bad_expiry_aborts_the_selling_replay as (_ & Hrun & Hall). split.
  - apply Hrun. intros (_ & _ & _ & Hd). vm_compute in Hd. now contradiction Hd.
  - exact (Hall Demo.sell_round_trip Selling.init Demo.sell_closed_state eq_refl).
Defined.

(* ------------------------------------------------------------------------- *)
(** ** X13: what the loaders do to the rows of a file *)

(** X13.  Both loaders keep every row of the file, each exactly once, and
    put the rows in non-decreasing timestamp order; loading rows that are
    already loaded changes nothing.  The selling loader adds its three
    indicator columns without dropping or reordering a row. *)
Theorem loaders_keep_and_order_rows (raw : list sample) :
  Permutation (sorted_on_load s_ts raw) raw
  /\ is_monotonic_increasing (map s_ts (sorted_on_load s_ts raw)) = true
  /\ sorted_on_load s_ts (sorted_on_load s_ts raw) = sorted_on_load s_ts raw
  /\ map Selling.i_sample (Selling.with_indicators (sorted_on_load s_ts raw))
     = sorted_on_load s_ts raw.
Proof.
  split; [|split; [|split]].
  - unfold sorted_on_load.
    destruct (is_monotonic_increasing (map s_ts raw));
      [apply Permutation_refl|apply sort_index_perm].
  - apply sorted_on_load_monotonic.
  - unfold sorted_on_load at 1. now rewrite sorted_on_load_monotonic.
  - apply with_indicators_samples.
Qed.

(* ------------------------------------------------------------------------- *)
(** ** X14: the entry attributes are set whenever a trade is closed *)

Lemma buying_entry_kept (s s1 : Buying.state) :
  buying_trade s1 = buying_trade s -> buying_books s1 = buying_books s ->
  buying_entry_recorded s -> buying_entry_recorded s1.
Proof.
  unfold buying_entry_recorded, buying_trade, buying_books.
  intros [= T1 T2 _ T4] [= _ B2 B3]. now rewrite T1, T2, T4, B2, B3.
Qed.

Lemma buying_entry_close (b : Buying.bar) (s : Buying.state) r dt price :
  Buying.position_active s = true -> buying_entry_recorded s ->
  buying_entry_recorded (Buying.close_trade b s r dt price).
Proof.
  intros Hact (Ho & Hf & Hs). destruct (Ho Hact) as [Ht _].
  split; [discriminate|]. simpl.
  split; apply Forall_app; (split; [assumption|]); repeat constructor; simpl; auto.
  destruct (Buying.entry_time s); [discriminate|now contradiction Ht].
Qed.

Lemma buying_entry_step (fs : folder) (b : Buying.bar) (s0 s1 : Buying.state) :
  buying_entry_recorded s0 -> buying_outcome fs b s0 s1 -> buying_entry_recorded s1.
Proof.
  intros H Hout.
  assert (Hlook : forall scrip p sl,
            Buying.get_option_price fs s0 scrip (timestamp_of (Buying.bar_dt b))
            = (p, sl) ->
            buying_entry_recorded sl
            /\ Buying.position_active sl = Buying.position_active s0).
  { intros scrip p sl E.
    destruct (buying_lookup_keeps _ _ _ _ _ _ E) as (T & _ & B & _).
    split; [now apply (buying_entry_kept s0)|].
    unfold buying_trade in T. now injection T. }
  assert (Hheld : forall sl c,
            buying_entry_recorded sl ->
            buying_entry_recorded (buying_held sl (Buying.bar_dt b) c)
            /\ Buying.position_active (buying_held sl (Buying.bar_dt b) c)
               = Buying.position_active sl).
  { intros sl c Hsl.
    destruct (buying_held_same_trade sl (Buying.bar_dt b) c) as (T & _ & B & _).
    split; [now apply (buying_entry_kept sl)|].
    unfold buying_trade in T. now injection T. }
  destruct Hout as [p sl Ha _ E|sl _ _ E|c sl Ha _ E _|c sl Ha _ E _|c sl Ha _ E _
                    | |t p sl _ _ _ _ E _|t c sl Hf _ _ _ E _];
    try destruct (Hlook _ _ _ E) as [Hsl Hact]; auto.
  - apply buying_entry_close; [congruence|assumption].
  - now apply Hheld.
  - destruct (Hheld sl c Hsl) as [Hh Hha].
    apply buying_entry_close; [congruence|assumption].
  - destruct (Hheld sl c Hsl) as [Hh Hha].
    apply buying_entry_close; [congruence|assumption].
  - destruct Hsl as (_ & Hfiles & Hrows).
    split; [|split; assumption]. intros _. simpl. split; discriminate.
Qed.

Lemma selling_entry_kept (s s1 : Selling.state) :
  selling_trade s1 = selling_trade s -> selling_books s1 = selling_books s ->
  selling_entry_recorded s -> selling_entry_recorded s1.
Proof.
  unfold selling_entry_recorded, selling_trade, selling_books.
  intros [= T1 T2 _ T4 _] [= _ B2 B3]. now rewrite T1, T2, T4, B2, B3.
Qed.

Lemma selling_entry_close (s : Selling.state) (dt : datetime)
    (row : Selling.indicator_row) (r : Selling.reason) :
  Selling.position_active s = true -> selling_entry_recorded s ->
  selling_entry_recorded
    (Selling.close_trade (selling_held s dt row) r dt (Selling.i_close row)).
Proof.
  intros Hact (Ho & Hf & Hs). destruct (Ho Hact) as [Ht Hp].
  split; [discriminate|]. simpl.
  split; apply Forall_app; (split; [assumption|]); repeat constructor; simpl; auto.
  destruct (Selling.entry_time s); [discriminate|now contradiction Ht].
Qed.

Lemma selling_entry_step (fs : folder) (b : Selling.bar) (ro : bool)
    (s s1 : Selling.state) :
  selling_entry_recorded s -> selling_outcome fs b ro s s1 ->
  selling_entry_recorded s1.
Proof.
  intros H Hout.
  assert (Hlook : forall row sl,
            Selling.get_option_indicators fs s (Selling.active_scrip s)
              (Selling.local_time b) = (row, sl) ->
            selling_entry_recorded sl
            /\ Selling.position_active sl = Selling.position_active s).
  { intros row sl E.
    destruct (selling_lookup_keeps _ _ _ _ _ _ E) as (T & B & _).
    split; [now apply (selling_entry_kept s)|].
    unfold selling_trade in T. now injection T. }
  destruct Hout as [sl _ E|row sl Ha E _|row sl Ha E _ _|row sl Ha E _ _ _
                    |row sl Ha E _ _ _| |r Hf _ _ _|r Hf _ _ _ _];
    try destruct (Hlook _ _ E) as [Hsl Hact]; auto.
  - apply selling_entry_close; [congruence|assumption].
  - apply selling_entry_close; [congruence|assumption].
  - apply selling_entry_close; [congruence|assumption].
  - destruct H as (_ & Hfiles & Hrows).
    split; [|split; assumption]. intros _. simpl. split; discriminate.
  - destruct H as (_ & Hfiles & Hrows).
    split; [|split; assumption]. intros _. simpl. split; discriminate.
Qed.

(** X14.  In every replay of either variant, while a position is open its
    entry time and its side are set, so [close_trade], which takes the date
    of the entry time for the name of the ledger file, never meets a missing
    entry time: every written file carries an entry date and every summary
    row an entry time (and, when selling, a side). *)
Theorem entry_is_recorded_before_any_close :
  (forall steps, buying_entry_recorded (Buying.run Buying.init steps))
  /\ (forall steps s,
         Selling.run Selling.init steps = Some s -> selling_entry_recorded s).
Proof.
  split.
  - intros steps. apply (buying_replay_invariant buying_entry_recorded).
    + split; [discriminate|split; constructor].
    + intros s today H.
      destruct (new_day_reset_frame s today) as (T & _ & B & _).
      now apply (buying_entry_kept s).
    + intros fs b s0 s1. apply buying_entry_step.
  - intros steps s Hrun.
    apply (selling_replay_invariant selling_entry_recorded) in Hrun.
    + exact Hrun.
    + split; [discriminate|split; constructor].
    + intros fs b ro s0 s1. apply selling_entry_step.
Qed.

Lemma entry_is_recorded_before_any_close_witness :
  selling_entry_recorded Demo.sell_closed_state.
Proof.
  exact (proj2 entry_is_recorded_before_any_close Demo.sell_round_trip
           Demo.sell_closed_state eq_refl).
Defined.

(* ------------------------------------------------------------------------- *)
(** ** X15: a contract that gave a price keeps giving one *)

Lemma asof_close_later (df : list sample) (ts ts' : Z) (c : Q) :
  is_monotonic_increasing (map s_ts df) = true -> NoDup (map s_ts df) ->
  Buying.asof_close df ts = Some c -> ts <= ts' ->
  exists c', Buying.asof_close df ts' = Some c'.
Proof.
  unfold Buying.asof_close. intros Hm Hnd H Hle.
  destruct (index_asof (map s_ts df) ts) as [u|] eqn:E; [|discriminate].
  destruct (index_asof_Some _ _ _ Hm Hnd E) as (Hin & Hu & _).
  destruct (index_asof (map s_ts df) ts') as [v|] eqn:E'.
  - destruct (index_asof_Some _ _ _ Hm Hnd E') as (Hv & _).
    destruct (loc_In s_ts df v Hnd Hv) as [r ->]. simpl. eauto.
  - pose proof (index_asof_None _ _ Hm Hnd E' u Hin). lia.
Qed.

(** With a repeated timestamp in the file the price can be lost again: the
    sample of 09:20 is found at 09:20 and no longer at 09:21. *)
Example repeated_stamp_loses_the_price :
  Buying.asof_close repeated_stamp (timestamp_of (Demo.at_ Demo.day1 9 20))
  = Some 10%Q
  /\ Buying.asof_close repeated_stamp (timestamp_of (Demo.at_ Demo.day1 9 21))
     = None.
Proof. split; reflexivity. Qed.

(** X15.  Buying variant, for a contract whose series has distinct
    timestamps (the file read by the call, and the cached frame, which is
    also in index order).  Once [get_option_price] has returned a price for
    the contract, every later call for the same contract at the same or a
    later time returns a price as well, answers from the cache without
    touching the strategy, and does so whatever the options folder then
    holds: the buying variant has no limit on the age of a sample. *)
Theorem resolved_price_stays_resolved (fs fs' : folder) (s sl : Buying.state)
    (scrip : string) (ts ts' : Z) (c : Q) :
  (forall df, Buying.active_option_df s = Some df ->
              is_monotonic_increasing (map s_ts df) = true
              /\ NoDup (map s_ts df)) ->
  (forall raw, fs scrip = Some raw -> NoDup (map s_ts raw)) ->
  Buying.get_option_price fs s scrip ts = (Some c, sl) ->
  ts <= ts' ->
  exists c', Buying.get_option_price fs' sl scrip ts' = (Some c', sl).
Proof.
  intros Hm Hfile H Hle.
  assert (Hsl : exists df, Buying.active_option_df sl = Some df
                           /\ Buying.active_scrip sl = scrip
                           /\ is_monotonic_increasing (map s_ts df) = true
                           /\ NoDup (map s_ts df)
                           /\ Buying.asof_close df ts = Some c).
  { unfold Buying.get_option_price in H.
    destruct (Buying.active_option_df s) as [df|] eqn:Edf.
    - destruct (Buying.active_scrip s =? scrip)%string eqn:Es; simpl in H.
      + injection H as Hc <-. apply String.eqb_eq in Es.
        destruct (Hm df eq_refl) as [Hmono Hnd].
        exists df. repeat split; auto.
      + destruct (fs scrip) as [raw|] eqn:Ef; [|discriminate].
        injection H as Hc <-. eexists. repeat split; [| |exact Hc].
        * apply sorted_on_load_monotonic.
        * apply sorted_on_load_NoDup. now apply Hfile.
    - destruct (fs scrip) as [raw|] eqn:Ef; [|discriminate].
      injection H as Hc <-. eexists. repeat split; [| |exact Hc].
      + apply sorted_on_load_monotonic.
      + apply sorted_on_load_NoDup. now apply Hfile. }
  destruct Hsl as (df & Edf & Es & Hmono & Hnd & Hc).
  destruct (asof_close_later df ts ts' c Hmono Hnd Hc Hle) as [c' Hc'].
  exists c'. unfold Buying.get_option_price.
  rewrite Edf, Es, String.eqb_refl. simpl. now rewrite Hc'.
Qed.

Lemma resolved_price_stays_resolved_witness :
  exists c',
    Buying.get_option_price Demo.no_files
      (Buying.set_cache Buying.init (Some Demo.rally) "MID_CE")
      "MID_CE" (timestamp_of (Demo.at_ Demo.day1 9 32))
    = (Some c', Buying.set_cache Buying.init (Some Demo.rally) "MID_CE").
Proof.
  apply (resolved_price_stays_resolved Demo.buy_folder Demo.no_files Buying.init
           (Buying.set_cache Buying.init (Some Demo.rally) "MID_CE") "MID_CE"
           (timestamp_of (Demo.at_ Demo.day1 9 20))
           (timestamp_of (Demo.at_ Demo.day1 9 32)) 100%Q).
  - discriminate.
  - intros raw [= <-]. vm_compute.
    repeat constructor; simpl; intuition discriminate.
  - reflexivity.
  - vm_compute. discriminate.
Defined.

(* ------------------------------------------------------------------------- *)
(** ** X16: the summary's profit column against its price columns *)

Lemma round_half_even_within (y : Q) :
  (y - (1 # 2) <= inject_Z (round_half_even y) <= y + (1 # 2))%Q.
Proof.
  unfold round_half_even.
  pose proof (Qfloor_le y) as Hlo. pose proof (Qlt_floor y) as Hhi.
  rewrite inject_Z_plus in Hhi. change (inject_Z 1) with 1%Q in Hhi.
  destruct (Qcompare_spec (y - inject_Z (Qfloor y)) (1 # 2)) as [E|E|E].
  - destruct (Z.even (Qfloor y));
      rewrite ?inject_Z_plus; change (inject_Z 1) with 1%Q;
      set (q := inject_Z (Qfloor y)) in *; lra.
  - set (q := inject_Z (Qfloor y)) in *; lra.
  - rewrite inject_Z_plus. change (inject_Z 1) with 1%Q.
    set (q := inject_Z (Qfloor y)) in *; lra.
Qed.

Lemma round2_within (x : Q) : within_half_cent (round2 x) x.
Proof.
  unfold within_half_cent, round2.
  pose proof (round_half_even_within (x * 100)) as H.
  set (n := inject_Z (round_half_even (x * 100))) in *.
  unfold Qdiv. change (/ 100)%Q with (1 # 100)%Q. lra.
Qed.

Lemma rounded_columns_agree (entry exit : Q) :
  columns_agree (round2 ((exit - entry) * 120)) (round2 entry) (round2 exit).
Proof.
  pose proof (round2_within ((exit - entry) * 120)) as Hp.
  pose proof (round2_within entry) as He.
  pose proof (round2_within exit) as Hx.
  unfold within_half_cent, columns_agree in *.
  set (p := round2 ((exit - entry) * 120)) in *.
  set (e := round2 entry) in *. set (x := round2 exit) in *. lra.
Qed.

(** X16.  In the summary of every replay the profit column, computed from
    the unrounded prices, never differs by more than 1.205 from the profit
    recomputed from the two rounded price columns of the same row,
    (SellPrice - BuyPrice) * 120; when selling, SellPrice is the entry and
    BuyPrice the exit. *)
Theorem summary_columns_agree_within_rounding :
  (forall steps,
      Forall (fun r => columns_agree (Buying.PnL r) (Buying.BuyPrice r)
                         (Buying.SellPrice r))
        (Buying.summary_log (Buying.run Buying.init steps)))
  /\ (forall steps s,
         Selling.run Selling.init steps = Some s ->
         Forall (fun r => columns_agree (Selling.PnL r) (Selling.BuyPrice r)
                            (Selling.SellPrice r))
           (Selling.summary_log s)).
Proof.
  split.
  - intros steps.
    apply (Forall_impl _ (P := long_row)).
    + intros r (entry & exit & -> & -> & ->). apply rounded_columns_agree.
    + apply buying_run_summary. constructor.
  - intros steps s Hrun.
    apply (Forall_impl _ (P := short_row)).
    + intros r (entry & exit & -> & -> & ->). apply rounded_columns_agree.
    + apply (selling_run_summary _ _ _ Hrun). constructor.
Qed.

Lemma summary_columns_agree_within_rounding_witness :
  Forall (fun r => columns_agree (Selling.PnL r) (Selling.BuyPrice r)
                     (Selling.SellPrice r))
    (Selling.summary_log Demo.sell_closed_state).
Proof.
  exact (proj2 summary_columns_agree_within_rounding Demo.sell_round_trip
           Demo.sell_closed_state eq_refl).
Defined.

(* ------------------------------------------------------------------------- *)
(** ** C9: recorded profit and loss *)

(** *** The long trade from its entry bar to its exit bar *)










(** *** The short trade from its entry bar to its exit bar *)









(** *** What is recorded and what is compared *)










(** *** Only rounded numbers reach the books *)


















